(** * MoMo offering counter: the payment status reconciliation engine

    A shallow embedding of the ledger store (tables [offerings],
    [daily_summaries], [pending_queue], [categories] of db/database.js), of
    the status transition engine ([getStatusDelta], [updateStatusTxn]), of
    the creation flow ([generateReference], [createOfferingTxn],
    POST /api/offerings), of the reconciliation drivers (webhook, poll,
    manual update) and of the retry worker ([getPendingItems],
    [processPendingQueue]).

    Conventions.
    - A table with a UNIQUE key that the code only reaches through that key
      is a [gmap]; [offerings] is a list in rowid (insertion) order because
      the sums over it are order sensitive.
    - SQLite INTEGER counters are [Z]; SQLite REAL / JS numbers are an
      abstract type [REAL] with its addition, so nothing below relies on
      laws that floating point lacks.
    - JS values that may be [undefined], [null] or a string are
      [option string]; truthiness is written out.
    - Everything the code reads from outside (clocks, [crypto.randomUUID],
      the MoMo client) is an explicit argument. *)

From Stdlib Require Import ZArith String Ascii List Lia DecimalString.
From Stdlib Require Import DecimalFacts DecimalNat.
From stdpp Require Import base option list gmap fin_maps strings sorting.

Local Open Scope string_scope.
Local Open Scope Z_scope.

(** ** JavaScript primitives used by the code *)

(** [a === b] on strings. *)
Definition str_eq (a b : string) : bool := String.eqb a b.

(** Truthiness of a value that is [undefined]/[null] or a string: only a
    non-empty string is truthy. *)
Definition truthy (v : option string) : bool :=
  match v with
  | Some s => negb (str_eq s "")
  | None => false
  end.

(** [v || d] where [d] is a string. *)
Definition or_default (v : option string) (d : string) : string :=
  match v with
  | Some s => if str_eq s "" then d else s
  | None => d
  end.

(** [v || null]. *)
Definition or_null (v : option string) : option string :=
  match v with
  | Some s => if str_eq s "" then None else Some s
  | None => None
  end.

(** [a || b] for two nullable strings. *)
Definition or_else (a b : option string) : option string :=
  if truthy a then a else b.

(** [s.split(' ')[0]]: the characters before the first space. *)
Fixpoint split_space_head (s : string) : string :=
  match s with
  | EmptyString => EmptyString
  | String c rest =>
      if Ascii.eqb c " "%char then EmptyString
      else String c (split_space_head rest)
  end.

(** SQLite's [DATE(ts)] on a 'YYYY-MM-DD HH:MM:SS' text: its first ten
    characters. *)
Definition sql_DATE (ts : string) : string := substring 0 10 ts.

(** [String(n)] for a non-negative integer. *)
Definition String_of_nat (n : nat) : string :=
  NilEmpty.string_of_uint (Nat.to_uint n).

Fixpoint repeat_string (n : nat) (pad : string) : string :=
  match n with
  | O => EmptyString
  | S k => pad ++ repeat_string k pad
  end.

(** [s.padStart(width, '0')]. *)
Definition padStart0 (width : nat) (s : string) : string :=
  repeat_string (width - String.length s) "0" ++ s.

(** [arr.includes(x)] on an array of strings. *)
Definition includes (arr : list string) (x : string) : bool :=
  existsb (str_eq x) arr.

(** ** Ledger store: rows and tables (db/database.js) *)

Section Ledger.

(** SQLite REAL / JS number, with [+]. *)
Context {REAL : Type}.
Variable real_add : REAL -> REAL -> REAL.

(** Row of [offerings] (the rowid and the constant currency column are
    left out; the list position stands for the rowid). *)
Record offering := {
  reference_number : string;
  momo_reference_id : string;
  financial_txn_id : option string;
  category_code : string;
  amount : REAL;
  phone_number : string;
  member_name : option string;
  member_id : option string;
  payer_message : option string;
  status : string;
  created_at : string;
  updated_at : string
}.

(** Row of [daily_summaries], keyed by (summary_date, category_code). *)
Record summary := {
  total_count : Z;
  total_amount : REAL;
  success_count : Z;
  failed_count : Z
}.

(** Row of [pending_queue], keyed by its integer primary key. Queue
    timestamps are UTC instants in seconds: the code only compares and
    orders them, and the text order of SQLite's fixed-width
    'YYYY-MM-DD HH:MM:SS' is the order of the instants. *)
Record queue_row := {
  q_reference_number : string;
  q_momo_reference_id : string;
  q_amount : REAL;
  q_phone_number : string;
  q_payer_message : option string;
  retry_count : Z;
  last_attempt_at : option Z;
  q_created_at : Z
}.

Record category := {
  code : string;
  name : string;
  description : string
}.

Record database := {
  categories : list category;
  offerings : list offering;
  daily_summaries : gmap (string * string) summary;
  pending_queue : gmap Z queue_row;
  (** The AUTOINCREMENT counter of [pending_queue]. *)
  pending_queue_seq : Z
}.

(** The catalog seeded by [initializeDatabase]. *)
Definition seeded_categories : list category :=
  [ {| code := "TITHE"; name := "Tithes"; description := "10% income offering from members" |};
    {| code := "OFFR"; name := "General Offering"; description := "Regular Sunday/service offering" |};
    {| code := "SEED"; name := "Seed Offering"; description := "Special faith-based seed offerings" |};
    {| code := "PLEDG"; name := "Pledge Redemption"; description := "Fulfillment of previously made pledges" |};
    {| code := "BUILD"; name := "Building Fund"; description := "Contributions toward church construction" |};
    {| code := "MISN"; name := "Missions"; description := "Missionary and outreach fund" |};
    {| code := "WELFR"; name := "Welfare"; description := "Benevolence and member welfare support" |};
    {| code := "YOUTH"; name := "Youth Ministry"; description := "Youth department specific offerings" |};
    {| code := "THANKS"; name := "Thanksgiving"; description := "Special thanksgiving offerings" |};
    {| code := "FIRST"; name := "First Fruit"; description := "First fruit / first salary offerings" |} ].

(** The store right after [initializeDatabase]. *)
Definition initial_database : database :=
  {| categories := seeded_categories;
     offerings := [];
     daily_summaries := ∅;
     pending_queue := ∅;
     pending_queue_seq := 0 |}.

Definition set_offerings (l : list offering) (db : database) : database :=
  {| categories := categories db;
     offerings := l;
     daily_summaries := daily_summaries db;
     pending_queue := pending_queue db;
     pending_queue_seq := pending_queue_seq db |}.

Definition set_daily_summaries (m : gmap (string * string) summary)
    (db : database) : database :=
  {| categories := categories db;
     offerings := offerings db;
     daily_summaries := m;
     pending_queue := pending_queue db;
     pending_queue_seq := pending_queue_seq db |}.

Definition set_pending_queue (q : gmap Z queue_row) (db : database) : database :=
  {| categories := categories db;
     offerings := offerings db;
     daily_summaries := daily_summaries db;
     pending_queue := q;
     pending_queue_seq := pending_queue_seq db |}.

(** ** Status transition engine (routes/callbacks.js, routes/offerings.js) *)

(** [SELECT * FROM offerings WHERE reference_number = ?] *)
Definition getOfferingByRef (ref : string) (db : database) : option offering :=
  find (fun o => str_eq (reference_number o) ref) (offerings db).

(** The row that [UPDATE offerings SET status = ?, financial_txn_id = ?,
    updated_at = CURRENT_TIMESTAMP] leaves for [o]. *)
Definition transitioned (now newStatus : string) (fin : option string)
    (o : offering) : offering :=
  {| reference_number := reference_number o;
     momo_reference_id := momo_reference_id o;
     financial_txn_id := fin;
     category_code := category_code o;
     amount := amount o;
     phone_number := phone_number o;
     member_name := member_name o;
     member_id := member_id o;
     payer_message := payer_message o;
     status := newStatus;
     created_at := created_at o;
     updated_at := now |}.

(** What the UPDATE does to one row: [WHERE reference_number = ?]. *)
Definition update_row (now newStatus : string) (fin : option string)
    (ref : string) (o : offering) : offering :=
  if str_eq (reference_number o) ref
  then transitioned now newStatus fin o else o.

(** [UPDATE offerings SET ... WHERE reference_number = ?] *)
Definition updateOfferingStatus (now : string) (newStatus : string)
    (fin : option string) (ref : string) (db : database) : database :=
  set_offerings (map (update_row now newStatus fin ref) (offerings db)) db.

Definition add_counters (successDelta failedDelta : Z) (s : summary) : summary :=
  {| total_count := total_count s;
     total_amount := total_amount s;
     success_count := success_count s + successDelta;
     failed_count := failed_count s + failedDelta |}.

(** [UPDATE daily_summaries SET success_count = success_count + ?,
    failed_count = failed_count + ? WHERE summary_date = ? AND
    category_code = ?]: no row, no change. *)
Definition updateDailySummaryCounters (successDelta failedDelta : Z)
    (summaryDate categoryCode : string) (db : database) : database :=
  set_daily_summaries
    (alter (add_counters successDelta failedDelta)
           (summaryDate, categoryCode) (daily_summaries db))
    db.

Record status_delta := {
  successDelta : Z;
  failedDelta : Z
}.

Definition getStatusDelta (oldStatus newStatus : string) : status_delta :=
  let successDelta0 := 0 in
  let failedDelta0 := 0 in
  let successDelta1 :=
    if str_eq oldStatus "SUCCESSFUL" then successDelta0 - 1 else successDelta0 in
  let failedDelta1 :=
    if str_eq oldStatus "FAILED" then failedDelta0 - 1 else failedDelta0 in
  let successDelta2 :=
    if str_eq newStatus "SUCCESSFUL" then successDelta1 + 1 else successDelta1 in
  let failedDelta2 :=
    if str_eq newStatus "FAILED" then failedDelta1 + 1 else failedDelta1 in
  {| successDelta := successDelta2; failedDelta := failedDelta2 |}.

(** What [updateStatusTxn] returns when the reference exists. The
    returned row is the object spread of the code: the row as it was
    read, with the new status and the settlement id as passed. *)
Record transition_result := {
  result_offering : offering;
  changed : bool
}.

Definition with_status (o : offering) (newStatus : string)
    (fin : option string) : offering :=
  {| reference_number := reference_number o;
     momo_reference_id := momo_reference_id o;
     financial_txn_id := fin;
     category_code := category_code o;
     amount := amount o;
     phone_number := phone_number o;
     member_name := member_name o;
     member_id := member_id o;
     payer_message := payer_message o;
     status := newStatus;
     created_at := created_at o;
     updated_at := updated_at o |}.

(** [updateStatusTxn]: one store transaction. [now] is the store's
    CURRENT_TIMESTAMP; [None] is the code's [null] (reference unknown). *)
Definition updateStatusTxn (now : string) (referenceNumber newStatus : string)
    (financialTxnId : option string) (db : database)
    : option transition_result * database :=
  match getOfferingByRef referenceNumber db with
  | None => (None, db)
  | Some offering =>
      let oldStatus := status offering in
      if str_eq oldStatus newStatus then
        (Some {| result_offering := offering; changed := false |}, db)
      else
        let db1 :=
          updateOfferingStatus now newStatus (or_null financialTxnId)
                               referenceNumber db in
        let summaryDate := split_space_head (created_at offering) in
        let d := getStatusDelta oldStatus newStatus in
        let db2 :=
          updateDailySummaryCounters (successDelta d) (failedDelta d)
                                     summaryDate (category_code offering) db1 in
        (Some {| result_offering := with_status offering newStatus financialTxnId;
                 changed := true |}, db2)
  end.

(** ** Creation flow (services/referenceGen.js, utils/helpers.js,
    routes/offerings.js) *)

(** What the code reads off [new Date()]: the server's local calendar
    date. *)
Record js_date := {
  getFullYear : nat;
  getMonth : nat;
  getDate : nat
}.

(** [getTodayDateString]: "today's date as YYYY-MM-DD in the server's
    local timezone". *)
Definition getTodayDateString (now : js_date) : string :=
  let year := String_of_nat (getFullYear now) in
  let month := padStart0 2 (String_of_nat (getMonth now + 1)) in
  let day := padStart0 2 (String_of_nat (getDate now)) in
  year ++ "-" ++ month ++ "-" ++ day.

(** [SELECT COUNT( * ) as count FROM offerings WHERE category_code = ?
    AND DATE(created_at) = ?] *)
Definition countTodayByCategory (categoryCode todayStr : string)
    (db : database) : nat :=
  length (List.filter (fun o => str_eq (category_code o) categoryCode
                           && str_eq (sql_DATE (created_at o)) todayStr)
                 (offerings db)).

(** [generateReference]: {CATEGORY}-{YYYY}-{MMDD}-{SEQ}. *)
Definition generateReference (now : js_date) (categoryCode : string)
    (db : database) : string :=
  let year := String_of_nat (getFullYear now) in
  let month := padStart0 2 (String_of_nat (getMonth now + 1)) in
  let day := padStart0 2 (String_of_nat (getDate now)) in
  let todayStr := year ++ "-" ++ month ++ "-" ++ day in
  let count := countTodayByCategory categoryCode todayStr db in
  let seq := padStart0 3 (String_of_nat (count + 1)) in
  categoryCode ++ "-" ++ year ++ "-" ++ month ++ day ++ "-" ++ seq.

(** [SELECT * FROM categories WHERE code = ?] *)
Definition getCategoryByCode (c : string) (db : database) : option category :=
  find (fun cat => str_eq (code cat) c) (categories db).

(** [SELECT code FROM categories]: the codes as the store returns them,
    in the order of the primary key's index, that is by code. *)
Definition getAllCategories (db : database) : list string :=
  merge_sort String.le (map code (categories db)).

(** The row that [INSERT INTO offerings (...) VALUES (..., 'PENDING')]
    adds: NULL settlement id, [created_at] and [updated_at] at their default
    CURRENT_TIMESTAMP. *)
Definition pending_offering (utc_now refNumber momoRefId categoryCode : string)
    (amt : REAL) (phone : string) (memberName memberId payerMessage : option string)
    : offering :=
  {| reference_number := refNumber;
     momo_reference_id := momoRefId;
     financial_txn_id := None;
     category_code := categoryCode;
     amount := amt;
     phone_number := phone;
     member_name := memberName;
     member_id := memberId;
     payer_message := payerMessage;
     status := "PENDING";
     created_at := utc_now;
     updated_at := utc_now |}.

(** [INSERT INTO offerings (...) VALUES (..., 'PENDING')]. The insert
    raises ([None]) when a constraint of the schema fails: UNIQUE on
    [reference_number], UNIQUE on [momo_reference_id], or the foreign key
    of [category_code]. [utc_now] is the store's CURRENT_TIMESTAMP, a UTC
    'YYYY-MM-DD HH:MM:SS' text, the default of [created_at] and
    [updated_at]. *)
Definition insertOffering (utc_now : string)
    (refNumber momoRefId categoryCode : string) (amt : REAL)
    (phone : string) (memberName memberId payerMessage : option string)
    (db : database) : option database :=
  if existsb (fun o => str_eq (reference_number o) refNumber) (offerings db)
     || existsb (fun o => str_eq (momo_reference_id o) momoRefId) (offerings db)
     || negb (existsb (fun cat => str_eq (code cat) categoryCode) (categories db))
  then None
  else Some (set_offerings
               (offerings db ++
                [ pending_offering utc_now refNumber momoRefId categoryCode amt
                                   phone memberName memberId payerMessage ])
               db).

(** [INSERT INTO daily_summaries (summary_date, category_code,
    total_count, total_amount) VALUES (?, ?, 1, ?) ON CONFLICT DO UPDATE
    SET total_count = total_count + 1, total_amount = total_amount +
    excluded.total_amount]. The counters of a new row take their default
    0. (Its foreign key is the one [insertOffering] has just checked.) *)
Definition upsertDailySummary (summaryDate categoryCode : string) (amt : REAL)
    (db : database) : database :=
  set_daily_summaries
    (match daily_summaries db !! (summaryDate, categoryCode) with
     | None =>
         <[ (summaryDate, categoryCode) :=
              {| total_count := 1; total_amount := amt;
                 success_count := 0; failed_count := 0 |} ]>
           (daily_summaries db)
     | Some s =>
         <[ (summaryDate, categoryCode) :=
              {| total_count := total_count s + 1;
                 total_amount := real_add (total_amount s) amt;
                 success_count := success_count s;
                 failed_count := failed_count s |} ]>
           (daily_summaries db)
     end)
    db.

(** The argument of [createOfferingTxn]. *)
Record offering_data := {
  data_phone : string;
  data_amount : REAL;
  data_category : string;
  data_memberName : option string;
  data_note : option string
}.

Record created_ids := {
  refNumber : string;
  momoRefId : string
}.

(** [createOfferingTxn]: one store transaction; [None] when the insert
    raises (the transaction is rolled back and the exception reaches the
    caller). [now] is the local calendar date read by [generateReference]
    and [getTodayDateString], [utc_now] the store's CURRENT_TIMESTAMP,
    [uuid] the value of [crypto.randomUUID()]. *)
Definition createOfferingTxn (now : js_date) (utc_now : string) (uuid : string)
    (data : offering_data) (db : database) : option (created_ids * database) :=
  let refNumber := generateReference now (data_category data) db in
  let momoRefId := uuid in
  let todayStr := getTodayDateString now in
  match insertOffering utc_now refNumber momoRefId (data_category data)
                       (data_amount data) (data_phone data)
                       (or_null (data_memberName data)) None
                       (or_null (data_note data)) db with
  | None => None
  | Some db1 =>
      Some ({| refNumber := refNumber; momoRefId := momoRefId |},
            upsertDailySummary todayStr (data_category data)
                               (data_amount data) db1)
  end.

(** The argument of [momoService.requestToPay]. *)
Record pay_request := {
  pay_amount : REAL;
  pay_phone : string;
  pay_referenceNumber : string;
  pay_message : string;
  pay_momoReferenceId : string
}.

(** [INSERT INTO pending_queue (reference_number, momo_reference_id,
    amount, phone_number, payer_message) VALUES (...)]: the key is the
    next AUTOINCREMENT value, [retry_count] defaults to 0,
    [last_attempt_at] to NULL, [created_at] to the current instant. The
    insert raises ([None]) when the foreign key of [reference_number]
    fails. *)
Definition insertPendingQueue (now_s : Z)
    (refNumber momoRefId : string) (amt : REAL) (phone : string)
    (payerMessage : string) (db : database) : option database :=
  if existsb (fun o => str_eq (reference_number o) refNumber) (offerings db)
  then
    let id := pending_queue_seq db + 1 in
    Some {| categories := categories db;
            offerings := offerings db;
            daily_summaries := daily_summaries db;
            pending_queue :=
              <[ id := {| q_reference_number := refNumber;
                          q_momo_reference_id := momoRefId;
                          q_amount := amt;
                          q_phone_number := phone;
                          q_payer_message := Some payerMessage;
                          retry_count := 0;
                          last_attempt_at := None;
                          q_created_at := now_s |} ]>
                (pending_queue db);
            pending_queue_seq := id |}
  else None.

(** The JSON body of POST /api/offerings. [RAW] is the JS value of the
    [amount] field; its truthiness, [parseFloat] ([None] for NaN) and the
    test [x <= 0] are the language's. *)
Context {RAW : Type}.
Variable raw_truthy : RAW -> bool.
Variable parseFloat : RAW -> option REAL.
Variable real_le_0 : REAL -> bool.

Record create_body := {
  body_phone : option string;
  body_amount : option RAW;
  body_category : option string;
  body_memberName : option string;
  body_note : option string
}.

Inductive create_response :=
| Create202 (referenceNumber momoReferenceId status : string)
            (momoError : option string)
| Create400 (error : string)
| Create500.

Definition create_http_status (r : create_response) : Z :=
  match r with
  | Create202 _ _ _ _ => 202
  | Create400 _ => 400
  | Create500 => 500
  end.

(** The [success] field of the JSON answer. *)
Definition create_success (r : create_response) : bool :=
  match r with
  | Create202 _ _ _ _ => true
  | _ => false
  end.

(** POST /api/offerings. [requestToPay] answers [None] when the MoMo
    client accepts the request and [Some msg] when it throws an error
    with that message; [queue_now] is the instant at which the retry
    entry is inserted. *)
Definition post_offering (now : js_date) (utc_now : string) (uuid : string)
    (requestToPay : pay_request -> option string) (queue_now : Z)
    (body : create_body) (db : database) : create_response * database :=
  match body_phone body with
  | None => (Create400 "Phone number is required", db)
  | Some phone =>
  if negb (truthy (Some phone)) then (Create400 "Phone number is required", db) else
  match body_amount body with
  | None => (Create400 "Amount is required", db)
  | Some amount =>
  if negb (raw_truthy amount) then (Create400 "Amount is required", db) else
  match body_category body with
  | None => (Create400 "Category is required", db)
  | Some category =>
  if negb (truthy (Some category)) then (Create400 "Category is required", db) else
  match parseFloat amount with
  | None => (Create400 "Amount must be a positive number", db)
  | Some parsedAmount =>
  if real_le_0 parsedAmount then (Create400 "Amount must be a positive number", db) else
  match getCategoryByCode category db with
  | None =>
      let validCodes := getAllCategories db in
      (Create400 ("Invalid category '" ++ category ++ "'. Valid categories: "
                  ++ String.concat ", " validCodes), db)
  | Some cat =>
  match createOfferingTxn now utc_now uuid
          {| data_phone := phone; data_amount := parsedAmount;
             data_category := category;
             data_memberName := body_memberName body;
             data_note := body_note body |} db with
  | None => (Create500, db)
  | Some (ids, db1) =>
      let message := or_default (body_note body) (name cat ++ " Offering") in
      match requestToPay {| pay_amount := parsedAmount;
                            pay_phone := phone;
                            pay_referenceNumber := refNumber ids;
                            pay_message := message;
                            pay_momoReferenceId := momoRefId ids |} with
      | None =>
          (Create202 (refNumber ids) (momoRefId ids) "PENDING" None, db1)
      | Some err =>
          let db2 :=
            match insertPendingQueue queue_now (refNumber ids) (momoRefId ids)
                                     parsedAmount phone message db1 with
            | Some db' => db'
            | None => db1
            end in
          (Create202 (refNumber ids) (momoRefId ids) "PENDING" (or_null (Some err)),
           db2)
      end
  end end end end end end.

(** ** Reconciliation drivers *)

Definition validStatuses : list string := ["SUCCESSFUL"; "FAILED"; "PENDING"].

(** The JSON body of POST /api/callbacks/momo. *)
Record callback_body := {
  externalId : option string;
  callback_status : option string;
  financialTransactionId : option string
}.

Inductive callback_response :=
| Callback200
| Callback400 (error : string)
| Callback404 (error : string)
| Callback500 (error : string).

Definition callback_http_status (r : callback_response) : Z :=
  match r with
  | Callback200 => 200
  | Callback400 _ => 400
  | Callback404 _ => 404
  | Callback500 _ => 500
  end.

(** POST /api/callbacks/momo, the webhook of the MoMo provider. (In this
    model [updateStatusTxn] raises nowhere, so the handler's catch-all,
    which answers 500 'Internal server error', is never entered.) *)
Definition post_momo_callback (utc_now : string) (body : callback_body)
    (db : database) : callback_response * database :=
  if negb (truthy (externalId body)) || negb (truthy (callback_status body))
  then (Callback400 "Missing externalId or status", db)
  else
    match externalId body, callback_status body with
    | Some ext, Some st =>
        if negb (includes validStatuses st)
        then (Callback400 ("Invalid status: " ++ st), db)
        else
          match updateStatusTxn utc_now ext st (financialTransactionId body) db with
          | (None, db') => (Callback404 "Offering not found", db')
          | (Some _, db') => (Callback200, db')
          end
    | _, _ => (Callback400 "Missing externalId or status", db)
    end.

(** The JSON body of PUT /api/offerings/:referenceNumber/status. *)
Record update_body := {
  update_status : option string;
  update_financialTxnId : option string
}.

Inductive update_response :=
| Update200 (status : string) (financialTxnId : option string) (changed : bool)
| Update400
| Update404.

(** PUT /api/offerings/:referenceNumber/status, the manual update. *)
Definition put_status (utc_now : string) (referenceNumber : string)
    (body : update_body) (db : database) : update_response * database :=
  match update_status body with
  | Some st =>
      if negb (truthy (Some st)) || negb (includes validStatuses st)
      then (Update400, db)
      else
        match updateStatusTxn utc_now referenceNumber st
                              (update_financialTxnId body) db with
        | (None, db') => (Update404, db')
        | (Some result, db') =>
            (Update200 st (or_null (update_financialTxnId body)) (changed result),
             db')
        end
  | None => (Update400, db)
  end.

(** What [momoService.checkStatus] resolves to. *)
Record momo_status := {
  momo_state : option string;
  momo_financialTransactionId : option string
}.

Inductive poll_response :=
| Poll404
| Poll200 (status : string) (financialTxnId : option string)
          (momoError : option string).

(** What a handler leaves behind: its answer, the store, and the calls
    it made to the MoMo client (the reference ids it queried). *)
Record poll_outcome := {
  poll_answer : poll_response;
  poll_db : database;
  poll_calls : list string
}.

(** GET /api/offerings/:referenceNumber/status, the poll driver.
    [checkStatus] answers [inr s] when the query resolves to [s] and
    [inl msg] when it throws an error with that message. *)
Definition get_status (utc_now : string)
    (checkStatus : string -> string + momo_status)
    (referenceNumber : string) (db : database) : poll_outcome :=
  match getOfferingByRef referenceNumber db with
  | None => {| poll_answer := Poll404; poll_db := db; poll_calls := [] |}
  | Some offering =>
      if str_eq (status offering) "SUCCESSFUL" || str_eq (status offering) "FAILED"
      then {| poll_answer := Poll200 (status offering) (financial_txn_id offering) None;
              poll_db := db; poll_calls := [] |}
      else
        match checkStatus (momo_reference_id offering) with
        | inl err =>
            {| poll_answer := Poll200 (status offering) (financial_txn_id offering)
                                      (Some err);
               poll_db := db;
               poll_calls := [momo_reference_id offering] |}
        | inr momoStatus =>
            let newStatus := momo_state momoStatus in
            let financialTxnId := or_null (momo_financialTransactionId momoStatus) in
            let db' :=
              match newStatus with
              | Some st =>
                  if truthy newStatus && negb (str_eq st (status offering))
                  then snd (updateStatusTxn utc_now referenceNumber st financialTxnId db)
                  else db
              | None => db
              end in
            {| poll_answer :=
                 Poll200 (or_default newStatus (status offering))
                         (or_else financialTxnId (financial_txn_id offering))
                         None;
               poll_db := db';
               poll_calls := [momo_reference_id offering] |}
        end
  end.

(** ** Retry worker (services/retryWorker.js) *)

Definition RETRY_INTERVAL_MS : Z := 60000.
Definition MAX_RETRIES : Z := 5.
Definition COOLDOWN_MINUTES : Z := 2.
Definition BATCH_SIZE : Z := 10.

(** The WHERE clause of [getPendingItems]: [retry_count < ? AND
    (last_attempt_at IS NULL OR last_attempt_at < datetime('now',
    '-2 minutes'))], at the instant [now_s] of the query. *)
Definition eligible (max_retries now_s : Z) (r : queue_row) : bool :=
  (retry_count r <? max_retries)
  && match last_attempt_at r with
     | None => true
     | Some t => t <? now_s - COOLDOWN_MINUTES * 60
     end.

(** [ORDER BY created_at ASC]. SQL leaves the order of rows with equal
    [created_at] open; the model breaks ties by primary key. *)
Definition created_le (a b : Z * queue_row) : Prop :=
  q_created_at a.2 < q_created_at b.2
  ∨ (q_created_at a.2 = q_created_at b.2 ∧ a.1 ≤ b.1).

#[local] Instance created_le_dec : RelDecision created_le.
Proof. intros a b. unfold created_le. apply _. Defined.

(** The rows, with their keys, that [getPendingItems] selects. *)
Definition getPendingRows (max_retries limit now_s : Z) (db : database)
    : list (Z * queue_row) :=
  take (Z.to_nat limit)
       (merge_sort created_le
          (List.filter (fun kr => eligible max_retries now_s kr.2)
                       (map_to_list (pending_queue db)))).

(** The columns [getPendingItems] returns. *)
Record pending_item := {
  item_id : Z;
  item_reference_number : string;
  item_momo_reference_id : string;
  item_amount : REAL;
  item_phone_number : string;
  item_payer_message : option string
}.

Definition select_columns (kr : Z * queue_row) : pending_item :=
  {| item_id := kr.1;
     item_reference_number := q_reference_number kr.2;
     item_momo_reference_id := q_momo_reference_id kr.2;
     item_amount := q_amount kr.2;
     item_phone_number := q_phone_number kr.2;
     item_payer_message := q_payer_message kr.2 |}.

Definition getPendingItems (max_retries limit now_s : Z) (db : database)
    : list pending_item :=
  map select_columns (getPendingRows max_retries limit now_s db).

(** [DELETE FROM pending_queue WHERE id = ?] *)
Definition deleteQueueItem (id : Z) (db : database) : database :=
  set_pending_queue (delete id (pending_queue db)) db.

Definition bump_retry (now_s : Z) (r : queue_row) : queue_row :=
  {| q_reference_number := q_reference_number r;
     q_momo_reference_id := q_momo_reference_id r;
     q_amount := q_amount r;
     q_phone_number := q_phone_number r;
     q_payer_message := q_payer_message r;
     retry_count := retry_count r + 1;
     last_attempt_at := Some now_s;
     q_created_at := q_created_at r |}.

(** [UPDATE pending_queue SET retry_count = retry_count + 1,
    last_attempt_at = CURRENT_TIMESTAMP WHERE id = ?] *)
Definition incrementRetry (now_s : Z) (id : Z) (db : database) : database :=
  set_pending_queue (alter (bump_retry now_s) id (pending_queue db)) db.

(** The two counters the worker logs at the end of a tick. *)
Record tick_report := {
  succeeded : Z;
  failed : Z
}.

Definition resubmission (item : pending_item) : pay_request :=
  {| pay_amount := item_amount item;
     pay_phone := item_phone_number item;
     pay_referenceNumber := item_reference_number item;
     pay_message := or_default (item_payer_message item) "Church Offering";
     pay_momoReferenceId := item_momo_reference_id item |}.

(** The [for (const item of items)] loop of [processPendingQueue].
    [clock id] is the store's CURRENT_TIMESTAMP when the failure of the
    item with that key is recorded. *)
Fixpoint process_items (requestToPay : pay_request -> option string)
    (clock : Z -> Z) (items : list pending_item) (db : database)
    (report : tick_report) : database * tick_report :=
  match items with
  | [] => (db, report)
  | item :: rest =>
      match requestToPay (resubmission item) with
      | None =>
          process_items requestToPay clock rest
            (deleteQueueItem (item_id item) db)
            {| succeeded := succeeded report + 1; failed := failed report |}
      | Some err =>
          process_items requestToPay clock rest
            (incrementRetry (clock (item_id item)) (item_id item) db)
            {| succeeded := succeeded report; failed := failed report + 1 |}
      end
  end.

(** [processPendingQueue]: one tick of the retry worker, at the instant
    [now_s] of its query. *)
Definition processPendingQueue (now_s : Z)
    (requestToPay : pay_request -> option string) (clock : Z -> Z)
    (db : database) : database * tick_report :=
  let items := getPendingItems MAX_RETRIES BATCH_SIZE now_s db in
  match items with
  | [] => (db, {| succeeded := 0; failed := 0 |})
  | _ => process_items requestToPay clock items db
                       {| succeeded := 0; failed := 0 |}
  end.

(** ** Vocabulary of the specification *)

(** The delta rule in the specification's words: decrement the counter of
    the old status if it is a counted one, increment the counter of the new
    status if it is a counted one. *)
Definition spec_delta (counted oldStatus newStatus : string) : Z :=
  (if decide (newStatus = counted) then 1 else 0)
  - (if decide (oldStatus = counted) then 1 else 0).

(** The daily bucket a transaction belongs to, as the transition engine
    computes it: the date of [created_at] and the category. *)
Definition bucket_of (o : offering) : string * string :=
  (split_space_head (created_at o), category_code o).

(** One operation on the ledger, with everything it reads from outside:
    a creation ([createOfferingTxn]) or a transition ([updateStatusTxn]). *)
Inductive ledger_op :=
| Create (now : js_date) (utc_now : string) (uuid : string) (data : offering_data)
| Transition (utc_now : string) (referenceNumber newStatus : string)
             (financialTxnId : option string).

(** A creation whose insert raises is rolled back and leaves the store as
    it was. *)
Definition apply_op (db : database) (op : ledger_op) : database :=
  match op with
  | Create now utc_now uuid data =>
      match createOfferingTxn now utc_now uuid data db with
      | Some (_, db') => db'
      | None => db
      end
  | Transition utc_now referenceNumber newStatus financialTxnId =>
      (updateStatusTxn utc_now referenceNumber newStatus financialTxnId db).2
  end.

Definition run (ops : list ledger_op) (db : database) : database :=
  fold_left apply_op ops db.

Definition in_bucket (b : string * string) (o : offering) : bool :=
  str_eq (split_space_head (created_at o)) b.1 && str_eq (category_code o) b.2.

(** The transactions of a bucket, oldest first. *)
Definition bucket_rows (b : string * string) (db : database) : list offering :=
  List.filter (in_bucket b) (offerings db).

Definition count_status (st : string) (rows : list offering) : Z :=
  Z.of_nat (length (List.filter (fun o => str_eq (status o) st) rows)).

(** The sum of a bucket's amounts in the order of creation, which is the
    order in which [upsertDailySummary] adds them up; none for no amount. *)
Definition sum_amounts (l : list REAL) : option REAL :=
  match l with
  | [] => None
  | a :: rest => Some (fold_left real_add rest a)
  end.

(** Aggregate consistency of one bucket: its summary row counts and sums
    the bucket's transactions; a bucket without a row has none. *)
Definition bucket_consistent (db : database) (b : string * string) : Prop :=
  match daily_summaries db !! b with
  | Some s =>
      success_count s = count_status "SUCCESSFUL" (bucket_rows b db)
      /\ failed_count s = count_status "FAILED" (bucket_rows b db)
      /\ total_count s = Z.of_nat (length (bucket_rows b db))
      /\ Some (total_amount s) = sum_amounts (map amount (bucket_rows b db))
  | None => bucket_rows b db = []
  end.

Definition aggregate_consistent (db : database) : Prop :=
  forall b, bucket_consistent db b.

(** The local calendar date that a creation reads is the date of the
    store's UTC timestamp. *)
Definition clock_agrees (op : ledger_op) : Prop :=
  match op with
  | Create now utc_now _ _ => getTodayDateString now = split_space_head utc_now
  | Transition _ _ _ _ => True
  end.

(** The store invariant: references are unique (the UNIQUE constraint of
    [reference_number]) and every bucket is consistent. *)
Definition ledger_invariant (db : database) : Prop :=
  NoDup (map reference_number (offerings db)) /\ aggregate_consistent db.

End Ledger.

(** * The rest of the code *)

(** ** utils/helpers.js *)

(** [s.slice(-n)]: the last [n] characters, all of [s] when it has fewer. *)
Definition slice_last (n : nat) (s : string) : string :=
  substring (String.length s - n) n s.

(** [maskPhone]: "Shows first 3, masks middle with ***, shows last 4". *)
Definition maskPhone (phone : option string) : string :=
  match phone with
  | None => or_default phone ""
  | Some p =>
      if negb (truthy phone) || (String.length p <? 7)%nat
      then or_default phone ""
      else substring 0 3 p ++ "***" ++ slice_last 4 p
  end.

(** The character classes of the pattern of [isValidDateString]. *)
Inductive pattern_token := Digit | Dash.

(** [\d] of a JS regular expression: '0' to '9'. *)
Definition is_digit (c : ascii) : bool :=
  (48 <=? nat_of_ascii c)%nat && (nat_of_ascii c <=? 57)%nat.

Definition token_matches (t : pattern_token) (c : ascii) : bool :=
  match t with
  | Digit => is_digit c
  | Dash => Ascii.eqb c "-"%char
  end.

(** An anchored match [^...$] of a sequence of one-character classes. *)
Fixpoint pattern_test (pat : list pattern_token) (s : string) : bool :=
  match pat, s with
  | [], EmptyString => true
  | t :: pat', String c s' => token_matches t c && pattern_test pat' s'
  | _, _ => false
  end.

(** [/^\d{4}-\d{2}-\d{2}$/] *)
Definition date_pattern : list pattern_token :=
  [Digit; Digit; Digit; Digit; Dash; Digit; Digit; Dash; Digit; Digit].

Definition isValidDateString (dateStr : string) : bool :=
  pattern_test date_pattern dateStr.

(** [str.includes(c)] for a one-character [c]. *)
Fixpoint includes_char (c : ascii) (s : string) : bool :=
  match s with
  | EmptyString => false
  | String d rest => Ascii.eqb d c || includes_char c rest
  end.

(** The double quote and the line feed. *)
Definition dquote : ascii := "034"%char.
Definition line_feed : ascii := "010"%char.

(** [str.replace] with the global pattern of one double quote: every
    double quote becomes two. *)
Fixpoint double_dquotes (s : string) : string :=
  match s with
  | EmptyString => EmptyString
  | String c rest =>
      if Ascii.eqb c dquote
      then String dquote (String dquote (double_dquotes rest))
      else String c (double_dquotes rest)
  end.

(** [escapeField] of [offeringsToCSV], on the text [String(field)]. *)
Definition escapeField (str : string) : string :=
  if includes_char ","%char str || includes_char dquote str
     || includes_char line_feed str
  then String dquote (double_dquotes str ++ String dquote EmptyString)
  else str.

(** ** services/momoService.js *)

(** [toMSISDN]: 0241234567 becomes 233241234567. *)
Definition toMSISDN (phone : string) : string :=
  match phone with
  | String c rest => if Ascii.eqb c "0"%char then "233" ++ rest else phone
  | EmptyString => phone
  end.

(** The module's token cache: [cachedToken] and [tokenExpiresAt]
    (milliseconds since the epoch). *)
Record token_cache := {
  cachedToken : option string;
  tokenExpiresAt : Z
}.

Definition initial_token_cache : token_cache :=
  {| cachedToken := None; tokenExpiresAt := 0 |}.

(** What the token endpoint answers: a response that is not [ok], with its
    status and text, or the JSON body's [access_token]. *)
Inductive token_reply :=
| TokenRefused (http_status text : string)
| TokenGranted (access_token : option string).

(** What a call of [getToken] leaves: the value it resolves to ([inl msg]
    when it throws), the cache, and the number of requests it sent. *)
Record token_outcome := {
  token_answer : string + option string;
  token_state : token_cache;
  token_requests : nat
}.

(** [String(n)] for an integer. *)
Definition String_of_Z (z : Z) : string :=
  NilZero.string_of_int (Z.to_int z).

(** [getToken]. [now] is [Date.now()]; [reply] is what the token endpoint
    would answer if asked. *)
Definition getToken (demo_mode : bool) (now : Z) (reply : token_reply)
    (cache : token_cache) : token_outcome :=
  if demo_mode then
    {| token_answer := inr (Some ("demo-token-" ++ String_of_Z now));
       token_state := cache; token_requests := 0 |}
  else if truthy (cachedToken cache) && (now <? tokenExpiresAt cache) then
    {| token_answer := inr (cachedToken cache);
       token_state := cache; token_requests := 0 |}
  else
    match reply with
    | TokenRefused http_status text =>
        {| token_answer :=
             inl ("MoMo token request failed (" ++ http_status ++ "): " ++ text);
           token_state := cache; token_requests := 1 |}
    | TokenGranted access_token =>
        {| token_answer := inr access_token;
           token_state := {| cachedToken := access_token;
                             tokenExpiresAt := now + 3500 * 1000 |};
           token_requests := 1 |}
    end.

(** ** The health check, the demo tools and the vocabulary of the
    invariants *)

Section Reports.

Context {REAL : Type}.
Variable real_add : REAL -> REAL -> REAL.

Local Abbreviation offering := (@offering REAL).
Local Abbreviation queue_row := (@queue_row REAL).
Local Abbreviation database := (@database REAL).
Local Abbreviation pay_request := (@pay_request REAL).
Implicit Types db : database.
Implicit Types o : offering.

(** *** Health check (server.js) *)

(** [SELECT COUNT( * ) as size FROM pending_queue WHERE retry_count < 5] *)
Definition getQueueSize (db : database) : nat :=
  length (List.filter (fun kr : Z * queue_row => retry_count kr.2 <? 5)
                      (map_to_list (pending_queue db))).

(** *** Demo mode of the MoMo client (services/momoService.js) *)

(** An entry of the in-memory map [demoStatuses]. *)
Record demo_entry := {
  demo_status : string;
  demo_referenceNumber : string;
  demo_financialTransactionId : option string
}.

(** [SELECT * FROM offerings WHERE momo_reference_id = ?] *)
Definition getOfferingByMomoRef (referenceId : string) (db : database)
    : option offering :=
  find (fun o => str_eq (momo_reference_id o) referenceId) (offerings db).

(** [requestToPay] in DEMO_MODE, up to its return: the request is
    recorded as PENDING and accepted. [uuid] is [crypto.randomUUID()]. *)
Definition demo_requestToPay (uuid : string) (req : pay_request)
    (demoStatuses : gmap string demo_entry) : string * gmap string demo_entry :=
  let referenceId := or_default (Some (pay_momoReferenceId req)) uuid in
  (referenceId,
   <[ referenceId := {| demo_status := "PENDING";
                        demo_referenceNumber := pay_referenceNumber req;
                        demo_financialTransactionId := None |} ]> demoStatuses).

(** [UPDATE offerings SET status = ?, financial_txn_id = ?, updated_at =
    CURRENT_TIMESTAMP WHERE momo_reference_id = ?] *)
Definition updateOfferingByMomoRef (utc_now newStatus : string)
    (fin : option string) (referenceId : string) (db : database) : database :=
  set_offerings
    (map (fun o => if str_eq (momo_reference_id o) referenceId
                   then transitioned utc_now newStatus fin o else o)
         (offerings db))
    db.

(** The callback that [requestToPay] schedules in DEMO_MODE, run three
    seconds later. [lucky] is [Math.random() < 0.9], [stamp] the text
    [Date.now().toString(36).toUpperCase()], [utc_now] the store's
    CURRENT_TIMESTAMP. *)
Definition demo_settle (utc_now : string) (lucky : bool) (stamp : string)
    (referenceId referenceNumber : string)
    (demoStatuses : gmap string demo_entry) (db : database)
    : gmap string demo_entry * database :=
  let simulatedStatus := if lucky then "SUCCESSFUL" else "FAILED" in
  let financialTxnId :=
    if str_eq simulatedStatus "SUCCESSFUL" then Some ("FT" ++ stamp) else None in
  let demoStatuses' :=
    <[ referenceId := {| demo_status := simulatedStatus;
                         demo_referenceNumber := referenceNumber;
                         demo_financialTransactionId := financialTxnId |} ]>
      demoStatuses in
  let db' :=
    match getOfferingByMomoRef referenceId db with
    | Some offering =>
        if str_eq (status offering) "PENDING" then
          let db1 :=
            updateOfferingByMomoRef utc_now simulatedStatus financialTxnId
                                    referenceId db in
          let summaryDate := split_space_head (created_at offering) in
          let successDelta := if str_eq simulatedStatus "SUCCESSFUL" then 1 else 0 in
          let failedDelta := if str_eq simulatedStatus "FAILED" then 1 else 0 in
          updateDailySummaryCounters successDelta failedDelta summaryDate
                                     (category_code offering) db1
        else db
    | None => db
    end in
  (demoStatuses', db').

(** [checkStatus] in DEMO_MODE. *)
Definition demo_checkStatus (demoStatuses : gmap string demo_entry)
    (db : database) (referenceId : string) : momo_status :=
  match demoStatuses !! referenceId with
  | Some demoEntry =>
      {| momo_state := Some (demo_status demoEntry);
         momo_financialTransactionId :=
           or_null (demo_financialTransactionId demoEntry) |}
  | None =>
      match getOfferingByMomoRef referenceId db with
      | Some offering =>
          {| momo_state := Some (status offering);
             momo_financialTransactionId := or_null (financial_txn_id offering) |}
      | None =>
          {| momo_state := Some "PENDING"; momo_financialTransactionId := None |}
      end
  end.

(** *** Demo data (routes/demo.js) *)

(** [clearAll]: the three DELETEs; the catalog and the AUTOINCREMENT
    counter of the queue stay. *)
Definition clearAll (db : database) : database :=
  {| categories := categories db;
     offerings := [];
     daily_summaries := ∅;
     pending_queue := ∅;
     pending_queue_seq := pending_queue_seq db |}.

Definition CATEGORY_MESSAGES : list (string * string) :=
  [ ("TITHE", "Tithes Offering"); ("OFFR", "General Offering");
    ("SEED", "Seed Offering"); ("BUILD", "Building Fund");
    ("PLEDG", "Pledge Redemption"); ("MISN", "Missions Offering");
    ("WELFR", "Welfare Offering"); ("YOUTH", "Youth Ministry");
    ("THANKS", "Thanksgiving Offering"); ("FIRST", "First Fruit Offering") ].

(** [randomStatus], on the draw [Math.random() < 0.9]. *)
Definition randomStatus (lucky : bool) : string :=
  if lucky then "SUCCESSFUL" else "FAILED".

(** Everything the body of the seeding loop draws at random for one
    row. *)
Record seed_draw := {
  draw_momoRefId : string;
  draw_amount : REAL;
  draw_phone : string;
  draw_name : string;
  draw_lucky : bool;
  draw_hex : string;
  draw_hour : nat;
  draw_minute : nat;
  draw_second : nat
}.

(** [INSERT INTO offerings (..., status, financial_txn_id, created_at,
    updated_at) VALUES (...)], with the constraints of the schema. *)
Definition insertOfferingWithDate (refNumber momoRefId categoryCode : string)
    (amt : REAL) (phone : string) (memberName memberId payerMessage : option string)
    (st : string) (fin : option string) (createdAt updatedAt : string)
    (db : database) : option database :=
  if existsb (fun o => str_eq (reference_number o) refNumber) (offerings db)
     || existsb (fun o => str_eq (momo_reference_id o) momoRefId) (offerings db)
     || negb (existsb (fun cat => str_eq (code cat) categoryCode) (categories db))
  then None
  else Some (set_offerings
               (offerings db ++
                [ {| reference_number := refNumber;
                     momo_reference_id := momoRefId;
                     financial_txn_id := fin;
                     category_code := categoryCode;
                     amount := amt;
                     phone_number := phone;
                     member_name := memberName;
                     member_id := memberId;
                     payer_message := payerMessage;
                     status := st;
                     created_at := createdAt;
                     updated_at := updatedAt |} ])
               db).

(** The upsert of routes/demo.js: it also adds to the two status
    counters. *)
Definition upsertSeededSummary (summaryDate categoryCode : string) (amt : REAL)
    (successInc failedInc : Z) (db : database) : database :=
  set_daily_summaries
    (match daily_summaries db !! (summaryDate, categoryCode) with
     | None =>
         <[ (summaryDate, categoryCode) :=
              {| total_count := 1; total_amount := amt;
                 success_count := successInc; failed_count := failedInc |} ]>
           (daily_summaries db)
     | Some s =>
         <[ (summaryDate, categoryCode) :=
              {| total_count := total_count s + 1;
                 total_amount := real_add (total_amount s) amt;
                 success_count := success_count s + successInc;
                 failed_count := failed_count s + failedInc |} ]>
           (daily_summaries db)
     end)
    db.

(** [s.replace('-', '')]: the first dash is removed. *)
Fixpoint remove_first_dash (s : string) : string :=
  match s with
  | EmptyString => EmptyString
  | String c rest =>
      if Ascii.eqb c "-"%char then rest else String c (remove_first_dash rest)
  end.

(** The body of the innermost loop of [seedAll], for the row with
    sequence number [counter] of category [cfg_code] on day [dateStr]. *)
Definition seed_offering (dateStr cfg_code : string) (counter : nat)
    (d : seed_draw) (db : database) : option database :=
  let year := substring 0 4 dateStr in
  let mmdd := remove_first_dash (substring 5 (String.length dateStr - 5) dateStr) in
  let seq := padStart0 3 (String_of_nat counter) in
  let refNumber := cfg_code ++ "-" ++ year ++ "-" ++ mmdd ++ "-" ++ seq in
  let st := randomStatus (draw_lucky d) in
  let financialTxnId :=
    if str_eq st "SUCCESSFUL" then Some ("FT" ++ draw_hex d) else None in
  let message :=
    or_default (snd <$> find (fun kv => str_eq kv.1 cfg_code) CATEGORY_MESSAGES)
               "Church Offering" in
  let timestamp :=
    dateStr ++ " " ++ padStart0 2 (String_of_nat (draw_hour d))
            ++ ":" ++ padStart0 2 (String_of_nat (draw_minute d))
            ++ ":" ++ padStart0 2 (String_of_nat (draw_second d)) in
  match insertOfferingWithDate refNumber (draw_momoRefId d) cfg_code
          (draw_amount d) (draw_phone d) (Some (draw_name d)) None (Some message)
          st financialTxnId timestamp timestamp db with
  | None => None
  | Some db1 =>
      Some (upsertSeededSummary dateStr cfg_code (draw_amount d)
              (if str_eq st "SUCCESSFUL" then 1 else 0)
              (if str_eq st "FAILED" then 1 else 0) db1)
  end.

(** The loop [for (let i = 0; i < count; i++)], one draw for each
    round; it returns the counter of the category. *)
Fixpoint seed_category (dateStr cfg_code : string) (draws : list seed_draw)
    (counter : nat) (db : database) : option (nat * database) :=
  match draws with
  | [] => Some (counter, db)
  | d :: rest =>
      match seed_offering dateStr cfg_code (counter + 1) d db with
      | None => None
      | Some db' => seed_category dateStr cfg_code rest (counter + 1) db'
      end
  end.

(** The loop [for (const cfg of SEED_CONFIG)] of one day, with the map
    [catCounters]. *)
Fixpoint seed_day (dateStr : string) (cfgs : list (string * list seed_draw))
    (catCounters : gmap string nat) (db : database) : option database :=
  match cfgs with
  | [] => Some db
  | (cfg_code, draws) :: rest =>
      match seed_category dateStr cfg_code draws
                          (default 0%nat (catCounters !! cfg_code)) db with
      | None => None
      | Some (n, db') => seed_day dateStr rest (<[ cfg_code := n ]> catCounters) db'
      end
  end.

(** The loop over the days: each day comes with its [dateStr]
    ([date.toISOString().split('T')[0]]) and its draws. *)
Fixpoint seed_days (days : list (string * list (string * list seed_draw)))
    (db : database) : option database :=
  match days with
  | [] => Some db
  | (dateStr, cfgs) :: rest =>
      match seed_day dateStr cfgs ∅ db with
      | None => None
      | Some db' => seed_days rest db'
      end
  end.

(** POST /api/demo/seed: [seedAll] is one store transaction, rolled back
    when an insert raises; the handler then answers 500. *)
Definition post_seed (days : list (string * list (string * list seed_draw)))
    (db : database) : Z * database :=
  match seed_days days db with
  | Some db' => (200, db')
  | None => (500, db)
  end.

(** *** Vocabulary *)


(** Every stored status is one of the recognized three. *)
Definition statuses_valid (db : database) : Prop :=
  forall o, In o (offerings db) -> includes validStatuses (status o) = true.


(** The queue respects its schema: keys were handed out by the
    AUTOINCREMENT counter, and every entry refers to a stored
    transaction. *)
Definition queue_well_formed (db : database) : Prop :=
  forall id (r : queue_row), pending_queue db !! id = Some r ->
    id <= pending_queue_seq db
    /\ exists o, In o (offerings db) /\ reference_number o = q_reference_number r.

(** The sum of [total_count] over all the summary rows. *)
Definition grand_total_count (m : gmap (string * string) (@summary REAL)) : Z :=
  map_fold (fun _ s acc => total_count s + acc) 0 m.

End Reports.

(** ** The read side (routes/offerings.js) *)

Section ReadSide.

Context {REAL : Type}.
Variable real_add : REAL -> REAL -> REAL.
(** The JS number 0. *)
Variable real_zero : REAL.
(** [Math.round(x * 100) / 100] *)
Variable round_cents : REAL -> REAL.
(** [x || 0] on a number. *)
Variable real_or_zero : REAL -> REAL.
(** SQLite's [SUM] over the amounts of a group. *)
Variable sql_SUM : list REAL -> REAL.
(** SQLite's order on REAL values, [a <= b]. *)
Variable real_le : REAL -> REAL -> bool.
(** [(a / b * 100).toFixed(1)] *)
Variable percent_toFixed1 : Z -> Z -> string.

Local Abbreviation offering := (@offering REAL).
Local Abbreviation database := (@database REAL).
Implicit Types db : database.
Implicit Types o : offering.

(** A row of [SELECT o.*, c.name as category_name FROM offerings o JOIN
    categories c ON o.category_code = c.code]. *)
Record listed_offering := {
  listed_row : offering;
  category_name : string
}.

(** The join: [code] is the primary key of [categories], so a transaction
    joins with at most one category. *)
Definition join_categories (db : database) : list listed_offering :=
  omap (fun o => (fun c => {| listed_row := o; category_name := name c |})
                   <$> getCategoryByCode (category_code o) db)
       (offerings db).

(** [ORDER BY o.created_at DESC], on the texts. SQL leaves the order of
    rows with equal [created_at] open; the model keeps what the sort
    gives. *)
Definition newest_first (a b : listed_offering) : Prop :=
  String.le (created_at (listed_row b)) (created_at (listed_row a)).

#[local] Instance newest_first_dec : RelDecision newest_first.
Proof. intros a b. unfold newest_first. apply _. Defined.

Definition on_date (date : string) (r : listed_offering) : bool :=
  str_eq (sql_DATE (created_at (listed_row r))) date.

(** [getOfferingsByDate] *)
Definition getOfferingsByDate (date : string) (db : database)
    : list listed_offering :=
  merge_sort newest_first (List.filter (on_date date) (join_categories db)).

(** [getRecentOfferings]; the limit is at least 1 where it is called. *)
Definition getRecentOfferings (limit : Z) (db : database)
    : list listed_offering :=
  take (Z.to_nat limit) (merge_sort newest_first (join_categories db)).

(** What [formatOffering] returns (the constant [currency] is left
    out, as in the rows). *)
Record api_offering := {
  api_referenceNumber : string;
  api_momoReferenceId : string;
  api_category : string;
  api_categoryName : string;
  api_amount : REAL;
  api_memberName : option string;
  api_memberId : option string;
  api_phone : string;
  api_note : option string;
  api_status : string;
  api_financialTxnId : option string;
  api_timestamp : string
}.

Definition formatOffering (row : listed_offering) : api_offering :=
  {| api_referenceNumber := reference_number (listed_row row);
     api_momoReferenceId := momo_reference_id (listed_row row);
     api_category := category_code (listed_row row);
     api_categoryName := category_name row;
     api_amount := amount (listed_row row);
     api_memberName := member_name (listed_row row);
     api_memberId := member_id (listed_row row);
     api_phone := maskPhone (Some (phone_number (listed_row row)));
     api_note := payer_message (listed_row row);
     api_status := status (listed_row row);
     api_financialTxnId := financial_txn_id (listed_row row);
     api_timestamp := created_at (listed_row row) |}.

Inductive list_response :=
| List400 (error : string)
| List200 (date : string) (totalCount : nat) (totalAmount : REAL)
          (listed : list api_offering).

(** GET /api/offerings?date=YYYY-MM-DD. [now] is the local date
    [getTodayDateString] reads; [query_date] is [req.query.date]. *)
Definition get_offerings (now : js_date) (query_date : option string)
    (db : database) : list_response :=
  let date := or_default query_date (getTodayDateString now) in
  if negb (isValidDateString date)
  then List400 "Invalid date format. Use YYYY-MM-DD"
  else
    let rows := getOfferingsByDate date db in
    let listed := map formatOffering rows in
    let totalAmount :=
      fold_left (fun sum r => real_add sum (amount (listed_row r))) rows real_zero in
    List200 date (length rows) (round_cents totalAmount) listed.

(** A row of [getSummaryByDate]. *)
Record summary_row := {
  sr_code : string;
  sr_name : string;
  sr_count : Z;
  sr_total : REAL;
  sr_successCount : Z;
  sr_failedCount : Z
}.

(** The aggregates of one group of [GROUP BY o.category_code]; the
    bare column [c.name] is the same on every row of the group. *)
Definition summarize (categoryCode : string) (group : list listed_offering)
    : summary_row :=
  {| sr_code := categoryCode;
     sr_name := match group with r :: _ => category_name r | [] => "" end;
     sr_count := Z.of_nat (length group);
     sr_total := sql_SUM (map (fun r => amount (listed_row r)) group);
     sr_successCount :=
       fold_left (fun sum r => sum + if str_eq (status (listed_row r)) "SUCCESSFUL"
                                     then 1 else 0) group 0;
     sr_failedCount :=
       fold_left (fun sum r => sum + if str_eq (status (listed_row r)) "FAILED"
                                     then 1 else 0) group 0 |}.

(** [ORDER BY total DESC] *)
Definition largest_first (a b : summary_row) : Prop :=
  real_le (sr_total b) (sr_total a) = true.

#[local] Instance largest_first_dec : RelDecision largest_first.
Proof. intros a b. unfold largest_first. apply _. Defined.

(** [getSummaryByDate] *)
Definition getSummaryByDate (date : string) (db : database) : list summary_row :=
  let rows := List.filter (on_date date) (join_categories db) in
  let codes := remove_dups (map (fun r => category_code (listed_row r)) rows) in
  merge_sort largest_first
    (map (fun c => summarize c
                     (List.filter
                        (fun r => str_eq (category_code (listed_row r)) c) rows))
         codes).

(** An element of the [categories] array of the summary answer. *)
Record summary_category := {
  sc_code : string;
  sc_name : string;
  sc_count : Z;
  sc_total : REAL
}.

Inductive summary_response :=
| Summary400 (error : string)
| Summary200 (date : string) (grandTotal : REAL) (totalTransactions : Z)
             (by_category : list summary_category) (successRate : string)
             (failedCount : Z).

(** GET /api/offerings/summary?date=YYYY-MM-DD *)
Definition get_summary (now : js_date) (query_date : option string)
    (db : database) : summary_response :=
  let date := or_default query_date (getTodayDateString now) in
  if negb (isValidDateString date)
  then Summary400 "Invalid date format. Use YYYY-MM-DD"
  else
    let cats := getSummaryByDate date db in
    let grandTotal :=
      fold_left (fun sum c => real_add sum (real_or_zero (sr_total c))) cats
                real_zero in
    let totalTransactions := fold_left (fun sum c => sum + sr_count c) cats 0 in
    let totalSuccess := fold_left (fun sum c => sum + sr_successCount c) cats 0 in
    let totalFailed := fold_left (fun sum c => sum + sr_failedCount c) cats 0 in
    let successRate :=
      if 0 <? totalTransactions
      then percent_toFixed1 totalSuccess totalTransactions ++ "%"
      else "0.0%" in
    Summary200 date (round_cents grandTotal) totalTransactions
               (map (fun c => {| sc_code := sr_code c; sc_name := sr_name c;
                                 sc_count := sr_count c;
                                 sc_total := round_cents (real_or_zero (sr_total c)) |})
                    cats)
               successRate totalFailed.

(** [Math.min(Math.max(parseInt(req.query.limit) || 20, 1), 100)];
    [parsed] is what [parseInt] returns, [None] for NaN. *)
Definition recent_limit (parsed : option Z) : Z :=
  Z.min (Z.max (match parsed with
                | Some n => if n =? 0 then 20 else n
                | None => 20
                end) 1) 100.

Record recent_response := {
  recent_count : nat;
  recent_offerings : list api_offering
}.

(** GET /api/offerings/recent?limit=20 *)
Definition get_recent (parsed_limit : option Z) (db : database) : recent_response :=
  let limit := recent_limit parsed_limit in
  let rows := getRecentOfferings limit db in
  let listed := map formatOffering rows in
  {| recent_count := length listed; recent_offerings := listed |}.

End ReadSide.

(** ** Reference numbering on a server that runs in UTC *)

Section Numbering.

Context {REAL : Type}.
Variable real_add : REAL -> REAL -> REAL.

(** The text that [generateReference] builds for the [k]-th transaction of
    a category on a local date. *)
Definition reference_text (now : js_date) (categoryCode : string) (k : nat)
    : string :=
  let year := String_of_nat (getFullYear now) in
  let month := padStart0 2 (String_of_nat (getMonth now + 1)) in
  let day := padStart0 2 (String_of_nat (getDate now)) in
  categoryCode ++ "-" ++ year ++ "-" ++ month ++ day ++ "-"
    ++ padStart0 3 (String_of_nat k).

(** What [new Date()] gives: a month from 0 to 11 and a day from 1 to 31;
    the year has four digits. *)
Definition calendar_date (now : js_date) : Prop :=
  1000 <= Z.of_nat (getFullYear now) <= 9999
  /\ (getMonth now <= 11)%nat
  /\ (1 <= getDate now <= 31)%nat.

(** A creation on a server whose local time is UTC: the store's
    CURRENT_TIMESTAMP is the local date, a space and a time of day. *)
Definition on_utc_server (op : @ledger_op REAL) : Prop :=
  match op with
  | Create now utc_now _ _ =>
      calendar_date now
      /\ exists time, utc_now = getTodayDateString now ++ " " ++ time
  | Transition _ _ _ _ => True
  end.

(** Every stored transaction carries the reference of its category, of
    the date of its [created_at] and of a sequence number that the count
    of its category and date has reached; no category code has a dash. *)
Definition numbered_by_day (db : @database REAL) : Prop :=
  (forall cat, In cat (categories db) -> includes_char "-" (code cat) = false)
  /\ forall o, In o (offerings db) ->
       (exists cat, In cat (categories db) /\ code cat = category_code o)
       /\ exists now k,
            calendar_date now
            /\ sql_DATE (created_at o) = getTodayDateString now
            /\ reference_number o = reference_text now (category_code o) k
            /\ (1 <= k <= countTodayByCategory (category_code o)
                                               (sql_DATE (created_at o)) db)%nat.

End Numbering.

(** * Concrete stores and requests

    Amounts are integers here (minor units), added with [Z.add]; the
    [amount] field of a request body is a JSON number, truthy when it is not
    0, and [parseFloat] returns it. *)

Definition json_number_truthy (z : Z) : bool := negb (z =? 0).

Definition post_offering_Z :=
  post_offering Z.add json_number_truthy Some (fun z => z <=? 0).

(** 11 February 2026 ([getMonth] counts from 0). *)
Definition feb11 : js_date :=
  {| getFullYear := 2026; getMonth := 1; getDate := 11 |}.

Definition tithe_50 : offering_data :=
  {| data_phone := "0241234567"; data_amount := 50; data_category := "TITHE";
     data_memberName := None; data_note := None |}.

Definition tithe_50_body : create_body :=
  {| body_phone := Some "0241234567"; body_amount := Some 50;
     body_category := Some "TITHE"; body_memberName := None;
     body_note := None |}.

(** The specification's scenario: TITHE-2026-0211-001, amount 50. *)
Definition db_created : database :=
  run Z.add [Create feb11 "2026-02-11 09:00:00" "uuid-1" tithe_50]
      initial_database.

Definition tithe_001 : offering :=
  pending_offering "2026-02-11 09:00:00" "TITHE-2026-0211-001" "uuid-1"
                   "TITHE" 50 "0241234567" None None None.

Definition db_successful : database :=
  run Z.add [Transition "2026-02-11 09:05:00" "TITHE-2026-0211-001"
                        "SUCCESSFUL" (Some "FT123")] db_created.

Definition tithe_001_successful : offering :=
  transitioned "2026-02-11 09:05:00" "SUCCESSFUL" (Some "FT123") tithe_001.

(** A server whose local time is one hour ahead of UTC, half past midnight
    on 12 February 2026: the local date is the 12th, the store's UTC
    timestamp is still on the 11th. *)
Definition feb12_local : js_date :=
  {| getFullYear := 2026; getMonth := 1; getDate := 12 |}.

Definition db_after_midnight : database :=
  (post_offering_Z feb12_local "2026-02-11 23:30:00" "uuid-1" (fun _ => None)
                   1770852600 tithe_50_body initial_database).2.

(** A morning with MoMo unreachable. Instants are seconds since the epoch;
    [t0] is 2026-02-11 09:00:00 UTC. *)
Definition t0 : Z := 1770800400.

Definition momo_down : @pay_request Z -> option string :=
  fun _ => Some "ECONNREFUSED".

(** A creation request at the given instant while MoMo is unreachable. *)
Definition create_while_down (utc_now uuid : string) (at_s : Z)
    (db : @database Z) : @database Z :=
  (post_offering_Z feb11 utc_now uuid momo_down at_s tithe_50_body db).2.

(** A tick of the retry worker at the given instant while MoMo is
    unreachable. *)
Definition tick_while_down (at_s : Z) (db : @database Z) : @database Z :=
  (processPendingQueue at_s momo_down (fun _ => at_s) db).1.

(** Four transactions queued for retry. Entry 1 (09:00:00) has failed five
    ticks; entry 2 (09:18:20) failed the tick of 09:20:00; entry 3
    (09:20:50) failed the tick of 09:21:40; entry 4 (09:22:30) has not been
    attempted. *)
Definition db_queue : database :=
  create_while_down "2026-02-11 09:22:30" "uuid-4" (t0 + 1350)
    (tick_while_down (t0 + 1300)
       (create_while_down "2026-02-11 09:20:50" "uuid-3" (t0 + 1250)
          (tick_while_down (t0 + 1200)
             (create_while_down "2026-02-11 09:18:20" "uuid-2" (t0 + 1100)
                (tick_while_down (t0 + 1000)
                   (tick_while_down (t0 + 800)
                      (tick_while_down (t0 + 600)
                         (tick_while_down (t0 + 400)
                            (tick_while_down (t0 + 200)
                               (create_while_down "2026-02-11 09:00:00" "uuid-1" t0
                                  initial_database)))))))))).

Definition queued (ref uuid : string) (retries : Z) (last : option Z)
    (created : Z) : queue_row :=
  {| q_reference_number := ref; q_momo_reference_id := uuid; q_amount := 50;
     q_phone_number := "0241234567"; q_payer_message := Some "Tithes Offering";
     retry_count := retries; last_attempt_at := last; q_created_at := created |}.

Definition entry_1 : queue_row :=
  queued "TITHE-2026-0211-001" "uuid-1" 5 (Some (t0 + 1000)) t0.
Definition entry_2 : queue_row :=
  queued "TITHE-2026-0211-002" "uuid-2" 1 (Some (t0 + 1200)) (t0 + 1100).
Definition entry_3 : queue_row :=
  queued "TITHE-2026-0211-003" "uuid-3" 1 (Some (t0 + 1300)) (t0 + 1250).
Definition entry_4 : queue_row :=
  queued "TITHE-2026-0211-004" "uuid-4" 0 None (t0 + 1350).

(** Demo data for one day: two tithes and one general offering on Sunday
    8 February 2026. *)
Definition sunday_seed : list (string * list (string * list (@seed_draw Z))) :=
  [ ("2026-02-08",
     [ ("TITHE",
        [ {| draw_momoRefId := "seed-1"; draw_amount := 120;
             draw_phone := "0241111111"; draw_name := "Kwame Mensah";
             draw_lucky := true; draw_hex := "A1B2C3D4E5F6";
             draw_hour := 9; draw_minute := 5; draw_second := 30 |};
          {| draw_momoRefId := "seed-2"; draw_amount := 80;
             draw_phone := "0542222222"; draw_name := "Ama Owusu";
             draw_lucky := false; draw_hex := "0A0B0C0D0E0F";
             draw_hour := 10; draw_minute := 40; draw_second := 2 |} ]);
       ("OFFR",
        [ {| draw_momoRefId := "seed-3"; draw_amount := 20;
             draw_phone := "0553333333"; draw_name := "Kofi Asante";
             draw_lucky := true; draw_hex := "FFEEDDCCBBAA";
             draw_hour := 13; draw_minute := 0; draw_second := 59 |} ]) ]) ].

(** * Properties *)

Section Properties.

Context {REAL : Type}.
Variable real_add : REAL -> REAL -> REAL.
Context {RAW : Type}.
Variable raw_truthy : RAW -> bool.
Variable parseFloat : RAW -> option REAL.
Variable real_le_0 : REAL -> bool.

(** The rows and the store of this section carry amounts of type [REAL]. *)
Local Abbreviation offering := (@offering REAL).
Local Abbreviation queue_row := (@queue_row REAL).
Local Abbreviation database := (@database REAL).
Implicit Types db : database.
Implicit Types o : offering.

(** ** JavaScript primitives *)

Lemma str_eq_true (a b : string) : str_eq a b = true <-> a = b.
Proof. apply String.eqb_eq. Qed.

Lemma str_eq_false (a b : string) : str_eq a b = false <-> a <> b.
Proof. apply String.eqb_neq. Qed.

Lemma str_eq_refl (a : string) : str_eq a a = true.
Proof. apply String.eqb_refl. Qed.

Lemma str_eq_decide (a b : string) :
  str_eq a b = if decide (a = b) then true else false.
Proof.
  destruct (decide (a = b)) as [->|Hne].
  - apply str_eq_refl.
  - by apply str_eq_false.
Qed.

Lemma truthy_Some (s : string) : truthy (Some s) = true <-> s <> "".
Proof.
  unfold truthy. rewrite negb_true_iff. apply str_eq_false.
Qed.

(** ** The transition engine: lookups after an update *)

Lemma find_ref_cases {A : Type} (p : A -> bool) (l : list A) :
  find p l = None <-> forall x, In x l -> p x = false.
Proof.
  split.
  - intros H x Hx. by eapply find_none.
  - intros H. destruct (find p l) as [x|] eqn:E; [|done].
    apply find_some in E as [Hin Hpx]. rewrite (H x Hin) in Hpx. done.
Qed.

Lemma getOfferingByRef_None ref db :
  getOfferingByRef ref db = None
  <-> forall o, In o (offerings db) -> reference_number o <> ref.
Proof.
  unfold getOfferingByRef. rewrite find_ref_cases.
  split; intros H o Ho; apply str_eq_false; by apply H.
Qed.

Lemma getOfferingByRef_Some ref db o :
  getOfferingByRef ref db = Some o ->
  In o (offerings db) /\ reference_number o = ref.
Proof.
  unfold getOfferingByRef. intros H. apply find_some in H as [Hin Hp].
  split; [done|]. by apply str_eq_true.
Qed.

Lemma offerings_updateOfferingStatus now st fin ref db :
  offerings (updateOfferingStatus now st fin ref db)
  = map (fun o => if str_eq (reference_number o) ref
                  then transitioned now st fin o else o) (offerings db).
Proof. reflexivity. Qed.

Lemma getOfferingByRef_updateOfferingStatus now st fin ref db :
  getOfferingByRef ref (updateOfferingStatus now st fin ref db)
  = option_map (transitioned now st fin) (getOfferingByRef ref db).
Proof.
  unfold getOfferingByRef. rewrite offerings_updateOfferingStatus.
  set (p := fun o : offering => str_eq (reference_number o) ref).
  induction (offerings db) as [|x l IH]; simpl; [done|].
  unfold p at 2 3. destruct (str_eq (reference_number x) ref) eqn:E.
  - unfold p. simpl. by rewrite E.
  - unfold p at 1. by rewrite E.
Qed.

(** The transition that changes the status, as one equation. *)
Lemma updateStatusTxn_changed now ref newStatus fin db o :
  getOfferingByRef ref db = Some o ->
  status o <> newStatus ->
  updateStatusTxn now ref newStatus fin db
  = (Some {| result_offering := with_status o newStatus fin; changed := true |},
     updateDailySummaryCounters
       (successDelta (getStatusDelta (status o) newStatus))
       (failedDelta (getStatusDelta (status o) newStatus))
       (split_space_head (created_at o)) (category_code o)
       (updateOfferingStatus now newStatus (or_null fin) ref db)).
Proof.
  intros Hget Hne. unfold updateStatusTxn. rewrite Hget.
  apply str_eq_false in Hne. by rewrite Hne.
Qed.

Lemma updateStatusTxn_same now ref newStatus fin db o :
  getOfferingByRef ref db = Some o ->
  status o = newStatus ->
  updateStatusTxn now ref newStatus fin db
  = (Some {| result_offering := o; changed := false |}, db).
Proof.
  intros Hget Heq. unfold updateStatusTxn. rewrite Hget.
  apply str_eq_true in Heq. by rewrite Heq.
Qed.

Lemma updateStatusTxn_unknown now ref newStatus fin db :
  getOfferingByRef ref db = None ->
  updateStatusTxn now ref newStatus fin db = (None, db).
Proof. intros Hget. unfold updateStatusTxn. by rewrite Hget. Qed.

(** After any answered transition the stored status is the requested
    one. *)
Lemma updateStatusTxn_status now ref newStatus fin db r db' :
  updateStatusTxn now ref newStatus fin db = (Some r, db') ->
  exists o', getOfferingByRef ref db' = Some o' /\ status o' = newStatus.
Proof.
  intros H. destruct (getOfferingByRef ref db) as [o|] eqn:Hget.
  - destruct (decide (status o = newStatus)) as [Heq|Hne].
    + rewrite (updateStatusTxn_same _ _ _ _ _ _ Hget Heq) in H.
      injection H as _ <-. eauto.
    + rewrite (updateStatusTxn_changed _ _ _ _ _ _ Hget Hne) in H.
      injection H as _ <-.
      exists (transitioned now newStatus (or_null fin) o). split; [|done].
      unfold updateDailySummaryCounters, getOfferingByRef. simpl.
      change (getOfferingByRef ref (updateOfferingStatus now newStatus (or_null fin) ref db)
              = Some (transitioned now newStatus (or_null fin) o)).
      by rewrite getOfferingByRef_updateOfferingStatus, Hget.
  - by rewrite (updateStatusTxn_unknown _ _ _ _ _ Hget) in H.
Qed.

Lemma getStatusDelta_spec oldStatus newStatus :
  successDelta (getStatusDelta oldStatus newStatus)
  = spec_delta "SUCCESSFUL" oldStatus newStatus
  /\ failedDelta (getStatusDelta oldStatus newStatus)
    = spec_delta "FAILED" oldStatus newStatus.
Proof.
  unfold getStatusDelta, spec_delta. simpl.
  rewrite !str_eq_decide.
  repeat case_decide; lia.
Qed.

(** ** The transition engine: idempotence, deltas, settlement id *)

(** C2 (transition idempotence). When the stored status already equals the
    requested one, [updateStatusTxn] answers [changed = false] with the row
    as read and leaves the whole store (rows and counters) as it was; hence
    a second call with the same status, right after a first one that found
    the reference, answers [changed = false] and leaves the store of the
    first call untouched. *)
Theorem transition_idempotent :
  (forall now ref newStatus fin db o,
      getOfferingByRef ref db = Some o ->
      status o = newStatus ->
      updateStatusTxn now ref newStatus fin db
      = (Some {| result_offering := o; changed := false |}, db))
  /\
  (forall now1 now2 ref newStatus id1 id2 db r1 db1,
      updateStatusTxn now1 ref newStatus id1 db = (Some r1, db1) ->
      exists r2,
        updateStatusTxn now2 ref newStatus id2 db1 = (Some r2, db1)
        /\ changed r2 = false).
Proof.
  split.
  - intros. by apply updateStatusTxn_same.
  - intros now1 now2 ref newStatus id1 id2 db r1 db1 H1.
    destruct (updateStatusTxn_status _ _ _ _ _ _ _ H1) as (o' & Hget & Hst).
    exists {| result_offering := o'; changed := false |}. split; [|done].
    by apply updateStatusTxn_same.
Qed.

(** The delta rule, as far as the code keeps it. [getStatusDelta] is the
    one general rule for whatever pair of statuses: minus one on the counter
    of the old status, plus one on the counter of the new one. A transition
    that changes the status adds that delta to the summary row of the bucket
    (date of [created_at], category) when that row exists, and leaves the
    totals of that row and every other bucket alone. From SUCCESSFUL to
    FAILED this is success_count - 1 and failed_count + 1. When the row does
    not exist the UPDATE of the counters matches nothing: see
    [delta_is_lost_without_summary_row]. *)
Lemma generic_delta_rule now ref newStatus fin db o :
  getOfferingByRef ref db = Some o ->
  status o <> newStatus ->
  let db' := (updateStatusTxn now ref newStatus fin db).2 in
  (forall old new,
     successDelta (getStatusDelta old new) = spec_delta "SUCCESSFUL" old new
     /\ failedDelta (getStatusDelta old new) = spec_delta "FAILED" old new)
  /\ (forall s, daily_summaries db !! bucket_of o = Some s ->
        daily_summaries db' !! bucket_of o
        = Some {| total_count := total_count s;
                  total_amount := total_amount s;
                  success_count :=
                    success_count s + spec_delta "SUCCESSFUL" (status o) newStatus;
                  failed_count :=
                    failed_count s + spec_delta "FAILED" (status o) newStatus |})
  /\ (forall b, b <> bucket_of o ->
        daily_summaries db' !! b = daily_summaries db !! b)
  /\ (status o = "SUCCESSFUL" -> newStatus = "FAILED" ->
      forall s, daily_summaries db !! bucket_of o = Some s ->
        exists s', daily_summaries db' !! bucket_of o = Some s'
                   /\ success_count s' = success_count s - 1
                   /\ failed_count s' = failed_count s + 1).
Proof.
  intros Hget Hne db'.
  assert (Hdb' : daily_summaries db'
                 = alter (add_counters (spec_delta "SUCCESSFUL" (status o) newStatus)
                                       (spec_delta "FAILED" (status o) newStatus))
                         (bucket_of o) (daily_summaries db)).
  { unfold db'. rewrite (updateStatusTxn_changed _ _ _ _ _ _ Hget Hne).
    destruct (getStatusDelta_spec (status o) newStatus) as [-> ->].
    reflexivity. }
  assert (Hrow : forall s, daily_summaries db !! bucket_of o = Some s ->
     daily_summaries db' !! bucket_of o
     = Some {| total_count := total_count s;
               total_amount := total_amount s;
               success_count :=
                 success_count s + spec_delta "SUCCESSFUL" (status o) newStatus;
               failed_count :=
                 failed_count s + spec_delta "FAILED" (status o) newStatus |}).
  { intros s Hs. rewrite Hdb', lookup_alter_eq, Hs. reflexivity. }
  split; [exact getStatusDelta_spec|]. split; [exact Hrow|]. split.
  - intros b Hb. rewrite Hdb'. by apply lookup_alter_ne.
  - intros Hold Hnew s Hs. eexists. split; [by apply Hrow|].
    rewrite Hold, Hnew. unfold spec_delta. simpl.
    repeat case_decide; try done; lia.
Qed.

(** C7 (not found). For a reference that matches no stored transaction,
    [updateStatusTxn] answers [null] and leaves the store as it was; the
    webhook reaching the engine with that reference answers 404 'Offering
    not found', which is not the 500 of an internal failure, and leaves the
    store as it was. *)
Theorem transition_not_found now ref newStatus fin db :
  (forall o, In o (offerings db) -> reference_number o <> ref) ->
  updateStatusTxn now ref newStatus fin db = (None, db)
  /\ (forall body,
        externalId body = Some ref -> ref <> "" ->
        callback_status body = Some newStatus ->
        includes validStatuses newStatus = true ->
        post_momo_callback now body db = (Callback404 "Offering not found", db)
        /\ callback_http_status (post_momo_callback now body db).1 = 404
        /\ forall e, (post_momo_callback now body db).1 <> Callback500 e).
Proof.
  intros Hnone. apply getOfferingByRef_None in Hnone.
  split; [by apply updateStatusTxn_unknown|].
  intros body Hext Href Hst Hvalid.
  assert (Hst' : newStatus <> "").
  { intros ->. by vm_compute in Hvalid. }
  assert (Heq : post_momo_callback now body db
                = (Callback404 "Offering not found", db)).
  { unfold post_momo_callback. rewrite Hext, Hst.
    apply truthy_Some in Href. apply truthy_Some in Hst'.
    rewrite Href, Hst'. cbn [negb orb]. rewrite Hvalid. cbn [negb].
    rewrite (updateStatusTxn_unknown _ _ _ _ _ Hnone). reflexivity. }
  rewrite Heq. simpl. repeat split; done.
Qed.

(** C9, as the code has it. The settlement id column is written by every
    transition that changes the status, whatever the new status: it takes
    the id the caller passes, or NULL when the caller passes none or an
    empty one; the other rows keep theirs. In particular a transition to a
    status other than SUCCESSFUL leaves no settlement id when the caller
    passes none. *)
Theorem settlement_id_as_supplied now ref newStatus fin db o :
  getOfferingByRef ref db = Some o ->
  status o <> newStatus ->
  let db' := (updateStatusTxn now ref newStatus fin db).2 in
  (exists o', getOfferingByRef ref db' = Some o'
              /\ status o' = newStatus
              /\ financial_txn_id o' = or_null fin)
  /\ (forall o2, In o2 (offerings db) -> reference_number o2 <> ref ->
        In o2 (offerings db'))
  /\ (fin = None ->
      exists o', getOfferingByRef ref db' = Some o'
                 /\ financial_txn_id o' = None).
Proof.
  intros Hget Hne db'.
  assert (Hdb' : getOfferingByRef ref db'
                 = Some (transitioned now newStatus (or_null fin) o)
                 /\ offerings db'
                    = map (fun x => if str_eq (reference_number x) ref
                                    then transitioned now newStatus (or_null fin) x
                                    else x) (offerings db)).
  { unfold db'. rewrite (updateStatusTxn_changed _ _ _ _ _ _ Hget Hne). simpl.
    split; [|reflexivity].
    change (getOfferingByRef ref
              (updateOfferingStatus now newStatus (or_null fin) ref db)
            = Some (transitioned now newStatus (or_null fin) o)).
    by rewrite getOfferingByRef_updateOfferingStatus, Hget. }
  destruct Hdb' as [Hrow Hoffs].
  split; [eexists; split; [exact Hrow|done]|]. split.
  - intros o2 Hin Href. rewrite Hoffs. apply in_map_iff. exists o2.
    apply str_eq_false in Href. by rewrite Href.
  - intros ->. eexists; split; [exact Hrow|done].
Qed.

(** C10 (round trip). From status A, a transition to a different status B
    followed by a transition back to A restores status A and leaves every
    summary row as it was before the first call: the deltas of the two
    transitions sum to zero on both counters. *)
Theorem round_trip_neutral now1 now2 ref A B id1 id2 db o :
  getOfferingByRef ref db = Some o ->
  status o = A ->
  B <> A ->
  let db1 := (updateStatusTxn now1 ref B id1 db).2 in
  let db2 := (updateStatusTxn now2 ref A id2 db1).2 in
  (exists o2, getOfferingByRef ref db2 = Some o2 /\ status o2 = A)
  /\ daily_summaries db2 = daily_summaries db
  /\ successDelta (getStatusDelta A B) + successDelta (getStatusDelta B A) = 0
  /\ failedDelta (getStatusDelta A B) + failedDelta (getStatusDelta B A) = 0.
Proof.
  intros Hget HA HBA db1 db2.
  assert (Hne1 : status o <> B) by congruence.
  assert (Hsum : successDelta (getStatusDelta A B) + successDelta (getStatusDelta B A) = 0
                 /\ failedDelta (getStatusDelta A B) + failedDelta (getStatusDelta B A) = 0).
  { destruct (getStatusDelta_spec A B) as [-> ->].
    destruct (getStatusDelta_spec B A) as [-> ->].
    unfold spec_delta. repeat case_decide; lia. }
  set (o1 := transitioned now1 B (or_null id1) o).
  assert (Hget1 : getOfferingByRef ref db1 = Some o1).
  { unfold db1. rewrite (updateStatusTxn_changed _ _ _ _ _ _ Hget Hne1). simpl.
    change (getOfferingByRef ref (updateOfferingStatus now1 B (or_null id1) ref db)
            = Some o1).
    by rewrite getOfferingByRef_updateOfferingStatus, Hget. }
  assert (Hne2 : status o1 <> A) by done.
  split; [|split; [|exact Hsum]].
  - exists (transitioned now2 A (or_null id2) o1). split; [|done].
    unfold db2. rewrite (updateStatusTxn_changed _ _ _ _ _ _ Hget1 Hne2). simpl.
    change (getOfferingByRef ref (updateOfferingStatus now2 A (or_null id2) ref db1)
            = Some (transitioned now2 A (or_null id2) o1)).
    by rewrite getOfferingByRef_updateOfferingStatus, Hget1.
  - unfold db2. rewrite (updateStatusTxn_changed _ _ _ _ _ _ Hget1 Hne2). simpl.
    unfold db1. rewrite (updateStatusTxn_changed _ _ _ _ _ _ Hget Hne1). simpl.
    rewrite alter_alter_eq. apply alter_id.
    intros [tc ta sc fc] _. unfold compose, add_counters.
    cbn [total_count total_amount success_count failed_count]. rewrite HA.
    f_equal.
    + destruct (str_eq A "SUCCESSFUL"), (str_eq B "SUCCESSFUL"); lia.
    + destruct (str_eq A "FAILED"), (str_eq B "FAILED"); lia.
Qed.

(** ** The poll driver *)

(** C6 (poll driver). For a stored transaction: when its status is
    SUCCESSFUL or FAILED the handler answers that status and calls the MoMo
    client not at all; otherwise, when the client's query throws, it answers
    200 with the stored status and the error message in [momoError], the
    store untouched; and when the query resolves to a (non-empty) status
    that differs from the stored one, the store it leaves is the one of
    [updateStatusTxn] called with that status. *)
Theorem poll_driver now checkStatus ref db o :
  getOfferingByRef ref db = Some o ->
  let out := get_status now checkStatus ref db in
  (status o = "SUCCESSFUL" \/ status o = "FAILED" ->
     out = {| poll_answer := Poll200 (status o) (financial_txn_id o) None;
              poll_db := db;
              poll_calls := [] |})
  /\ (status o <> "SUCCESSFUL" -> status o <> "FAILED" ->
      (forall err, checkStatus (momo_reference_id o) = inl err ->
         out = {| poll_answer := Poll200 (status o) (financial_txn_id o) (Some err);
                  poll_db := db;
                  poll_calls := [momo_reference_id o] |})
      /\ (forall ms st,
            checkStatus (momo_reference_id o) = inr ms ->
            momo_state ms = Some st -> st <> "" -> st <> status o ->
            poll_db out
            = (updateStatusTxn now ref st
                 (or_null (momo_financialTransactionId ms)) db).2
            /\ (exists r, (updateStatusTxn now ref st
                            (or_null (momo_financialTransactionId ms)) db).1 = Some r
                          /\ changed r = true)
            /\ exists fin, poll_answer out = Poll200 st fin None)).
Proof.
  intros Hget out. split.
  - intros Hterm. unfold out, get_status. rewrite Hget.
    assert (str_eq (status o) "SUCCESSFUL" || str_eq (status o) "FAILED" = true)
      as ->; [|done].
    apply orb_true_iff. destruct Hterm as [H|H]; [left|right]; by apply str_eq_true.
  - intros HnS HnF.
    assert (Hnt : str_eq (status o) "SUCCESSFUL" || str_eq (status o) "FAILED" = false).
    { apply orb_false_iff. split; by apply str_eq_false. }
    split.
    + intros err Herr. unfold out, get_status. by rewrite Hget, Hnt, Herr.
    + intros ms st Hms Hst Hnonempty Hdiff.
      assert (Hout : out
        = {| poll_answer :=
               Poll200 st (or_else (or_null (momo_financialTransactionId ms))
                                   (financial_txn_id o)) None;
             poll_db := (updateStatusTxn now ref st
                           (or_null (momo_financialTransactionId ms)) db).2;
             poll_calls := [momo_reference_id o] |}).
      { unfold out, get_status. rewrite Hget, Hnt, Hms, Hst.
        pose proof (proj2 (truthy_Some st) Hnonempty) as Htr. rewrite Htr.
        pose proof (proj2 (str_eq_false st (status o)) Hdiff) as Hd. rewrite Hd.
        cbn [andb negb]. f_equal.
        unfold or_default. apply str_eq_false in Hnonempty. by rewrite Hnonempty. }
      rewrite Hout. cbn [poll_db poll_answer]. split; [done|]. split; [|eauto].
      assert (Hdiff' : status o <> st) by congruence.
      rewrite (updateStatusTxn_changed _ _ _ _ _ _ Hget Hdiff'). eauto.
Qed.

(** ** The retry worker *)

Lemma eligible_spec max_retries now_s (r : queue_row) :
  eligible max_retries now_s r = true
  <-> retry_count r < max_retries
      /\ (last_attempt_at r = None
          \/ exists t, last_attempt_at r = Some t
                       /\ t < now_s - COOLDOWN_MINUTES * 60).
Proof.
  unfold eligible. rewrite andb_true_iff, Z.ltb_lt.
  destruct (last_attempt_at r) as [t|].
  - rewrite Z.ltb_lt. split.
    + intros [H1 H2]. split; [done|]. right. by exists t.
    + intros [H1 [H2|(t' & Ht' & H2)]]; [done|]. split; [done|]. congruence.
  - split; [intros [H1 _]; auto|intros [H1 _]; auto].
Qed.

#[local] Instance created_le_total : Total (@created_le REAL).
Proof. intros a b. unfold created_le. lia. Qed.

#[local] Instance created_le_trans : Transitive (@created_le REAL).
Proof. intros a b c. unfold created_le. lia. Qed.

Lemma created_le_weaken (a b : Z * queue_row) :
  created_le a b -> q_created_at a.2 <= q_created_at b.2.
Proof. unfold created_le. lia. Qed.

Lemma NoDup_fst_filter {A B : Type} (p : A * B -> bool) (l : list (A * B)) :
  NoDup l.*1 -> NoDup (List.filter p l).*1.
Proof.
  induction l as [|x l IH]; simpl; [done|].
  rewrite NoDup_cons. intros [Hx Hl]. destruct (p x); simpl; [|by apply IH].
  apply NoDup_cons. split; [|by apply IH].
  intros Hin. apply Hx. apply list_elem_of_fmap in Hin as (y & -> & Hy).
  apply list_elem_of_fmap. exists y. split; [done|].
  apply list_elem_of_In in Hy. apply filter_In in Hy as [Hy _].
  by apply list_elem_of_In.
Qed.

(** The sorted list of eligible rows behind [getPendingRows]. *)
Lemma getPendingRows_is_take max_retries limit now_s db :
  exists sorted,
    getPendingRows max_retries limit now_s db = take (Z.to_nat limit) sorted
    /\ StronglySorted created_le sorted
    /\ NoDup sorted.*1
    /\ (forall id r, (id, r) ∈ sorted
                     <-> pending_queue db !! id = Some r
                         /\ eligible max_retries now_s r = true).
Proof.
  eexists. split; [reflexivity|]. split; [|split].
  - apply Sorted_StronglySorted; [apply _|]. apply Sorted_merge_sort. apply _.
  - rewrite merge_sort_Permutation. apply NoDup_fst_filter.
    apply NoDup_fst_map_to_list.
  - intros id r. rewrite merge_sort_Permutation.
    rewrite list_elem_of_In, filter_In, <- list_elem_of_In, elem_of_map_to_list.
    done.
Qed.

(** Every selected row is an eligible row of the queue, and no key is
    selected twice. *)
Lemma getPendingRows_members max_retries limit now_s db :
  (forall id r, (id, r) ∈ getPendingRows max_retries limit now_s db ->
     pending_queue db !! id = Some r /\ eligible max_retries now_s r = true)
  /\ NoDup (getPendingRows max_retries limit now_s db).*1.
Proof.
  destruct (getPendingRows_is_take max_retries limit now_s db)
    as (sorted & -> & _ & Hnodup & Hmem).
  split.
  - intros id r Hx. apply elem_of_take in Hx as (i & Hi & _).
    by eapply Hmem, list_elem_of_lookup_2.
  - eapply sublist_NoDup; [exact Hnodup|]. apply fmap_sublist, sublist_take.
Qed.

(** C4 (retry sweep selection). The rows a sweep selects are rows of the
    queue with [retry_count] below 5 and [last_attempt_at] NULL or more than
    two minutes old; there are at most 10 of them, oldest [created_at]
    first, none twice; an eligible row is left out only when 10 rows at
    least as old are selected. Hence a row that has reached 5 retries is
    never selected, and a row attempted at T is not selected before T + 2
    minutes. *)
Theorem retry_sweep_selection now_s db :
  let sel := getPendingRows MAX_RETRIES BATCH_SIZE now_s db in
  getPendingItems MAX_RETRIES BATCH_SIZE now_s db = map select_columns sel
  /\ (forall id r, (id, r) ∈ sel ->
        pending_queue db !! id = Some r
        /\ retry_count r < 5
        /\ (last_attempt_at r = None
            \/ exists t, last_attempt_at r = Some t /\ t < now_s - 120))
  /\ (length sel <= 10)%nat
  /\ StronglySorted (fun a b => q_created_at a.2 <= q_created_at b.2) sel
  /\ NoDup sel.*1
  /\ (forall id r,
        pending_queue db !! id = Some r ->
        retry_count r < 5 ->
        (last_attempt_at r = None
         \/ exists t, last_attempt_at r = Some t /\ t < now_s - 120) ->
        (id, r) ∈ sel
        \/ (length sel = 10%nat
            /\ forall id' r', (id', r') ∈ sel -> q_created_at r' <= q_created_at r))
  /\ (forall id r, pending_queue db !! id = Some r -> 5 <= retry_count r ->
        (id, r) ∉ sel)
  /\ (forall id r T, pending_queue db !! id = Some r ->
        last_attempt_at r = Some T -> now_s < T + 120 ->
        (id, r) ∉ sel).
Proof.
  intros sel.
  destruct (getPendingRows_is_take MAX_RETRIES BATCH_SIZE now_s db)
    as (sorted & Hsel & Hsorted & Hnodup & Hmem).
  fold sel in Hsel.
  assert (Hsub : forall x, x ∈ sel -> x ∈ sorted).
  { intros x Hx. rewrite Hsel in Hx. apply elem_of_take in Hx as (i & Hi & _).
    by eapply list_elem_of_lookup_2. }
  assert (Hin : forall id r, (id, r) ∈ sel ->
        pending_queue db !! id = Some r
        /\ retry_count r < 5
        /\ (last_attempt_at r = None
            \/ exists t, last_attempt_at r = Some t /\ t < now_s - 120)).
  { intros id r Hx. apply Hsub, Hmem in Hx as [Hq He].
    apply eligible_spec in He. done. }
  rewrite <- (take_drop (Z.to_nat BATCH_SIZE) sorted), <- Hsel in Hsorted.
  apply StronglySorted_app in Hsorted as (Hcross & Hss & _).
  split; [reflexivity|]. split; [exact Hin|]. split; [|split; [|split; [|split; [|split]]]].
  - rewrite Hsel, length_take. unfold BATCH_SIZE. lia.
  - clear -Hss. induction Hss as [|x l Hl IH Hx]; constructor; [done|].
    eapply Forall_impl; [exact Hx|]. intros y. apply created_le_weaken.
  - rewrite Hsel. eapply sublist_NoDup; [exact Hnodup|].
    apply fmap_sublist, sublist_take.
  - intros id r Hq Hr Hl.
    assert (Hs : (id, r) ∈ sorted).
    { apply Hmem. split; [done|]. by apply eligible_spec. }
    rewrite <- (take_drop (Z.to_nat BATCH_SIZE) sorted), <- Hsel in Hs.
    apply elem_of_app in Hs as [Hs|Hs]; [by left|right]. split.
    + rewrite Hsel. apply length_take_le.
      apply list_elem_of_lookup in Hs as [i Hi]. apply lookup_lt_Some in Hi.
      rewrite length_drop in Hi. unfold BATCH_SIZE in *. lia.
    + intros id' r' Hs'. by apply (created_le_weaken (id', r') (id, r)), Hcross.
  - intros id r Hq Hr Hs. apply Hin in Hs as (_ & Hlt & _). lia.
  - intros id r T Hq HT Hnow Hs. apply Hin in Hs as (_ & _ & [Hn|(t & Ht & Hlt)]).
    + congruence.
    + assert (t = T) by congruence. lia.
Qed.

(** What the loop of the retry worker does to the store, item by item. *)
Lemma process_items_spec requestToPay clock items :
  forall db report,
    NoDup (map item_id items) ->
    let out := process_items requestToPay clock items db report in
    offerings out.1 = offerings db
    /\ daily_summaries out.1 = daily_summaries db
    /\ (forall id, id ∉ map item_id items ->
          pending_queue out.1 !! id = pending_queue db !! id)
    /\ (forall item, item ∈ items ->
          pending_queue out.1 !! item_id item
          = match requestToPay (resubmission item) with
            | None => None
            | Some _ =>
                bump_retry (clock (item_id item))
                  <$> pending_queue db !! item_id item
            end)
    /\ succeeded out.2 + failed out.2
      = succeeded report + failed report + Z.of_nat (length items).
Proof.
  induction items as [|item rest IH]; intros db report Hnd; simpl.
  - repeat split; try done; [|lia]. intros item Hin. by apply elem_of_nil in Hin.
  - apply NoDup_cons in Hnd as [Hfresh Hnd].
    set (db1 := match requestToPay (resubmission item) with
                | None => deleteQueueItem (item_id item) db
                | Some _ => incrementRetry (clock (item_id item)) (item_id item) db
                end).
    set (report1 := match requestToPay (resubmission item) with
                    | None => {| succeeded := succeeded report + 1;
                                 failed := failed report |}
                    | Some _ => {| succeeded := succeeded report;
                                   failed := failed report + 1 |}
                    end).
    assert (Hstep : match requestToPay (resubmission item) with
                    | None => process_items requestToPay clock rest
                                (deleteQueueItem (item_id item) db)
                                {| succeeded := succeeded report + 1;
                                   failed := failed report |}
                    | Some _ => process_items requestToPay clock rest
                                (incrementRetry (clock (item_id item)) (item_id item) db)
                                {| succeeded := succeeded report;
                                   failed := failed report + 1 |}
                    end = process_items requestToPay clock rest db1 report1).
    { unfold db1, report1. by destruct (requestToPay (resubmission item)). }
    rewrite Hstep.
    destruct (IH db1 report1 Hnd) as (Hoff & Hsum & Hout & Hin & Hcount).
    assert (Hoff1 : offerings db1 = offerings db)
      by (unfold db1; by destruct (requestToPay (resubmission item))).
    assert (Hsum1 : daily_summaries db1 = daily_summaries db)
      by (unfold db1; by destruct (requestToPay (resubmission item))).
    assert (Hq1 : forall id, id <> item_id item ->
                    pending_queue db1 !! id = pending_queue db !! id).
    { intros id Hne. unfold db1.
      destruct (requestToPay (resubmission item)); simpl.
      - by apply lookup_alter_ne.
      - by apply lookup_delete_ne. }
    assert (Hq1' : pending_queue db1 !! item_id item
                   = match requestToPay (resubmission item) with
                     | None => None
                     | Some _ => bump_retry (clock (item_id item))
                                   <$> pending_queue db !! item_id item
                     end).
    { unfold db1. destruct (requestToPay (resubmission item)); simpl.
      - apply lookup_alter_eq.
      - apply lookup_delete_eq. }
    assert (Hcount1 : succeeded report1 + failed report1
                      = succeeded report + failed report + 1).
    { unfold report1. destruct (requestToPay (resubmission item)); simpl; lia. }
    split; [congruence|]. split; [congruence|]. split; [|split].
    + intros id Hid. apply not_elem_of_cons in Hid as [Hne Hid].
      rewrite (Hout id Hid). by apply Hq1.
    + intros item' Hin'. apply elem_of_cons in Hin' as [->|Hin'].
      * rewrite (Hout (item_id item) Hfresh). exact Hq1'.
      * rewrite (Hin item' Hin'). rewrite Hq1; [done|].
        intros Heq. apply Hfresh. rewrite <- Heq.
        apply list_elem_of_fmap. by exists item'.
    + rewrite Hcount, Hcount1. lia.
Qed.

(** C5 (retry sweep outcomes). For every row a sweep selects: if the MoMo
    client accepts the resubmission the row is gone from the queue; if the
    resubmission throws, the row is still queued with [retry_count] one
    higher and [last_attempt_at] the instant of the failure, its other
    columns as they were. This holds for each selected row whatever happens
    to the others (the loop goes on after a failure: every selected row is
    counted as succeeded or failed); the [offerings] rows, so every
    transaction's status, and the summaries are as before the sweep, and so
    are the rows that were not selected. *)
Theorem retry_sweep_outcomes now_s requestToPay clock db :
  let sel := getPendingRows MAX_RETRIES BATCH_SIZE now_s db in
  let out := processPendingQueue now_s requestToPay clock db in
  (forall id r, (id, r) ∈ sel ->
     (requestToPay (resubmission (select_columns (id, r))) = None ->
        pending_queue out.1 !! id = None)
     /\ (forall err,
           requestToPay (resubmission (select_columns (id, r))) = Some err ->
           pending_queue out.1 !! id
           = Some {| q_reference_number := q_reference_number r;
                     q_momo_reference_id := q_momo_reference_id r;
                     q_amount := q_amount r;
                     q_phone_number := q_phone_number r;
                     q_payer_message := q_payer_message r;
                     retry_count := retry_count r + 1;
                     last_attempt_at := Some (clock id);
                     q_created_at := q_created_at r |}))
  /\ offerings out.1 = offerings db
  /\ daily_summaries out.1 = daily_summaries db
  /\ (forall id, id ∉ sel.*1 ->
        pending_queue out.1 !! id = pending_queue db !! id)
  /\ succeeded out.2 + failed out.2 = Z.of_nat (length sel).
Proof.
  intros sel out.
  destruct (getPendingRows_members MAX_RETRIES BATCH_SIZE now_s db)
    as (Hsel & Hnodup).
  fold sel in Hsel, Hnodup.
  assert (Hids : map item_id (map select_columns sel) = sel.*1).
  { rewrite map_map. reflexivity. }
  assert (Hout : out = process_items requestToPay clock (map select_columns sel) db
                         {| succeeded := 0; failed := 0 |}).
  { unfold out, processPendingQueue, getPendingItems. fold sel.
    by destruct (map select_columns sel). }
  pose proof (process_items_spec requestToPay clock (map select_columns sel) db
                {| succeeded := 0; failed := 0 |}) as Hspec.
  rewrite Hids in Hspec. specialize (Hspec Hnodup). cbv zeta in Hspec.
  rewrite <- Hout in Hspec.
  destruct Hspec as (Hoff & Hsum & Hother & Hitem & Hcount).
  split; [|split; [done|split; [done|split; [done|]]]].
  - intros id r Hin.
    assert (Hin' : select_columns (id, r) ∈ map select_columns sel).
    { apply list_elem_of_fmap. by exists (id, r). }
    specialize (Hitem _ Hin'). cbn [item_id select_columns fst] in Hitem.
    destruct (Hsel id r Hin) as (Hq & _).
    split.
    + intros Hacc. by rewrite Hacc in Hitem.
    + intros err Herr. rewrite Herr, Hq in Hitem. exact Hitem.
  - rewrite Hcount. cbn [succeeded failed]. rewrite length_map. lia.
Qed.

(** ** The creation flow *)

Lemma existsb_false_forall {A : Type} (p : A -> bool) (l : list A) :
  existsb p l = false <-> forall x, In x l -> p x = false.
Proof.
  split.
  - intros H x Hx. destruct (p x) eqn:E; [|done].
    assert (existsb p l = true) by (apply existsb_exists; eauto). congruence.
  - intros H. destruct (existsb p l) eqn:E; [|done].
    apply existsb_exists in E as (x & Hx & Hpx). rewrite (H x Hx) in Hpx. done.
Qed.

(** The insert goes through exactly when no constraint is violated. *)
Lemma insertOffering_Some utc_now refNumber momoRefId categoryCode amt phone
    memberName memberId payerMessage db :
  (forall o, In o (offerings db) ->
     reference_number o <> refNumber /\ momo_reference_id o <> momoRefId) ->
  (exists cat, In cat (categories db) /\ code cat = categoryCode) ->
  insertOffering utc_now refNumber momoRefId categoryCode amt phone
                 memberName memberId payerMessage db
  = Some (set_offerings
            (offerings db ++
             [pending_offering utc_now refNumber momoRefId categoryCode amt
                               phone memberName memberId payerMessage]) db).
Proof.
  intros Hfresh (cat & Hcat & Hcode). unfold insertOffering.
  assert (existsb (fun o => str_eq (reference_number o) refNumber) (offerings db)
          = false) as ->.
  { apply existsb_false_forall. intros o Ho. apply str_eq_false. by apply Hfresh. }
  assert (existsb (fun o => str_eq (momo_reference_id o) momoRefId) (offerings db)
          = false) as ->.
  { apply existsb_false_forall. intros o Ho. apply str_eq_false. by apply Hfresh. }
  assert (existsb (fun c => str_eq (code c) categoryCode) (categories db)
          = true) as ->.
  { apply existsb_exists. exists cat. split; [done|]. by apply str_eq_true. }
  reflexivity.
Qed.

Lemma insertOffering_None utc_now refNumber momoRefId categoryCode amt phone
    memberName memberId payerMessage db o :
  In o (offerings db) ->
  reference_number o = refNumber \/ momo_reference_id o = momoRefId ->
  insertOffering utc_now refNumber momoRefId categoryCode amt phone
                 memberName memberId payerMessage db = None.
Proof.
  intros Hin Hdup. unfold insertOffering.
  destruct Hdup as [Hdup|Hdup].
  - assert (existsb (fun o => str_eq (reference_number o) refNumber) (offerings db)
            = true) as ->; [|done].
    apply existsb_exists. exists o. split; [done|]. by apply str_eq_true.
  - assert (existsb (fun o => str_eq (momo_reference_id o) momoRefId) (offerings db)
            = true) as ->; [|by rewrite orb_true_r].
    apply existsb_exists. exists o. split; [done|]. by apply str_eq_true.
Qed.

(** When the generated reference or the correlation id is already used by
    a stored transaction, the insert raises, the transaction is rolled back
    and the handler's catch-all answers 500: nothing is persisted. *)
Lemma post_offering_conflict now utc_now uuid requestToPay queue_now
    (body : create_body) db phone raw category amt cat o :
  body_phone body = Some phone -> phone <> "" ->
  body_amount body = Some raw -> raw_truthy raw = true ->
  body_category body = Some category -> category <> "" ->
  parseFloat raw = Some amt -> real_le_0 amt = false ->
  getCategoryByCode category db = Some cat ->
  In o (offerings db) ->
  reference_number o = generateReference now category db
  \/ momo_reference_id o = uuid ->
  post_offering real_add raw_truthy parseFloat real_le_0 now utc_now uuid
                requestToPay queue_now body db
  = (Create500, db).
Proof.
  intros Hphone Hphone' Hraw Hraw' Hcat Hcat' Hparse Hpos Hfind Hin Hdup.
  unfold post_offering. rewrite Hphone, Hraw, Hcat.
  rewrite (proj2 (truthy_Some phone) Hphone'), Hraw'.
  rewrite (proj2 (truthy_Some category) Hcat'). cbn [negb].
  rewrite Hparse, Hpos, Hfind. unfold createOfferingTxn.
  cbn [data_phone data_amount data_category data_memberName data_note].
  by rewrite (insertOffering_None _ _ _ _ _ _ _ _ _ _ o Hin Hdup).
Qed.

(** Creation where the insert goes through. A creation request that passes
    validation and whose generated reference and correlation id are not yet
    used by a stored transaction is answered 202 with [success] and status PENDING,
    whether the MoMo client accepts the payment request or throws; the store
    then holds the new row in status PENDING and the summary row of (today,
    category) with total_count + 1 and total_amount + amount (1 and the
    amount for a new bucket); and when the client throws, a retry entry with
    the transaction's reference is queued, with no retry yet. *)
Lemma creation_robust now utc_now uuid requestToPay queue_now body db
    phone raw category amt cat :
  body_phone body = Some phone -> phone <> "" ->
  body_amount body = Some raw -> raw_truthy raw = true ->
  body_category body = Some category -> category <> "" ->
  parseFloat raw = Some amt -> real_le_0 amt = false ->
  getCategoryByCode category db = Some cat ->
  let ref := generateReference now category db in
  (forall o, In o (offerings db) ->
     reference_number o <> ref /\ momo_reference_id o <> uuid) ->
  let today := getTodayDateString now in
  let message := or_default (body_note body) (name cat ++ " Offering") in
  let outcome :=
    requestToPay {| pay_amount := amt; pay_phone := phone;
                    pay_referenceNumber := ref; pay_message := message;
                    pay_momoReferenceId := uuid |} in
  let out := post_offering real_add raw_truthy parseFloat real_le_0 now utc_now uuid requestToPay queue_now body db in
  out.1 = Create202 ref uuid "PENDING" (or_null outcome)
  /\ create_http_status out.1 = 202
  /\ create_success out.1 = true
  /\ offerings out.2
    = (offerings db ++
       [ {| reference_number := ref;
            momo_reference_id := uuid;
            financial_txn_id := None;
            category_code := category;
            amount := amt;
            phone_number := phone;
            member_name := or_null (body_memberName body);
            member_id := None;
            payer_message := or_null (body_note body);
            status := "PENDING";
            created_at := utc_now;
            updated_at := utc_now |} ])%list
  /\ daily_summaries out.2
    = <[ (today, category) :=
           match daily_summaries db !! (today, category) with
           | None => {| total_count := 1; total_amount := amt;
                        success_count := 0; failed_count := 0 |}
           | Some s => {| total_count := total_count s + 1;
                          total_amount := real_add (total_amount s) amt;
                          success_count := success_count s;
                          failed_count := failed_count s |}
           end ]> (daily_summaries db)
  /\ (outcome = None -> pending_queue out.2 = pending_queue db)
  /\ (forall err, outcome = Some err ->
        pending_queue out.2
        = <[ pending_queue_seq db + 1 :=
               {| q_reference_number := ref;
                  q_momo_reference_id := uuid;
                  q_amount := amt;
                  q_phone_number := phone;
                  q_payer_message := Some message;
                  retry_count := 0;
                  last_attempt_at := None;
                  q_created_at := queue_now |} ]> (pending_queue db)).
Proof.
  intros Hphone Hphone' Hraw Hraw' Hcat Hcat' Hparse Hpos Hfind ref Hfresh
         today message outcome out.
  assert (Hcatalog : exists c, In c (categories db) /\ code c = category).
  { unfold getCategoryByCode in Hfind. apply find_some in Hfind as [Hin Hc].
    exists cat. split; [done|]. by apply str_eq_true. }
  set (row := pending_offering utc_now ref uuid category amt phone
                (or_null (body_memberName body)) None (or_null (body_note body))).
  set (db1 := upsertDailySummary real_add today category amt
                (set_offerings (offerings db ++ [row]) db)).
  assert (Htxn : createOfferingTxn real_add now utc_now uuid
                   {| data_phone := phone; data_amount := amt;
                      data_category := category;
                      data_memberName := body_memberName body;
                      data_note := body_note body |} db
                 = Some ({| refNumber := ref; momoRefId := uuid |}, db1)).
  { unfold createOfferingTxn. cbn [data_phone data_amount data_category
                                   data_memberName data_note].
    fold ref. rewrite (insertOffering_Some _ _ _ _ _ _ _ _ _ _ Hfresh Hcatalog).
    reflexivity. }
  assert (Hqueue : insertPendingQueue queue_now ref uuid amt phone message db1
                   = Some {| categories := categories db1;
                             offerings := offerings db1;
                             daily_summaries := daily_summaries db1;
                             pending_queue :=
                               <[ pending_queue_seq db + 1 :=
                                    {| q_reference_number := ref;
                                       q_momo_reference_id := uuid;
                                       q_amount := amt;
                                       q_phone_number := phone;
                                       q_payer_message := Some message;
                                       retry_count := 0;
                                       last_attempt_at := None;
                                       q_created_at := queue_now |} ]>
                                 (pending_queue db);
                             pending_queue_seq := pending_queue_seq db + 1 |}).
  { unfold insertPendingQueue.
    assert (existsb (fun o => str_eq (reference_number o) ref) (offerings db1)
            = true) as ->; [|reflexivity].
    apply existsb_exists. exists row. split; [|apply str_eq_refl].
    unfold db1. simpl. apply in_or_app. right. by left. }
  assert (Hout : out
    = match outcome with
      | None => (Create202 ref uuid "PENDING" None, db1)
      | Some err =>
          (Create202 ref uuid "PENDING" (or_null (Some err)),
           {| categories := categories db1;
              offerings := offerings db1;
              daily_summaries := daily_summaries db1;
              pending_queue :=
                <[ pending_queue_seq db + 1 :=
                     {| q_reference_number := ref;
                        q_momo_reference_id := uuid;
                        q_amount := amt;
                        q_phone_number := phone;
                        q_payer_message := Some message;
                        retry_count := 0;
                        last_attempt_at := None;
                        q_created_at := queue_now |} ]>
                  (pending_queue db);
              pending_queue_seq := pending_queue_seq db + 1 |})
      end).
  { unfold out, post_offering. rewrite Hphone, Hraw, Hcat.
    rewrite (proj2 (truthy_Some phone) Hphone'), Hraw'.
    rewrite (proj2 (truthy_Some category) Hcat'). cbn [negb].
    rewrite Hparse, Hpos, Hfind, Htxn. cbn [refNumber momoRefId].
    fold message. fold outcome. destruct outcome as [err|]; [|done].
    by rewrite Hqueue. }
  assert (Hsum : daily_summaries db1
    = <[ (today, category) :=
           match daily_summaries db !! (today, category) with
           | None => {| total_count := 1; total_amount := amt;
                        success_count := 0; failed_count := 0 |}
           | Some s => {| total_count := total_count s + 1;
                          total_amount := real_add (total_amount s) amt;
                          success_count := success_count s;
                          failed_count := failed_count s |}
           end ]> (daily_summaries db)).
  { unfold db1, upsertDailySummary. simpl.
    by destruct (daily_summaries db !! (today, category)). }
  rewrite Hout. destruct outcome as [err|]; simpl.
  - repeat split; try done. all: by intros err' [= <-].
  - repeat split; try done.
Qed.

(** ** Aggregate consistency along runs whose clocks agree *)

Lemma sum_amounts_snoc (l : list REAL) (a : REAL) :
  sum_amounts real_add (l ++ [a])
  = Some (match sum_amounts real_add l with
          | None => a
          | Some t => real_add t a
          end).
Proof.
  destruct l as [|x l]; simpl; [done|]. by rewrite fold_left_app.
Qed.

Lemma count_status_snoc st (rows : list offering) o :
  count_status st (rows ++ [o])
  = count_status st rows + (if str_eq (status o) st then 1 else 0).
Proof.
  unfold count_status. rewrite List.filter_app, length_app. simpl.
  destruct (str_eq (status o) st); simpl; lia.
Qed.

Lemma unique_reference (l : list offering) (x y : offering) :
  NoDup (map reference_number l) ->
  In x l -> In y l -> reference_number x = reference_number y -> x = y.
Proof.
  induction l as [|z l IH]; simpl; [done|].
  rewrite NoDup_cons. intros [Hz Hnd] [->|Hx] [->|Hy] Href; auto.
  - exfalso. apply Hz. rewrite Href. apply list_elem_of_In, in_map, Hy.
  - exfalso. apply Hz. rewrite <- Href. apply list_elem_of_In, in_map, Hx.
Qed.

Section transition_counts.

Variables (now newStatus ref : string) (fin : option string).

Local Abbreviation upd := (update_row now newStatus fin ref).

Lemma upd_reference (x : offering) : reference_number (upd x) = reference_number x.
Proof. unfold update_row. by destruct (str_eq (reference_number x) ref). Qed.

Lemma upd_in_bucket b (x : offering) : in_bucket b (upd x) = in_bucket b x.
Proof. unfold update_row. by destruct (str_eq (reference_number x) ref). Qed.

Lemma upd_amount (x : offering) : amount (upd x) = amount x.
Proof. unfold update_row. by destruct (str_eq (reference_number x) ref). Qed.

Lemma filter_bucket_upd b (l : list offering) :
  List.filter (in_bucket b) (map upd l) = map upd (List.filter (in_bucket b) l).
Proof.
  induction l as [|x l IH]; simpl; [done|].
  rewrite upd_in_bucket. destruct (in_bucket b x); simpl; by rewrite IH.
Qed.

Lemma upd_untouched (l : list offering) :
  (forall x, In x l -> reference_number x <> ref) -> map upd l = l.
Proof.
  intros H. rewrite <- (map_id l) at 2. apply map_ext_in. intros x Hx.
  unfold update_row. apply H, str_eq_false in Hx. by rewrite Hx.
Qed.

(** Counting one status over rows of which exactly [o] carries [ref]. *)
Lemma count_status_upd st l o :
  NoDup (map reference_number l) ->
  In o l -> reference_number o = ref ->
  count_status st (map upd l)
  = count_status st l
    + (if str_eq newStatus st then 1 else 0)
    - (if str_eq (status o) st then 1 else 0).
Proof.
  induction l as [|x l IH]; simpl; [done|].
  rewrite NoDup_cons. intros [Hx Hnd] [->|Hin] Href.
  - assert (Hrest : map upd l = l).
    { apply upd_untouched. intros y Hy Hyref. apply Hx. rewrite Href, <- Hyref.
      apply list_elem_of_In, in_map, Hy. }
    rewrite Hrest. unfold update_row. rewrite (proj2 (str_eq_true _ _) Href).
    unfold count_status. simpl.
    destruct (str_eq newStatus st), (str_eq (status o) st); simpl; lia.
  - assert (Hxref : reference_number x <> ref).
    { intros Hxref. apply Hx. rewrite Hxref, <- Href.
      apply list_elem_of_In, in_map, Hin. }
    specialize (IH Hnd Hin Href). unfold count_status in *. simpl.
    unfold update_row at 1. rewrite (proj2 (str_eq_false _ _) Hxref).
    destruct (str_eq (status x) st); simpl; lia.
Qed.

End transition_counts.

Lemma NoDup_filter_references (p : offering -> bool) l :
  NoDup (map reference_number l) ->
  NoDup (map reference_number (List.filter p l)).
Proof.
  induction l as [|x l IH]; simpl; [done|].
  rewrite NoDup_cons. intros [Hx Hnd].
  destruct (p x); simpl; [|by apply IH].
  apply NoDup_cons. split; [|by apply IH].
  intros Hin. apply Hx. apply list_elem_of_In, in_map_iff in Hin as (y & Hy & Hin).
  apply filter_In in Hin as [Hin _]. rewrite <- Hy.
  apply list_elem_of_In, in_map, Hin.
Qed.

Lemma in_bucket_bucket_of o : in_bucket (bucket_of o) o = true.
Proof. unfold in_bucket, bucket_of. simpl. by rewrite !str_eq_refl. Qed.

Lemma in_bucket_true b o : in_bucket b o = true <-> b = bucket_of o.
Proof.
  unfold in_bucket, bucket_of. rewrite andb_true_iff, !str_eq_true.
  destruct b as [d c]. simpl. split; [intros [-> ->]; done|by intros [= -> ->]].
Qed.

(** A transition keeps the invariant. *)
Lemma updateStatusTxn_invariant now ref newStatus fin db :
  ledger_invariant real_add db ->
  ledger_invariant real_add (updateStatusTxn now ref newStatus fin db).2.
Proof.
  intros [Hnd Hcons].
  destruct (getOfferingByRef ref db) as [o|] eqn:Hget;
    [|by rewrite (updateStatusTxn_unknown _ _ _ _ _ Hget)].
  destruct (decide (status o = newStatus)) as [Heq|Hne];
    [by rewrite (updateStatusTxn_same _ _ _ _ _ _ Hget Heq)|].
  rewrite (updateStatusTxn_changed _ _ _ _ _ _ Hget Hne). cbn [snd].
  destruct (getOfferingByRef_Some _ _ _ Hget) as [Hin Href].
  set (f := fun x : offering =>
              if str_eq (reference_number x) ref
              then transitioned now newStatus (or_null fin) x else x).
  set (db' := updateDailySummaryCounters _ _ _ _ _).
  assert (Hoffs : offerings db' = map f (offerings db)) by reflexivity.
  assert (Hsums : daily_summaries db'
                  = alter (add_counters (spec_delta "SUCCESSFUL" (status o) newStatus)
                                        (spec_delta "FAILED" (status o) newStatus))
                          (bucket_of o) (daily_summaries db)).
  { unfold db'. destruct (getStatusDelta_spec (status o) newStatus) as [-> ->].
    reflexivity. }
  assert (Hrows : forall b, bucket_rows b db' = map f (bucket_rows b db)).
  { intros b. unfold bucket_rows. rewrite Hoffs. apply filter_bucket_upd. }
  split.
  - rewrite Hoffs, map_map.
    erewrite map_ext; [exact Hnd|]. intros x. apply upd_reference.
  - intros b. unfold bucket_consistent. rewrite Hsums, Hrows.
    specialize (Hcons b). unfold bucket_consistent in Hcons.
    destruct (decide (b = bucket_of o)) as [->|Hb].
    + rewrite lookup_alter_eq.
      assert (Hino : In o (bucket_rows (bucket_of o) db)).
      { apply filter_In. split; [done|]. apply in_bucket_bucket_of. }
      destruct (daily_summaries db !! bucket_of o) as [s|];
        [|by rewrite Hcons in Hino].
      destruct Hcons as (Hs & Hf & Ht & Ha). simpl.
      pose proof (NoDup_filter_references (in_bucket (bucket_of o)) _ Hnd) as Hnd'.
      fold (bucket_rows (bucket_of o) db) in Hnd'.
      rewrite !(count_status_upd now newStatus ref (or_null fin) _ _ o Hnd' Hino Href).
      rewrite length_map, map_map.
      erewrite (map_ext (fun x => amount (f x))); [|intros x; apply upd_amount].
      unfold spec_delta. rewrite !str_eq_decide.
      repeat split; [| |done|done]; repeat case_decide; lia.
    + rewrite lookup_alter_ne by done.
      assert (Hsame : map f (bucket_rows b db) = bucket_rows b db).
      { apply upd_untouched. intros x Hx Hxref.
        apply filter_In in Hx as [Hx Hxb]. apply in_bucket_true in Hxb.
        apply Hb. rewrite Hxb. f_equal.
        apply (unique_reference (offerings db)); [done..|congruence]. }
      by rewrite Hsame.
Qed.

(** A creation whose two clocks agree keeps the invariant. *)
Lemma createOfferingTxn_invariant now utc_now uuid data db ids db' :
  ledger_invariant real_add db ->
  getTodayDateString now = split_space_head utc_now ->
  createOfferingTxn real_add now utc_now uuid data db = Some (ids, db') ->
  ledger_invariant real_add db'.
Proof.
  intros [Hnd Hcons] Hclock Htxn. unfold createOfferingTxn in Htxn.
  set (ref := generateReference now (data_category data) db) in *.
  destruct (insertOffering _ _ _ _ _ _ _ _ _ _) as [db1|] eqn:Hins; [|done].
  injection Htxn as _ <-.
  unfold insertOffering in Hins.
  destruct (existsb (fun o => str_eq (reference_number o) ref) (offerings db))
    eqn:Hfresh; [done|].
  match type of Hins with
  | (if ?c then _ else _) = _ => destruct c; [done|]
  end.
  injection Hins as <-.
  set (row := pending_offering utc_now ref uuid (data_category data)
                (data_amount data) (data_phone data)
                (or_null (data_memberName data)) None (or_null (data_note data))).
  set (b0 := (getTodayDateString now, data_category data)).
  assert (Hb0 : b0 = bucket_of row).
  { unfold b0, bucket_of, row. simpl. by rewrite Hclock. }
  assert (Hrows : forall b,
            bucket_rows b (upsertDailySummary real_add (getTodayDateString now)
                             (data_category data) (data_amount data)
                             (set_offerings (offerings db ++ [row]) db))
            = (bucket_rows b db ++ if in_bucket b row then [row] else [])%list).
  { intros b. unfold bucket_rows. simpl. rewrite List.filter_app. simpl.
    by destruct (in_bucket b row). }
  split.
  - simpl. rewrite map_app. simpl. apply NoDup_app. split; [done|]. split.
    + intros x Hx Hx'. apply list_elem_of_singleton in Hx'. subst x.
      apply list_elem_of_In, in_map_iff in Hx as (y & Hy & Hin).
      rewrite existsb_false_forall in Hfresh. specialize (Hfresh y Hin).
      apply str_eq_false in Hfresh. done.
    + apply NoDup_singleton.
  - intros b. unfold bucket_consistent. rewrite Hrows.
    specialize (Hcons b). unfold bucket_consistent in Hcons.
    destruct (decide (b = b0)) as [->|Hb].
    + assert (in_bucket b0 row = true) as ->
        by (rewrite Hb0; apply in_bucket_bucket_of).
      unfold upsertDailySummary. simpl. fold b0.
      rewrite !count_status_snoc, length_app, map_app. cbn [map].
      rewrite sum_amounts_snoc. cbn [length status row pending_offering amount].
      destruct (daily_summaries db !! b0) as [s|]; cbn [daily_summaries set_daily_summaries].
      * rewrite lookup_insert_eq. destruct Hcons as (Hs & Hf & Ht & Ha).
        rewrite <- Ha. simpl. repeat split; try done; lia.
      * rewrite lookup_insert_eq, Hcons. simpl. repeat split; done.
    + assert (Hout : in_bucket b row = false).
      { apply not_true_iff_false. rewrite in_bucket_true. congruence. }
      rewrite Hout, app_nil_r.
      assert (Hlook : daily_summaries
                        (upsertDailySummary real_add (getTodayDateString now)
                           (data_category data) (data_amount data)
                           (set_offerings (offerings db ++ [row]) db)) !! b
                      = daily_summaries db !! b).
      { unfold upsertDailySummary. simpl. fold b0.
        destruct (daily_summaries db !! b0); by rewrite lookup_insert_ne. }
      by rewrite Hlook.
Qed.

Lemma initial_database_invariant : ledger_invariant real_add initial_database.
Proof.
  split; [constructor|]. intros b. unfold bucket_consistent. simpl.
  by rewrite lookup_empty.
Qed.

(** The positive half of C1: along any sequence of creations and
    transitions in which every creation reads a local date equal to the
    date of the store's UTC timestamp, every bucket stays consistent. *)
Lemma aggregate_consistent_when_clocks_agree ops db :
  ledger_invariant real_add db ->
  Forall clock_agrees ops ->
  ledger_invariant real_add (run real_add ops db).
Proof.
  intros Hinv Hops. revert db Hinv.
  induction Hops as [|op ops Hop _ IH]; intros db Hinv; [done|].
  simpl. apply IH. destruct op as [now utc_now uuid data|utc_now ref st fin]; simpl.
  - destruct (createOfferingTxn real_add now utc_now uuid data db) as [[ids db']|] eqn:E;
      [|done].
    by eapply createOfferingTxn_invariant.
  - by apply updateStatusTxn_invariant.
Qed.

(** On a consistent ledger every stored transaction has the summary row
    of its bucket. *)
Lemma summary_row_of_stored_transaction db o :
  ledger_invariant real_add db -> In o (offerings db) ->
  exists s, daily_summaries db !! bucket_of o = Some s.
Proof.
  intros [_ Hcons] Hin. specialize (Hcons (bucket_of o)).
  unfold bucket_consistent in Hcons.
  destruct (daily_summaries db !! bucket_of o) as [s|]; [by exists s|].
  assert (Hrow : In o (bucket_rows (bucket_of o) db)).
  { apply filter_In. split; [done|]. apply in_bucket_bucket_of. }
  by rewrite Hcons in Hrow.
Qed.

(** Where the clocks agree the delta rule holds without exception: on
    every store reached from the initial one by creations that read a local
    date equal to the date of the store's UTC timestamp, and transitions,
    every transition that changes a status finds the summary row of the
    transaction's bucket and adds the delta to it. *)
Lemma delta_rule_when_clocks_agree ops now ref newStatus fin o :
  Forall clock_agrees ops ->
  let db := run real_add ops initial_database in
  getOfferingByRef ref db = Some o ->
  status o <> newStatus ->
  let db' := (updateStatusTxn now ref newStatus fin db).2 in
  exists s,
    daily_summaries db !! bucket_of o = Some s
    /\ daily_summaries db' !! bucket_of o
       = Some {| total_count := total_count s;
                 total_amount := total_amount s;
                 success_count :=
                   success_count s + spec_delta "SUCCESSFUL" (status o) newStatus;
                 failed_count :=
                   failed_count s + spec_delta "FAILED" (status o) newStatus |}.
Proof.
  intros Hops db Hget Hne db'.
  assert (Hinv : ledger_invariant real_add db).
  { apply aggregate_consistent_when_clocks_agree; [|done].
    apply initial_database_invariant. }
  destruct (getOfferingByRef_Some _ _ _ Hget) as [Hin _].
  destruct (summary_row_of_stored_transaction db o Hinv Hin) as [s Hs].
  exists s. split; [done|].
  by apply (generic_delta_rule now ref newStatus fin db o Hget Hne).
Qed.

End Properties.

(** * Properties of the rest of the code *)

(** ** Texts *)

Lemma length_substring (s : string) : forall n m,
  (n + m <= String.length s)%nat -> String.length (substring n m s) = m.
Proof.
  induction s as [|c s IH]; intros n m H; simpl in *.
  - destruct n, m; simpl; lia.
  - destruct n as [|n].
    + destruct m as [|m]; [reflexivity|]. simpl. rewrite IH; lia.
    + apply IH. lia.
Qed.

Lemma length_append (a b : string) :
  String.length (a ++ b) = (String.length a + String.length b)%nat.
Proof. induction a as [|c a IH]; simpl; [reflexivity|]. now rewrite IH. Qed.

(** X12. [maskPhone] shows no more than the first three and the last four
    characters: a phone number of seven characters or more becomes ten
    characters, its first three, three stars and its last four, whatever
    its length. A number shorter than seven characters is returned as it
    is, unmasked, and a missing one is the empty string. *)
Theorem maskPhone_shows_first_3_and_last_4 (p : string) :
  maskPhone None = ""
  /\ ((String.length p < 7)%nat -> maskPhone (Some p) = p)
  /\ ((7 <= String.length p)%nat ->
      String.length (maskPhone (Some p)) = 10%nat
      /\ (forall i, (i < 3)%nat ->
            String.get i (maskPhone (Some p)) = String.get i p)
      /\ (forall i, (3 <= i < 6)%nat ->
            String.get i (maskPhone (Some p)) = Some "*"%char)
      /\ (forall i, (i < 4)%nat ->
            String.get (6 + i) (maskPhone (Some p))
            = String.get (String.length p - 4 + i) p)).
Proof.
  split; [reflexivity|]. split.
  - intros H. unfold maskPhone.
    destruct (negb (truthy (Some p)) || (String.length p <? 7)%nat) eqn:E.
    + simpl. destruct (str_eq p "") eqn:Ep; [|reflexivity].
      apply String.eqb_eq in Ep. auto.
    + apply orb_false_iff in E as [_ E]. apply Nat.ltb_ge in E. lia.
  - intros H. unfold maskPhone.
    assert (E : negb (truthy (Some p)) || (String.length p <? 7)%nat = false).
    { apply orb_false_iff. split.
      - simpl. destruct p; [simpl in H; lia|reflexivity].
      - apply Nat.ltb_ge. lia. }
    rewrite E. clear E.
    assert (L3 : String.length (substring 0 3 p) = 3%nat)
      by (apply length_substring; lia).
    assert (L4 : String.length (slice_last 4 p) = 4%nat)
      by (apply length_substring; lia).
    split; [|split; [|split]].
    + rewrite !length_append, L3, L4. reflexivity.
    + intros i Hi. rewrite <- append_correct1 by lia.
      rewrite substring_correct1 by lia. f_equal. lia.
    + intros i Hi.
      replace i with ((i - 3) + String.length (substring 0 3 p))%nat by lia.
      rewrite <- append_correct2.
      rewrite <- append_correct1 by (simpl; lia).
      destruct (i - 3)%nat as [|[|[|k]]] eqn:Ek; try reflexivity. lia.
    + intros i Hi.
      replace (6 + i)%nat
        with ((i + String.length "***") + String.length (substring 0 3 p))%nat
        by (rewrite L3; simpl; lia).
      rewrite <- append_correct2, <- append_correct2.
      unfold slice_last. rewrite substring_correct1 by lia. f_equal. lia.
Qed.

(** X13. [toMSISDN] is idempotent and its result never starts with 0: a
    number that starts with 0 has that 0 replaced by 233, any other number
    is returned as it is, so converting twice is converting once. *)
Theorem toMSISDN_idempotent (phone : string) :
  toMSISDN (toMSISDN phone) = toMSISDN phone
  /\ String.get 0 (toMSISDN phone) <> Some "0"%char
  /\ (String.get 0 phone = Some "0"%char ->
      toMSISDN phone = "233" ++ substring 1 (String.length phone - 1) phone)
  /\ (String.get 0 phone <> Some "0"%char -> toMSISDN phone = phone).
Proof.
  destruct phone as [|c rest]; simpl.
  - repeat split; try congruence.
  - destruct (Ascii.eqb c "0") eqn:E.
    + apply Ascii.eqb_eq in E. subst c. simpl.
      repeat split; try congruence.
      intros _. rewrite Nat.sub_0_r. f_equal. f_equal. f_equal.
      clear. induction rest; simpl; [reflexivity|]. f_equal. exact IHrest.
    + apply Ascii.eqb_neq in E. simpl.
      rewrite (proj2 (Ascii.eqb_neq c "0") E).
      repeat split; try congruence.
Qed.

(** ** Dates *)

Lemma pattern_test_app (p1 p2 : list pattern_token) (s2 : string) :
  forall s1, pattern_test p1 s1 = true -> pattern_test p2 s2 = true ->
  pattern_test (p1 ++ p2)%list (s1 ++ s2) = true.
Proof.
  induction p1 as [|t p1 IH]; intros [|c s1] H1 H2; simpl in *;
    try discriminate; [assumption|].
  apply andb_true_iff in H1 as [Hc H1]. rewrite Hc. simpl. auto.
Qed.

Lemma pattern_test_length (pat : list pattern_token) :
  forall s, pattern_test pat s = true -> String.length s = length pat.
Proof.
  induction pat as [|t pat IH]; intros [|c s] H; simpl in *;
    try discriminate; [reflexivity|].
  apply andb_true_iff in H as [_ H]. f_equal. auto.
Qed.

Lemma pattern_test_no_space (pat : list pattern_token) :
  forall s, pattern_test pat s = true -> includes_char " "%char s = false.
Proof.
  induction pat as [|t pat IH]; intros [|c s] H; simpl in *;
    try discriminate; [reflexivity|].
  apply andb_true_iff in H as [Hc H]. rewrite (IH _ H), orb_false_r.
  apply Ascii.eqb_neq. intros ->. destruct t; discriminate.
Qed.

Lemma split_space_head_app (s rest : string) :
  includes_char " "%char s = false ->
  split_space_head (s ++ String " "%char rest) = s.
Proof.
  induction s as [|c s IH]; simpl; intros H; [reflexivity|].
  apply orb_false_iff in H as [Hc H]. rewrite Hc, IH; auto.
Qed.

Lemma substring_0_app (s rest : string) :
  substring 0 (String.length s) (s ++ rest) = s.
Proof.
  induction s as [|c s IH]; simpl; [destruct rest; reflexivity|].
  now rewrite IH.
Qed.

Lemma forallb_seqZ (P : Z -> bool) (a n : Z) :
  forallb P (seqZ a n) = true ->
  forall k, a <= k < a + n -> P k = true.
Proof.
  intros H k Hk. rewrite forallb_forall in H.
  apply H, list_elem_of_In, elem_of_seqZ. lia.
Qed.

(** The decimal text of a number has one digit character for each digit
    of its decimal expansion. *)
Lemma string_of_uint_digits (d : Decimal.uint) :
  pattern_test (repeat Digit (DecimalNat.Unsigned.usize d))
               (NilEmpty.string_of_uint d) = true.
Proof. induction d; simpl; auto. Qed.

Lemma of_uint_cons (d : Decimal.uint) :
  d <> Decimal.Nil ->
  Nat.of_uint d
  = (Nat.of_uint (DecimalNat.Unsigned.tl d)
     + DecimalNat.Unsigned.hd d
       * 10 ^ DecimalNat.Unsigned.usize (DecimalNat.Unsigned.tl d))%nat.
Proof.
  intros Hd. rewrite !DecimalNat.Unsigned.of_uint_alt.
  destruct d; [congruence|..]; unfold Decimal.rev at 1; simpl Decimal.revapp;
    rewrite DecimalNat.Unsigned.of_lu_revapp;
    simpl DecimalNat.Unsigned.of_lu; simpl DecimalNat.Unsigned.tl;
    simpl DecimalNat.Unsigned.hd; lia.
Qed.

Lemma of_uint_lt (d : Decimal.uint) :
  (Nat.of_uint d < 10 ^ DecimalNat.Unsigned.usize d)%nat.
Proof.
  induction d;
    [cbv; lia
    |rewrite of_uint_cons by discriminate;
     simpl DecimalNat.Unsigned.tl; simpl DecimalNat.Unsigned.hd;
     simpl DecimalNat.Unsigned.usize; rewrite Nat.pow_succ_r'; lia ..].
Qed.

Lemma unorm_D0 (d d' : Decimal.uint) :
  Decimal.unorm d = Decimal.D0 d' -> d' = Decimal.Nil.
Proof.
  induction d; simpl; intros H; try discriminate; auto.
  injection H as H. auto.
Qed.

Lemma of_uint_ge (d : Decimal.uint) :
  Decimal.unorm d = d -> d <> Decimal.zero ->
  (10 ^ (DecimalNat.Unsigned.usize d - 1) <= Nat.of_uint d)%nat.
Proof.
  intros Hn Hz.
  destruct d;
    [discriminate
    |exfalso; apply Hz; f_equal; exact (unorm_D0 _ _ Hn)
    |rewrite of_uint_cons by discriminate;
     simpl DecimalNat.Unsigned.tl; simpl DecimalNat.Unsigned.hd;
     simpl DecimalNat.Unsigned.usize; simpl Nat.sub; rewrite ?Nat.sub_0_r; lia ..].
Qed.

Lemma year_has_four_digits (y : nat) :
  1000 <= Z.of_nat y <= 9999 ->
  pattern_test [Digit; Digit; Digit; Digit] (String_of_nat y) = true.
Proof.
  intros H. unfold String_of_nat.
  pose proof (DecimalNat.Unsigned.of_to y) as Hy.
  assert (Hn : Decimal.unorm (Nat.to_uint y) = Nat.to_uint y).
  { rewrite <- Hy at 1. rewrite DecimalNat.Unsigned.to_of.
    rewrite <- Hy at 2. now rewrite DecimalNat.Unsigned.to_of, DecimalFacts.unorm_involutive. }
  assert (Hz : Nat.to_uint y <> Decimal.zero).
  { intros E. rewrite E in Hy. cbv in Hy. lia. }
  pose proof (of_uint_lt (Nat.to_uint y)) as Hlt.
  pose proof (of_uint_ge _ Hn Hz) as Hge.
  rewrite Hy in Hlt, Hge.
  pose proof (string_of_uint_digits (Nat.to_uint y)) as Hd.
  set (u := DecimalNat.Unsigned.usize (Nat.to_uint y)) in *.
  assert (Hu : u = 4%nat).
  { destruct (Nat.lt_trichotomy u 4) as [Hu|[Hu|Hu]]; [|exact Hu|]; exfalso.
    - pose proof (Nat.pow_le_mono_r 10 u 3 ltac:(lia) ltac:(lia)) as Hp.
      change (10 ^ 3)%nat with 1000%nat in Hp. lia.
    - pose proof (Nat.pow_le_mono_r 10 4 (u - 1) ltac:(lia) ltac:(lia)) as Hp.
      apply Nat2Z.inj_le in Hp, Hge. rewrite Nat2Z.inj_pow in Hp.
      change (Z.of_nat 10 ^ Z.of_nat 4) with 10000 in Hp. lia. }
  rewrite Hu in Hd. exact Hd.
Qed.

Lemma padStart0_2_has_two_digits (n : nat) :
  (n <= 99)%nat ->
  pattern_test [Digit; Digit] (padStart0 2 (String_of_nat n)) = true.
Proof.
  intros H. rewrite <- (Nat2Z.id n).
  apply (forallb_seqZ
           (fun z => pattern_test [Digit; Digit]
                       (padStart0 2 (String_of_nat (Z.to_nat z))))
           0 100); [vm_compute; reflexivity|lia].
Qed.

(** X14. The date that the handlers use when the request gives none
    always passes their own validation: for every local date with a
    four-digit year, [getTodayDateString] returns a text that
    [isValidDateString] accepts. *)
Theorem today_is_a_valid_date_string (now : js_date) :
  1000 <= Z.of_nat (getFullYear now) <= 9999 ->
  (getMonth now <= 11)%nat ->
  (1 <= getDate now <= 31)%nat ->
  isValidDateString (getTodayDateString now) = true.
Proof.
  intros Hy Hm Hd. unfold isValidDateString, getTodayDateString. cbv zeta.
  change date_pattern
    with ([Digit; Digit; Digit; Digit]
          ++ [Dash] ++ [Digit; Digit] ++ [Dash] ++ [Digit; Digit])%list.
  apply pattern_test_app; [apply year_has_four_digits; assumption|].
  apply (pattern_test_app [Dash] _ _ "-"); [reflexivity|].
  apply pattern_test_app; [apply padStart0_2_has_two_digits; lia|].
  apply (pattern_test_app [Dash] _ _ "-"); [reflexivity|].
  apply padStart0_2_has_two_digits; lia.
Qed.


(** ** CSV fields *)

Lemma double_dquotes_inj (a : string) :
  forall b, double_dquotes a = double_dquotes b -> a = b.
Proof.
  induction a as [|c a IH]; intros [|d b] H; simpl in H.
  - reflexivity.
  - destruct (Ascii.eqb d dquote); discriminate.
  - destruct (Ascii.eqb c dquote); discriminate.
  - destruct (Ascii.eqb c dquote) eqn:Ec, (Ascii.eqb d dquote) eqn:Ed.
    + apply Ascii.eqb_eq in Ec, Ed. subst. injection H as H. f_equal. auto.
    + injection H as H1 H2. subst d. discriminate.
    + injection H as H1 H2. subst c. discriminate.
    + injection H as H1 H2. subst. f_equal. auto.
Qed.

Lemma append_inv_tail (t : string) (a : string) :
  forall b, a ++ t = b ++ t -> a = b.
Proof.
  induction a as [|c a IH]; intros [|d b] H; simpl in H.
  - reflexivity.
  - apply (f_equal String.length) in H.
    rewrite !length_append in H. simpl in H. lia.
  - apply (f_equal String.length) in H.
    rewrite !length_append in H. simpl in H. lia.
  - injection H as -> H. f_equal. auto.
Qed.

(** X16. The CSV escaping of [offeringsToCSV] loses nothing: two
    different field texts never have the same escaped text. *)
Theorem escapeField_injective (a b : string) :
  a <> b -> escapeField a <> escapeField b.
Proof.
  intros Hab H. apply Hab. clear Hab. unfold escapeField in H.
  destruct (includes_char "," a || includes_char dquote a
            || includes_char line_feed a) eqn:Ea,
           (includes_char "," b || includes_char dquote b
            || includes_char line_feed b) eqn:Eb.
  - injection H as H. apply double_dquotes_inj, (append_inv_tail _ _ _ H).
  - subst b. simpl in Eb. rewrite orb_true_r in Eb. discriminate.
  - subst a. simpl in Ea. rewrite orb_true_r in Ea. discriminate.
  - exact H.
Qed.

(** ** The token cache *)

(** X17. A granted token is cached for 3500 seconds: after a call of
    [getToken] that fetched the token [tok], every call made before
    [now1 + 3500 * 1000] ms returns [tok] without any request and leaves the
    cache alone; a call made from then on sends one request, and either
    caches the new token for 3500 seconds from that call or, when the
    request is refused, throws and leaves the cache as it was. *)
Theorem token_is_reused_until_it_expires (now1 now2 : Z) (tok : string)
    (reply2 : token_reply) (cache : token_cache) :
  tok <> "" ->
  let first := getToken false now1 (TokenGranted (Some tok)) cache in
  let second := getToken false now2 reply2 (token_state first) in
  token_requests first = 1%nat ->
  (now2 < now1 + 3500 * 1000 ->
   second = {| token_answer := inr (Some tok); token_state := token_state first;
               token_requests := 0 |})
  /\ (now1 + 3500 * 1000 <= now2 ->
      token_requests second = 1%nat
      /\ match reply2 with
         | TokenRefused http_status text =>
             token_state second = token_state first
             /\ exists msg, token_answer second = inl msg
         | TokenGranted tok2 =>
             token_answer second = inr tok2
             /\ token_state second
                = {| cachedToken := tok2; tokenExpiresAt := now2 + 3500 * 1000 |}
         end).
Proof.
  intros Htok first second Hreq. subst second first. unfold getToken in *.
  simpl in *.
  destruct (truthy (cachedToken cache) && (now1 <? tokenExpiresAt cache)) eqn:E;
    [discriminate|]. simpl.
  assert (Ht : str_eq tok "" = false) by (apply String.eqb_neq; exact Htok).
  rewrite Ht. simpl. split; intros H.
  - destruct (Z.ltb_spec now2 (now1 + 3500 * 1000)); [reflexivity|lia].
  - destruct (Z.ltb_spec now2 (now1 + 3500 * 1000)); [lia|].
    destruct reply2; simpl; repeat split; eauto.
Qed.

Section MoreProperties.

Context {REAL : Type}.
Variable real_add : REAL -> REAL -> REAL.
Context {RAW : Type}.
Variable raw_truthy : RAW -> bool.
Variable parseFloat : RAW -> option REAL.
Variable real_le_0 : REAL -> bool.

Local Abbreviation offering := (@offering REAL).
Local Abbreviation queue_row := (@queue_row REAL).
Local Abbreviation database := (@database REAL).
Local Abbreviation pay_request := (@pay_request REAL).
Implicit Types db : database.
Implicit Types o : offering.

(** ** What a creation leaves *)

Lemma createOfferingTxn_Some now utc_now uuid data db ids db' :
  createOfferingTxn real_add now utc_now uuid data db = Some (ids, db') ->
  let row := pending_offering utc_now (refNumber ids) (momoRefId ids)
               (data_category data) (data_amount data) (data_phone data)
               (or_null (data_memberName data)) None (or_null (data_note data)) in
  offerings db' = (offerings db ++ [row])%list
  /\ categories db' = categories db
  /\ pending_queue db' = pending_queue db
  /\ pending_queue_seq db' = pending_queue_seq db
  /\ daily_summaries db'
     = daily_summaries
         (upsertDailySummary real_add (getTodayDateString now)
            (data_category data) (data_amount data) db)
  /\ refNumber ids = generateReference now (data_category data) db
  /\ momoRefId ids = uuid
  /\ (forall x, In x (offerings db) ->
        reference_number x <> refNumber ids /\ momo_reference_id x <> momoRefId ids)
  /\ (exists cat, In cat (categories db) /\ code cat = data_category data).
Proof.
  unfold createOfferingTxn, insertOffering. intros H.
  destruct (existsb (fun o => str_eq (reference_number o) _) (offerings db)) eqn:E1;
    [done|].
  destruct (existsb (fun o => str_eq (momo_reference_id o) uuid) (offerings db)) eqn:E2;
    [done|].
  destruct (existsb (fun cat => str_eq (code cat) (data_category data))
                    (categories db)) eqn:E3; [|done].
  simpl in H. injection H as <- <-. simpl.
  repeat split; try done.
  - rewrite existsb_false_forall in E1. apply str_eq_false. by apply E1.
  - rewrite existsb_false_forall in E2. apply str_eq_false. by apply E2.
  - apply existsb_exists in E3 as (cat & Hin & Hc). exists cat.
    split; [done|]. by apply str_eq_true.
Qed.

Lemma insertPendingQueue_Some now_s ref momo (amt : REAL) phone msg db db' :
  insertPendingQueue now_s ref momo amt phone msg db = Some db' ->
  offerings db' = offerings db
  /\ categories db' = categories db
  /\ daily_summaries db' = daily_summaries db
  /\ pending_queue_seq db' = pending_queue_seq db + 1
  /\ pending_queue db'
     = <[ pending_queue_seq db + 1 :=
            {| q_reference_number := ref; q_momo_reference_id := momo;
               q_amount := amt; q_phone_number := phone;
               q_payer_message := Some msg; retry_count := 0;
               last_attempt_at := None; q_created_at := now_s |} ]>
         (pending_queue db).
Proof.
  unfold insertPendingQueue.
  destruct (existsb _ _); [|done]. intros [= <-]. done.
Qed.

(** What POST /api/offerings leaves, case by case: nothing; or the
    created transaction; or the created transaction and a retry entry. *)
Lemma post_offering_cases now utc_now uuid requestToPay queue_now
    (body : create_body) db :
  let out := post_offering real_add raw_truthy parseFloat real_le_0 now utc_now
               uuid requestToPay queue_now body db in
  (out.2 = db /\ create_http_status out.1 <> 202)
  \/ exists data ids db1,
       createOfferingTxn real_add now utc_now uuid data db = Some (ids, db1)
       /\ (out = (Create202 (refNumber ids) (momoRefId ids) "PENDING" None, db1)
           \/ exists err msg,
                insertPendingQueue queue_now (refNumber ids) (momoRefId ids)
                  (data_amount data) (data_phone data) msg db1 = Some out.2
                /\ out.1 = Create202 (refNumber ids) (momoRefId ids) "PENDING"
                                     (or_null (Some err))).
Proof.
  intros out. unfold out, post_offering.
  destruct (body_phone body) as [phone|]; [|left; done].
  destruct (negb (truthy (Some phone))); [left; done|].
  destruct (body_amount body) as [raw|]; [|left; done].
  destruct (negb (raw_truthy raw)); [left; done|].
  destruct (body_category body) as [category|]; [|left; done].
  destruct (negb (truthy (Some category))); [left; done|].
  destruct (parseFloat raw) as [amt|]; [|left; done].
  destruct (real_le_0 amt); [left; done|].
  destruct (getCategoryByCode category db) as [cat|]; [|left; done].
  match goal with
  | |- context [createOfferingTxn real_add now utc_now uuid ?d db] => set (data := d)
  end.
  destruct (createOfferingTxn real_add now utc_now uuid data db)
    as [[ids db1]|] eqn:Htxn; [|left; done].
  right. exists data, ids, db1. split; [done|].
  destruct (requestToPay _) as [err|]; [|by left].
  right. exists err. eexists. cbn [fst snd]. split; [|reflexivity].
  unfold insertPendingQueue.
  destruct (createOfferingTxn_Some _ _ _ _ _ _ _ Htxn) as (Hoff & _).
  assert (existsb (fun o => str_eq (reference_number o) (refNumber ids))
                  (offerings db1) = true) as ->; [|reflexivity].
  apply existsb_exists.
  exists (pending_offering utc_now (refNumber ids) (momoRefId ids)
            (data_category data) (data_amount data) (data_phone data)
            (or_null (data_memberName data)) None (or_null (data_note data))).
  split; [|apply str_eq_refl].
  rewrite Hoff. apply in_or_app. right. by left.
Qed.

(** X1. POST /api/offerings writes to the store only when it answers 202,
    and then it has added one transaction, in status PENDING and with no
    settlement id, under the reference and the correlation id it reports;
    the stored transactions are as they were. *)
Theorem post_offering_persists_only_with_202 now utc_now uuid requestToPay
    queue_now (body : create_body) db :
  let out := post_offering real_add raw_truthy parseFloat real_le_0 now utc_now
               uuid requestToPay queue_now body db in
  (create_http_status out.1 <> 202 -> out.2 = db)
  /\ (create_http_status out.1 = 202 ->
      exists o momoError,
        out.1 = Create202 (reference_number o) (momo_reference_id o) "PENDING"
                          momoError
        /\ offerings out.2 = (offerings db ++ [o])%list
        /\ status o = "PENDING"
        /\ financial_txn_id o = None
        /\ momo_reference_id o = uuid
        /\ categories out.2 = categories db).
Proof.
  intros out.
  destruct (post_offering_cases now utc_now uuid requestToPay queue_now body db)
    as [[Hdb Hst]|(data & ids & db1 & Htxn & Hdb)];
    fold out in Hdb, Hst || fold out in Hdb.
  - split; [done|]. intros H. done.
  - destruct (createOfferingTxn_Some _ _ _ _ _ _ _ Htxn)
      as (Hoff & Hcat & _ & _ & _ & _ & Huuid & _).
    set (o := pending_offering utc_now (refNumber ids) (momoRefId ids)
              (data_category data) (data_amount data) (data_phone data)
              (or_null (data_memberName data)) None (or_null (data_note data)))
      in *.
    destruct Hdb as [Hout|(err & msg & Hq & Hans)].
    + rewrite Hout. cbn [fst snd]. split; [done|]. intros _.
      exists o, None. done.
    + rewrite Hans. split; [done|]. intros _.
      exists o, (or_null (Some err)).
      destruct (insertPendingQueue_Some _ _ _ _ _ _ _ _ Hq) as (-> & -> & _).
      done.
Qed.

(** ** The webhook and the manual update *)

Lemma updateStatusTxn_cases now ref newStatus fin db :
  (getOfferingByRef ref db = None
   /\ updateStatusTxn now ref newStatus fin db = (None, db))
  \/ (exists o, getOfferingByRef ref db = Some o /\ status o = newStatus
      /\ updateStatusTxn now ref newStatus fin db
         = (Some {| result_offering := o; changed := false |}, db))
  \/ (exists o, getOfferingByRef ref db = Some o /\ status o <> newStatus
      /\ updateStatusTxn now ref newStatus fin db
         = (Some {| result_offering := with_status o newStatus fin;
                    changed := true |},
            updateDailySummaryCounters
              (successDelta (getStatusDelta (status o) newStatus))
              (failedDelta (getStatusDelta (status o) newStatus))
              (split_space_head (created_at o)) (category_code o)
              (updateOfferingStatus now newStatus (or_null fin) ref db))).
Proof.
  destruct (getOfferingByRef ref db) as [o|] eqn:Hget.
  - destruct (decide (status o = newStatus)) as [Heq|Hne].
    + right. left. exists o. split; [done|]. split; [done|].
      by apply updateStatusTxn_same.
    + right. right. exists o. split; [done|]. split; [done|].
      by apply updateStatusTxn_changed.
  - left. split; [done|]. by apply updateStatusTxn_unknown.
Qed.

Lemma includes_In (arr : list string) (x : string) :
  includes arr x = true <-> In x arr.
Proof.
  unfold includes. rewrite existsb_exists. split.
  - intros (y & Hy & E). apply str_eq_true in E. by subst.
  - intros H. exists x. split; [done|]. apply str_eq_refl.
Qed.

(** A webhook body is well formed when it names a reference and carries
    one of the three recognized statuses. *)
Lemma post_momo_callback_well_formed utc_now (body : callback_body) db ref st :
  externalId body = Some ref -> ref <> "" ->
  callback_status body = Some st -> In st validStatuses ->
  post_momo_callback utc_now body db
  = match updateStatusTxn utc_now ref st (financialTransactionId body) db with
    | (None, db') => (Callback404 "Offering not found", db')
    | (Some _, db') => (Callback200, db')
    end.
Proof.
  intros Hext Href Hst Hin. unfold post_momo_callback. rewrite Hext, Hst.
  rewrite (proj2 (truthy_Some ref) Href).
  assert (Hne : st <> "").
  { intros ->. unfold validStatuses in Hin. simpl in Hin.
    destruct Hin as [?|[?|[?|[]]]]; done. }
  rewrite (proj2 (truthy_Some st) Hne). cbn [negb orb].
  by rewrite (proj2 (includes_In _ _) Hin).
Qed.

Lemma post_momo_callback_ill_formed utc_now (body : callback_body) db :
  (exists ref st, externalId body = Some ref /\ ref <> ""
                  /\ callback_status body = Some st /\ In st validStatuses)
  \/ exists e, post_momo_callback utc_now body db = (Callback400 e, db).
Proof.
  unfold post_momo_callback.
  destruct (externalId body) as [ref|]; [|right; by eexists].
  destruct (truthy (Some ref)) eqn:Eref; [|right; by eexists].
  apply truthy_Some in Eref.
  destruct (callback_status body) as [st|]; [|right; by eexists].
  destruct (truthy (Some st)) eqn:Est; [|right; by eexists].
  cbn [negb orb].
  destruct (includes validStatuses st) eqn:Einc; [|right; by eexists].
  left. exists ref, st. repeat split; try done. by apply includes_In.
Qed.

(** X2. The webhook answers 200 exactly when the body names a stored
    transaction and carries one of the three recognized statuses, 404 when
    only the reference is unknown, 400 otherwise (never 500); unless it
    answers 200 the store is as it was, and when the body is well formed
    the store is the one of [updateStatusTxn]. *)
Theorem webhook_validates_before_it_writes utc_now (body : callback_body) db :
  let out := post_momo_callback utc_now body db in
  let well_formed ref st :=
    externalId body = Some ref /\ ref <> ""
    /\ callback_status body = Some st /\ In st validStatuses in
  (callback_http_status out.1 <> 200 -> out.2 = db)
  /\ (callback_http_status out.1 = 200
      <-> exists ref st o, well_formed ref st /\ getOfferingByRef ref db = Some o)
  /\ (callback_http_status out.1 = 404
      <-> exists ref st, well_formed ref st /\ getOfferingByRef ref db = None)
  /\ (callback_http_status out.1 = 400
      <-> ~ exists ref st, well_formed ref st)
  /\ (forall ref st, well_formed ref st ->
        out.2 = (updateStatusTxn utc_now ref st (financialTransactionId body) db).2).
Proof.
  intros out well_formed.
  destruct (post_momo_callback_ill_formed utc_now body db)
    as [(ref & st & Hext & Href & Hst & Hin)|[e He]].
  - assert (Hwf : well_formed ref st) by done.
    assert (Huniq : forall ref' st', well_formed ref' st' -> ref' = ref /\ st' = st).
    { intros ref' st' (H1 & _ & H2 & _). split; congruence. }
    pose proof (post_momo_callback_well_formed utc_now body db ref st
                  Hext Href Hst Hin) as Hout. fold out in Hout.
    destruct (updateStatusTxn_cases utc_now ref st (financialTransactionId body) db)
      as [[Hget Hu]|[(o & Hget & _ & Hu)|(o & Hget & _ & Hu)]];
      rewrite Hu in Hout; rewrite Hout; cbn [fst snd callback_http_status].
    + split; [done|]. split; [|split; [|split]].
      * split; [done|]. intros (ref' & st' & o & Hwf' & Hget').
        destruct (Huniq _ _ Hwf') as [-> ->]. congruence.
      * split; [|done]. intros _. by exists ref, st.
      * split; [done|]. intros H. exfalso. apply H. by exists ref, st.
      * intros ref' st' Hwf'. destruct (Huniq _ _ Hwf') as [-> ->]. by rewrite Hu.
    + split; [done|]. split; [|split; [|split]].
      * split; [|done]. intros _. by exists ref, st, o.
      * split; [done|]. intros (ref' & st' & Hwf' & Hget').
        destruct (Huniq _ _ Hwf') as [-> ->]. congruence.
      * split; [done|]. intros H. exfalso. apply H. by exists ref, st.
      * intros ref' st' Hwf'. destruct (Huniq _ _ Hwf') as [-> ->]. by rewrite Hu.
    + split; [done|]. split; [|split; [|split]].
      * split; [|done]. intros _. by exists ref, st, o.
      * split; [done|]. intros (ref' & st' & Hwf' & Hget').
        destruct (Huniq _ _ Hwf') as [-> ->]. congruence.
      * split; [done|]. intros H. exfalso. apply H. by exists ref, st.
      * intros ref' st' Hwf'. destruct (Huniq _ _ Hwf') as [-> ->]. by rewrite Hu.
  - assert (Hnwf : ~ exists ref st, well_formed ref st).
    { intros (ref & st & Hext & Href & Hst & Hin).
      pose proof (post_momo_callback_well_formed utc_now body db ref st
                    Hext Href Hst Hin) as Hout.
      rewrite He in Hout.
      by destruct (updateStatusTxn utc_now ref st (financialTransactionId body) db)
        as [[?|] ?]. }
    unfold out. rewrite He. cbn [fst snd callback_http_status].
    split; [done|]. split; [|split; [|split]].
    + split; [done|]. intros (ref & st & o & Hwf & _). exfalso. apply Hnwf. eauto.
    + split; [done|]. intros (ref & st & Hwf & _). exfalso. apply Hnwf. eauto.
    + done.
    + intros ref st Hwf. exfalso. apply Hnwf. eauto.
Qed.

(** X3. The manual update and the webhook are the same transition: called
    with the same reference, status and settlement id they leave the same
    store, and one is answered 200, 400 or 404 exactly when the other is.
    The manual update reports [changed] exactly when the stored status
    differed from the requested one. *)
Theorem manual_update_agrees_with_webhook utc_now ref (st fin : option string) db :
  ref <> "" ->
  let hook := post_momo_callback utc_now
                {| externalId := Some ref; callback_status := st;
                   financialTransactionId := fin |} db in
  let manual := put_status utc_now ref
                  {| update_status := st; update_financialTxnId := fin |} db in
  manual.2 = hook.2
  /\ match manual.1 with
     | Update200 st' fin' changed' =>
         callback_http_status hook.1 = 200
         /\ st = Some st' /\ fin' = or_null fin
         /\ exists o, getOfferingByRef ref db = Some o
                      /\ (changed' = true <-> status o <> st')
     | Update400 => callback_http_status hook.1 = 400 /\ manual.2 = db
     | Update404 => callback_http_status hook.1 = 404 /\ manual.2 = db
     end.
Proof.
  intros Href hook manual. unfold hook, manual, post_momo_callback, put_status.
  clear hook manual. cbn [externalId callback_status financialTransactionId
                          update_status update_financialTxnId].
  assert (Htr : truthy (Some ref) = true) by by apply truthy_Some.
  rewrite Htr. cbn [negb orb].
  destruct st as [st|]; [|done].
  destruct (truthy (Some st)); cbn [negb orb]; [|done].
  destruct (includes validStatuses st); cbn [negb]; [|done].
  destruct (updateStatusTxn_cases utc_now ref st fin db)
    as [[Hget ->]|[(o & Hget & Heq & ->)|(o & Hget & Hne & ->)]]; cbn [fst snd].
  - done.
  - split; [done|]. repeat split; try done. exists o. split; [done|].
    simpl. split; [done|]. intros H. done.
  - split; [done|]. repeat split; try done. exists o. split; [done|].
    simpl. split; done.
Qed.

(** ** What a transition writes *)

Lemma updateStatusTxn_store now ref newStatus fin db :
  (updateStatusTxn now ref newStatus fin db).2 = db
  \/ exists o,
       getOfferingByRef ref db = Some o /\ status o <> newStatus
       /\ (updateStatusTxn now ref newStatus fin db).2
          = updateDailySummaryCounters
              (successDelta (getStatusDelta (status o) newStatus))
              (failedDelta (getStatusDelta (status o) newStatus))
              (split_space_head (created_at o)) (category_code o)
              (updateOfferingStatus now newStatus (or_null fin) ref db).
Proof.
  destruct (updateStatusTxn_cases now ref newStatus fin db)
    as [[_ ->]|[(o & _ & _ & ->)|(o & Hget & Hne & ->)]]; [by left..|].
  right. by exists o.
Qed.


Lemma add_counters_totals a b (s : @summary REAL) :
  total_count (add_counters a b s) = total_count s
  /\ total_amount (add_counters a b s) = total_amount s.
Proof. done. Qed.


(** ** Transitions compose *)

Lemma add_counters_add a b c d (s : @summary REAL) :
  add_counters c d (add_counters a b s) = add_counters (a + c) (b + d) s.
Proof. unfold add_counters. simpl. f_equal; lia. Qed.

Lemma add_counters_0 (s : @summary REAL) : add_counters 0 0 s = s.
Proof. destruct s. unfold add_counters. simpl. f_equal; lia. Qed.

Lemma getStatusDelta_telescope a b c :
  successDelta (getStatusDelta a b) + successDelta (getStatusDelta b c)
  = successDelta (getStatusDelta a c)
  /\ failedDelta (getStatusDelta a b) + failedDelta (getStatusDelta b c)
     = failedDelta (getStatusDelta a c).
Proof.
  destruct (getStatusDelta_spec a b) as [-> ->].
  destruct (getStatusDelta_spec b c) as [-> ->].
  destruct (getStatusDelta_spec a c) as [-> ->].
  unfold spec_delta. split; repeat case_decide; lia.
Qed.

Lemma getStatusDelta_same a :
  successDelta (getStatusDelta a a) = 0 /\ failedDelta (getStatusDelta a a) = 0.
Proof.
  destruct (getStatusDelta_spec a a) as [-> ->].
  unfold spec_delta. split; repeat case_decide; lia.
Qed.

Lemma alter_add_counters_0 (b : string * string)
    (m : gmap (string * string) (@summary REAL)) :
  alter (add_counters 0 0) b m = m.
Proof.
  apply map_eq. intros b'. destruct (decide (b' = b)) as [->|Hb].
  - rewrite lookup_alter_eq. destruct (m !! b); simpl; [|done].
    by rewrite add_counters_0.
  - by rewrite lookup_alter_ne.
Qed.

(** X6. Two transitions of one transaction in a row leave the summaries
    that the second alone would have left: the counters depend on the first
    and the last status only, not on the path. The stored status is the last
    requested one either way. *)
Theorem transitions_telescope now1 now2 ref statusA statusB fin1 fin2 db :
  let via :=
    (updateStatusTxn now2 ref statusB fin2
       (updateStatusTxn now1 ref statusA fin1 db).2).2 in
  let direct := (updateStatusTxn now2 ref statusB fin2 db).2 in
  daily_summaries via = daily_summaries direct
  /\ status <$> getOfferingByRef ref via = status <$> getOfferingByRef ref direct.
Proof.
  intros via direct. unfold via, direct. clear via direct.
  destruct (updateStatusTxn_cases now1 ref statusA fin1 db)
    as [[Hget ->]|[(o & Hget & Heq & ->)|(o & Hget & Hne & ->)]]; [done..|].
  cbn [snd].
  set (db1 := updateDailySummaryCounters _ _ _ _ _).
  assert (Hget1 : getOfferingByRef ref db1
                  = Some (transitioned now1 statusA (or_null fin1) o)).
  { change (getOfferingByRef ref
              (updateOfferingStatus now1 statusA (or_null fin1) ref db)
            = Some (transitioned now1 statusA (or_null fin1) o)).
    by rewrite getOfferingByRef_updateOfferingStatus, Hget. }
  assert (Hsum1 : daily_summaries db1
                  = alter (add_counters
                             (successDelta (getStatusDelta (status o) statusA))
                             (failedDelta (getStatusDelta (status o) statusA)))
                          (split_space_head (created_at o), category_code o)
                          (daily_summaries db)) by reflexivity.
  destruct (decide (statusA = statusB)) as [<-|HAB].
  - rewrite (updateStatusTxn_same _ _ _ _ _ _ Hget1 eq_refl).
    rewrite (updateStatusTxn_changed _ _ _ _ _ _ Hget Hne). cbn [snd].
    split; [done|].
    rewrite Hget1.
    change (getOfferingByRef ref
              (updateDailySummaryCounters
                 (successDelta (getStatusDelta (status o) statusA))
                 (failedDelta (getStatusDelta (status o) statusA))
                 (split_space_head (created_at o)) (category_code o)
                 (updateOfferingStatus now2 statusA (or_null fin2) ref db)))
      with (getOfferingByRef ref
              (updateOfferingStatus now2 statusA (or_null fin2) ref db)).
    by rewrite getOfferingByRef_updateOfferingStatus, Hget.
  - assert (HAB' : status (transitioned now1 statusA (or_null fin1) o) <> statusB)
      by done.
    rewrite (updateStatusTxn_changed _ _ _ _ _ _ Hget1 HAB'). cbn [snd].
    set (via := updateDailySummaryCounters _ _ _ _ _).
    assert (Hvia_sum : daily_summaries via
                       = alter (add_counters
                                  (successDelta (getStatusDelta (status o) statusB))
                                  (failedDelta (getStatusDelta (status o) statusB)))
                               (split_space_head (created_at o), category_code o)
                               (daily_summaries db)).
    { unfold via. cbn [daily_summaries updateDailySummaryCounters
                       set_daily_summaries updateOfferingStatus set_offerings
                       status created_at category_code transitioned].
      fold (daily_summaries db1). rewrite Hsum1.
      rewrite alter_alter_eq. apply alter_ext. intros s _. unfold compose.
      rewrite add_counters_add.
      destruct (getStatusDelta_telescope (status o) statusA statusB) as [-> ->].
      done. }
    assert (Hvia_get : status <$> getOfferingByRef ref via = Some statusB).
    { change (getOfferingByRef ref via)
        with (getOfferingByRef ref
                (updateOfferingStatus now2 statusB (or_null fin2) ref db1)).
      by rewrite getOfferingByRef_updateOfferingStatus, Hget1. }
    rewrite Hvia_sum, Hvia_get.
    destruct (decide (status o = statusB)) as [HoB|HoB].
    + rewrite (updateStatusTxn_same _ _ _ _ _ _ Hget HoB). cbn [snd].
      rewrite Hget, <- HoB.
      destruct (getStatusDelta_same (status o)) as [-> ->].
      by rewrite alter_add_counters_0.
    + rewrite (updateStatusTxn_changed _ _ _ _ _ _ Hget HoB). cbn [snd].
      split; [done|].
      change (getOfferingByRef ref
                (updateDailySummaryCounters
                   (successDelta (getStatusDelta (status o) statusB))
                   (failedDelta (getStatusDelta (status o) statusB))
                   (split_space_head (created_at o)) (category_code o)
                   (updateOfferingStatus now2 statusB (or_null fin2) ref db)))
        with (getOfferingByRef ref
                (updateOfferingStatus now2 statusB (or_null fin2) ref db)).
      by rewrite getOfferingByRef_updateOfferingStatus, Hget.
Qed.

(** ** Polling again *)

(** X7. Polling is idempotent against an unchanged provider: a second poll
    of the same transaction that gets the same answers from the MoMo client
    leaves the store of the first poll. *)
Theorem poll_again_changes_nothing now1 now2
    (checkStatus : string -> string + momo_status) ref db :
  let once := poll_db (get_status now1 checkStatus ref db) in
  poll_db (get_status now2 checkStatus ref once) = once.
Proof.
  intros once. unfold once. clear once.
  assert (Hsame : forall db0, poll_db (get_status now1 checkStatus ref db0) = db0 ->
            poll_db (get_status now2 checkStatus ref db0) = db0).
  { intros db0. unfold get_status.
    destruct (getOfferingByRef ref db0) as [o|] eqn:Hget; [|done].
    destruct (str_eq (status o) "SUCCESSFUL" || str_eq (status o) "FAILED"); [done|].
    destruct (checkStatus (momo_reference_id o)) as [err|ms]; [done|].
    cbn [poll_db]. destruct (momo_state ms) as [st|]; [|done].
    destruct (truthy (Some st) && negb (str_eq st (status o))) eqn:E; [|done].
    apply andb_true_iff in E as [_ E]. apply negb_true_iff, str_eq_false in E.
    assert (E' : status o <> st) by congruence.
    rewrite (updateStatusTxn_changed now1 _ _ _ _ _ Hget E'). cbn [snd].
    intros H. exfalso.
    assert (Hs : status <$> getOfferingByRef ref
                   (updateOfferingStatus now1 st
                      (or_null (or_null (momo_financialTransactionId ms))) ref db0)
                 = Some st)
      by by rewrite getOfferingByRef_updateOfferingStatus, Hget.
    change (getOfferingByRef ref
              (updateOfferingStatus now1 st
                 (or_null (or_null (momo_financialTransactionId ms))) ref db0))
      with (getOfferingByRef ref
              (updateDailySummaryCounters
                 (successDelta (getStatusDelta (status o) st))
                 (failedDelta (getStatusDelta (status o) st))
                 (split_space_head (created_at o)) (category_code o)
                 (updateOfferingStatus now1 st
                    (or_null (or_null (momo_financialTransactionId ms))) ref db0)))
      in Hs.
    rewrite H, Hget in Hs. simpl in Hs. congruence. }
  assert (Hcases : poll_db (get_status now1 checkStatus ref db) = db
            \/ exists o ms st,
                 getOfferingByRef ref db = Some o
                 /\ checkStatus (momo_reference_id o) = inr ms
                 /\ momo_state ms = Some st /\ status o <> st
                 /\ poll_db (get_status now1 checkStatus ref db)
                    = (updateStatusTxn now1 ref st
                         (or_null (momo_financialTransactionId ms)) db).2).
  { unfold get_status.
    destruct (getOfferingByRef ref db) as [o|] eqn:Hget; [|by left].
    destruct (str_eq (status o) "SUCCESSFUL" || str_eq (status o) "FAILED");
      [by left|].
    destruct (checkStatus (momo_reference_id o)) as [err|ms] eqn:Hcs; [by left|].
    cbn [poll_db]. destruct (momo_state ms) as [st|] eqn:Hst; [|by left].
    destruct (truthy (Some st) && negb (str_eq st (status o))) eqn:E; [|by left].
    apply andb_true_iff in E as [_ E]. apply negb_true_iff, str_eq_false in E.
    right. exists o, ms, st. repeat split; try done; congruence. }
  destruct Hcases as [H|(o & ms & st & Hget & Hcs & Hst & E' & H)];
    rewrite H; [by apply Hsame|].
  rewrite (updateStatusTxn_changed _ _ _ _ _ _ Hget E'). cbn [snd].
  set (db1 := updateDailySummaryCounters _ _ _ _ _).
  assert (Hget1 : getOfferingByRef ref db1
            = Some (transitioned now1 st
                      (or_null (or_null (momo_financialTransactionId ms))) o)).
  { change (getOfferingByRef ref db1)
      with (getOfferingByRef ref
              (updateOfferingStatus now1 st
                 (or_null (or_null (momo_financialTransactionId ms))) ref db)).
    by rewrite getOfferingByRef_updateOfferingStatus, Hget. }
  unfold get_status. rewrite Hget1.
  cbn [status momo_reference_id transitioned].
  destruct (str_eq st "SUCCESSFUL" || str_eq st "FAILED"); [done|].
  rewrite Hcs. cbn [poll_db]. rewrite Hst, str_eq_refl.
  by rewrite andb_false_r.
Qed.

(** ** The retry worker, one tick *)

Lemma process_items_frame requestToPay clock (items : list (@pending_item REAL)) :
  forall db report,
    let out := process_items requestToPay clock items db report in
    categories out.1 = categories db
    /\ pending_queue_seq out.1 = pending_queue_seq db.
Proof.
  induction items as [|item rest IH]; intros db report; simpl; [done|].
  destruct (requestToPay (resubmission item));
    match goal with
    | |- context [process_items _ _ _ ?d ?r] => destruct (IH d r) as [-> ->]
    end; done.
Qed.

(** What a tick leaves, row by row. *)
Lemma processPendingQueue_spec now_s requestToPay clock db :
  let sel := getPendingRows MAX_RETRIES BATCH_SIZE now_s db in
  let out := processPendingQueue now_s requestToPay clock db in
  categories out.1 = categories db
  /\ offerings out.1 = offerings db
  /\ daily_summaries out.1 = daily_summaries db
  /\ pending_queue_seq out.1 = pending_queue_seq db
  /\ (forall id, id ∉ sel.*1 ->
        pending_queue out.1 !! id = pending_queue db !! id)
  /\ (forall id r, (id, r) ∈ sel ->
        pending_queue db !! id = Some r
        /\ retry_count r < MAX_RETRIES
        /\ pending_queue out.1 !! id
           = match requestToPay (resubmission (select_columns (id, r))) with
             | None => None
             | Some _ => Some (bump_retry (clock id) r)
             end).
Proof.
  intros sel out.
  destruct (getPendingRows_members MAX_RETRIES BATCH_SIZE now_s db)
    as (Hsel & Hnodup).
  fold sel in Hsel, Hnodup.
  assert (Hids : map item_id (map select_columns sel) = sel.*1).
  { rewrite map_map. reflexivity. }
  assert (Hout : out = process_items requestToPay clock (map select_columns sel) db
                         {| succeeded := 0; failed := 0 |}).
  { unfold out, processPendingQueue, getPendingItems. fold sel.
    by destruct (map select_columns sel). }
  pose proof (process_items_spec requestToPay clock (map select_columns sel) db
                {| succeeded := 0; failed := 0 |}) as Hspec.
  rewrite Hids in Hspec. specialize (Hspec Hnodup). cbv zeta in Hspec.
  pose proof (process_items_frame requestToPay clock (map select_columns sel) db
                {| succeeded := 0; failed := 0 |}) as Hframe.
  cbv zeta in Hframe.
  rewrite <- Hout in Hspec, Hframe.
  destruct Hspec as (Hoff & Hsum & Hother & Hitem & _).
  destruct Hframe as (Hcat & Hseq).
  repeat split; try done.
  - by apply Hsel.
  - destruct (Hsel id r H) as [_ He]. apply eligible_spec in He. tauto.
  - assert (Hin' : select_columns (id, r) ∈ map select_columns sel).
    { apply list_elem_of_fmap. by exists (id, r). }
    specialize (Hitem _ Hin'). cbn [item_id select_columns fst] in Hitem.
    destruct (Hsel id r H) as (Hq & _). rewrite Hq in Hitem.
    rewrite Hitem. by destruct (requestToPay _).
Qed.


(** ** Stored statuses *)

Lemma updateStatusTxn_statuses_valid now ref newStatus fin db :
  includes validStatuses newStatus = true ->
  statuses_valid db ->
  statuses_valid (updateStatusTxn now ref newStatus fin db).2.
Proof.
  intros Hst Hv.
  destruct (updateStatusTxn_store now ref newStatus fin db)
    as [->|(o & _ & _ & ->)]; [done|].
  intros x Hx. cbn in Hx. apply in_map_iff in Hx as (y & <- & Hy).
  unfold update_row. destruct (str_eq (reference_number y) ref); [done|].
  by apply Hv.
Qed.

(** X4. Whatever the requests, creation, webhook, manual update and retry
    worker keep every stored status among PENDING, SUCCESSFUL and FAILED.
    The poll driver does so as long as the statuses the MoMo client
    resolves to are recognized ones: it stores what it is given. *)
Theorem stored_statuses_stay_recognized db :
  statuses_valid db ->
  (forall now utc_now uuid requestToPay queue_now (body : create_body),
     statuses_valid
       (post_offering real_add raw_truthy parseFloat real_le_0 now utc_now uuid
          requestToPay queue_now body db).2)
  /\ (forall utc_now (body : callback_body),
        statuses_valid (post_momo_callback utc_now body db).2)
  /\ (forall utc_now ref (body : update_body),
        statuses_valid (put_status utc_now ref body db).2)
  /\ (forall now_s requestToPay clock,
        statuses_valid (processPendingQueue now_s requestToPay clock db).1)
  /\ (forall utc_now (checkStatus : string -> string + momo_status) ref,
        (forall id ms st, checkStatus id = inr ms -> momo_state ms = Some st ->
           st = "" \/ In st validStatuses) ->
        statuses_valid (poll_db (get_status utc_now checkStatus ref db))).
Proof.
  intros Hv. split; [|split; [|split; [|split]]].
  - intros now utc_now uuid requestToPay queue_now body.
    destruct (post_offering_cases now utc_now uuid requestToPay queue_now body db)
      as [[-> _]|(data & ids & db1 & Htxn & Hdb)]; [done|].
    destruct (createOfferingTxn_Some _ _ _ _ _ _ _ Htxn) as (Hoff & _).
    assert (Hv1 : statuses_valid db1).
    { intros x Hx. rewrite Hoff in Hx. apply in_app_or in Hx as [Hx|[<-|[]]].
      - by apply Hv.
      - reflexivity. }
    destruct Hdb as [->|(err & msg & Hq & _)]; [done|].
    destruct (insertPendingQueue_Some _ _ _ _ _ _ _ _ Hq) as (Hoff2 & _).
    intros x Hx. rewrite Hoff2 in Hx. by apply Hv1.
  - intros utc_now body. unfold post_momo_callback.
    destruct (negb (truthy (externalId body)) || negb (truthy (callback_status body)));
      [done|].
    destruct (externalId body) as [ext|], (callback_status body) as [st|]; try done.
    destruct (includes validStatuses st) eqn:Est; [|done]. cbn [negb].
    pose proof (updateStatusTxn_statuses_valid utc_now ext st
                  (financialTransactionId body) db Est Hv) as H.
    by destruct (updateStatusTxn utc_now ext st (financialTransactionId body) db)
      as [[?|] ?].
  - intros utc_now ref body. unfold put_status.
    destruct (update_status body) as [st|]; [|done].
    destruct (includes validStatuses st) eqn:Est;
      [|by rewrite orb_true_r].
    rewrite orb_false_r. destruct (negb (truthy (Some st))); [done|].
    pose proof (updateStatusTxn_statuses_valid utc_now ref st
                  (update_financialTxnId body) db Est Hv) as H.
    by destruct (updateStatusTxn utc_now ref st (update_financialTxnId body) db)
      as [[?|] ?].
  - intros now_s requestToPay clock.
    destruct (processPendingQueue_spec now_s requestToPay clock db)
      as (_ & Hoff & _).
    intros x Hx. rewrite Hoff in Hx. by apply Hv.
  - intros utc_now checkStatus ref Hcs. unfold get_status.
    destruct (getOfferingByRef ref db) as [o|]; [|done].
    destruct (str_eq (status o) "SUCCESSFUL" || str_eq (status o) "FAILED"); [done|].
    destruct (checkStatus (momo_reference_id o)) as [err|ms] eqn:E; [done|].
    cbn [poll_db]. destruct (momo_state ms) as [st|] eqn:Est; [|done].
    destruct (truthy (Some st)) eqn:Etr; [|done].
    destruct (negb (str_eq st (status o))); [|done]. cbn [andb].
    apply updateStatusTxn_statuses_valid; [|done].
    destruct (Hcs _ _ _ E Est) as [->|Hin]; [done|]. by apply includes_In.
Qed.

(** Where the rows of the queue after a tick come from. *)
Lemma processPendingQueue_rows now_s requestToPay clock db :
  let out := (processPendingQueue now_s requestToPay clock db).1 in
  forall id (r' : queue_row), pending_queue out !! id = Some r' ->
    exists r, pending_queue db !! id = Some r
              /\ (r' = r
                  \/ (r' = bump_retry (clock id) r /\ retry_count r < MAX_RETRIES)).
Proof.
  intros out id r' Hr'.
  destruct (processPendingQueue_spec now_s requestToPay clock db)
    as (_ & _ & _ & _ & Hother & Hsel).
  fold out in Hother, Hsel.
  set (sel := getPendingRows MAX_RETRIES BATCH_SIZE now_s db) in *.
  destruct (decide (id ∈ sel.*1)) as [Hin|Hout].
  - apply list_elem_of_fmap in Hin as ([id' r] & -> & Hin).
    destruct (Hsel _ _ Hin) as (Hq & Hlt & Hres). cbn [fst] in *.
    rewrite Hr' in Hres.
    destruct (requestToPay _); [|done]. injection Hres as ->.
    exists r. split; [done|]. right. done.
  - rewrite (Hother _ Hout) in Hr'. exists r'. split; [done|]. by left.
Qed.

(** ** The queue and its schema *)

(** X9. Creation, transitions and the retry worker keep the queue within
    its schema: every entry has a key the AUTOINCREMENT counter has handed
    out and refers to a stored transaction. So the foreign key of a new
    entry never fails, and a new entry never takes the place of a queued
    one: after a creation every entry that was queued is still there,
    unchanged. *)
Theorem queue_stays_well_formed db :
  queue_well_formed db ->
  (forall now utc_now uuid requestToPay queue_now (body : create_body),
     let out := post_offering real_add raw_truthy parseFloat real_le_0 now
                  utc_now uuid requestToPay queue_now body db in
     queue_well_formed out.2
     /\ (forall id (r : queue_row), pending_queue db !! id = Some r ->
           pending_queue out.2 !! id = Some r)
     /\ (forall ref momo err, out.1 = Create202 ref momo "PENDING" (Some err) ->
           exists (r : queue_row),
             pending_queue out.2 !! (pending_queue_seq db + 1) = Some r
             /\ q_reference_number r = ref /\ retry_count r = 0))
  /\ (forall utc_now ref newStatus fin,
        queue_well_formed (updateStatusTxn utc_now ref newStatus fin db).2)
  /\ (forall now_s requestToPay clock,
        queue_well_formed (processPendingQueue now_s requestToPay clock db).1).
Proof.
  intros Hwf. split; [|split].
  - intros now utc_now uuid requestToPay queue_now body out.
    destruct (post_offering_cases now utc_now uuid requestToPay queue_now body db)
      as [[Hdb Hst]|(data & ids & db1 & Htxn & Hdb)];
      fold out in Hdb, Hst || fold out in Hdb.
    { rewrite Hdb. split; [done|]. split; [done|].
      intros ref momo err E. by rewrite E in Hst. }
    destruct (createOfferingTxn_Some _ _ _ _ _ _ _ Htxn)
      as (Hoff & _ & Hq1 & Hseq1 & _).
    assert (Hwf1 : queue_well_formed db1).
    { intros id r Hr. rewrite Hq1 in Hr. destruct (Hwf _ _ Hr) as (Hid & o & Ho & Href).
      rewrite Hseq1. split; [done|]. exists o. split; [|done].
      rewrite Hoff. apply in_or_app. by left. }
    destruct Hdb as [Hout|(err & msg & Hq & Hans)].
    + rewrite Hout. cbn [fst snd]. split; [done|]. split; [by rewrite Hq1|].
      intros ref momo err E. done.
    + destruct (insertPendingQueue_Some _ _ _ _ _ _ _ _ Hq)
        as (Hoff2 & _ & _ & Hseq2 & Hq2).
      split; [|split].
      * intros id r Hr. rewrite Hq2 in Hr. rewrite Hseq2, Hoff2.
        destruct (decide (id = pending_queue_seq db1 + 1)) as [->|Hne].
        -- rewrite lookup_insert_eq in Hr. injection Hr as <-.
           split; [lia|]. cbn [q_reference_number].
           exists (pending_offering utc_now (refNumber ids) (momoRefId ids)
                     (data_category data) (data_amount data) (data_phone data)
                     (or_null (data_memberName data)) None
                     (or_null (data_note data))).
           split; [|reflexivity]. rewrite Hoff.
           apply in_or_app. right. by left.
        -- rewrite lookup_insert_ne in Hr by done.
           destruct (Hwf1 _ _ Hr) as (Hid & Ho). split; [lia|done].
      * intros id r Hr. rewrite Hq2, lookup_insert_ne; [by rewrite Hq1|].
        destruct (Hwf _ _ Hr) as [Hid _]. lia.
      * intros ref momo err' E. rewrite Hans in E. injection E as <- <- _.
        rewrite Hq2, Hseq1, lookup_insert_eq. eexists. split; [done|]. done.
  - intros utc_now ref newStatus fin.
    destruct (updateStatusTxn_store utc_now ref newStatus fin db)
      as [->|(o & _ & _ & ->)]; [done|].
    intros id r Hr. cbn in Hr. destruct (Hwf _ _ Hr) as (Hid & x & Hx & Href).
    split; [done|]. exists (update_row utc_now newStatus (or_null fin) ref x).
    split; [cbn; by apply in_map|].
    rewrite <- Href. unfold update_row.
    by destruct (str_eq (reference_number x) ref).
  - intros now_s requestToPay clock.
    destruct (processPendingQueue_spec now_s requestToPay clock db)
      as (_ & Hoff & _ & Hseq & _).
    intros id r' Hr'.
    destruct (processPendingQueue_rows now_s requestToPay clock db id r' Hr')
      as (r & Hr & Hor).
    rewrite Hseq, Hoff. destruct (Hwf _ _ Hr) as (Hid & o & Ho & Href).
    split; [done|]. exists o. split; [done|].
    destruct Hor as [->|[-> _]]; done.
Qed.

(** ** The queue size of the health check *)

Lemma getQueueSize_elem db id (r : queue_row) :
  (id, r) ∈ List.filter (fun kr : Z * queue_row => retry_count kr.2 <? 5)
                        (map_to_list (pending_queue db))
  <-> pending_queue db !! id = Some r /\ retry_count r < 5.
Proof.
  rewrite list_elem_of_In, filter_In, <- list_elem_of_In, elem_of_map_to_list.
  cbn [snd]. by rewrite Z.ltb_lt.
Qed.

(** X10. The [queueSize] of the health check counts the entries that
    still have retries left, cooling down or not. A tick selects no more
    entries than that; when it is 0 the tick does nothing at all; and no
    tick makes it grow. *)
Theorem queue_size_bounds_the_retry_work now_s requestToPay clock db :
  (length (getPendingItems MAX_RETRIES BATCH_SIZE now_s db) <= getQueueSize db)%nat
  /\ (getQueueSize db = 0%nat ->
      processPendingQueue now_s requestToPay clock db
      = (db, {| succeeded := 0; failed := 0 |}))
  /\ (getQueueSize (processPendingQueue now_s requestToPay clock db).1
      <= getQueueSize db)%nat.
Proof.
  destruct (getPendingRows_members MAX_RETRIES BATCH_SIZE now_s db)
    as (Hsel & Hnodup).
  assert (Hle : (length (getPendingItems MAX_RETRIES BATCH_SIZE now_s db)
                 <= getQueueSize db)%nat).
  { unfold getPendingItems, getQueueSize. rewrite length_map.
    apply submseteq_length, NoDup_submseteq.
    - eapply NoDup_fmap_1, Hnodup.
    - intros [id r] Hin. apply getQueueSize_elem.
      destruct (Hsel _ _ Hin) as [Hq He]. split; [done|].
      apply eligible_spec in He. unfold MAX_RETRIES in He. tauto. }
  split; [exact Hle|]. split.
  - intros H0. rewrite H0 in Hle. unfold processPendingQueue.
    destruct (getPendingItems MAX_RETRIES BATCH_SIZE now_s db); [done|].
    simpl in Hle. lia.
  - unfold getQueueSize.
    set (out := (processPendingQueue now_s requestToPay clock db).1).
    rewrite <- (length_fmap fst
                  (List.filter _ (map_to_list (pending_queue out)))).
    rewrite <- (length_fmap fst
                  (List.filter _ (map_to_list (pending_queue db)))).
    apply submseteq_length, NoDup_submseteq.
    + apply NoDup_fst_filter, NoDup_fst_map_to_list.
    + intros id Hid. apply list_elem_of_fmap in Hid as ([id' r'] & -> & Hin).
      apply getQueueSize_elem in Hin as [Hq' Hlt']. cbn [fst].
      destruct (processPendingQueue_rows now_s requestToPay clock db id' r' Hq')
        as (r & Hq & Hor).
      apply list_elem_of_fmap. exists (id', r). split; [done|].
      apply getQueueSize_elem. split; [done|].
      destruct Hor as [->|[-> _]]; [done|]. simpl in Hlt'. lia.
Qed.

(** ** Totals *)

Lemma grand_total_count_insert_new (m : gmap (string * string) (@summary REAL))
    (b : string * string) (s : @summary REAL) :
  m !! b = None ->
  grand_total_count (<[ b := s ]> m) = total_count s + grand_total_count m.
Proof.
  intros Hb. unfold grand_total_count.
  rewrite map_fold_insert_L; [done| |done]. intros. lia.
Qed.

Lemma grand_total_count_insert_old (m : gmap (string * string) (@summary REAL))
    (b : string * string) (s0 s : @summary REAL) :
  m !! b = Some s0 ->
  grand_total_count (<[ b := s ]> m)
  = total_count s - total_count s0 + grand_total_count m.
Proof.
  intros Hb.
  rewrite <- (insert_delete_eq m b s).
  rewrite grand_total_count_insert_new by apply lookup_delete_eq.
  rewrite <- (insert_id m b s0 Hb) at 2.
  rewrite <- (insert_delete_eq m b s0).
  rewrite (grand_total_count_insert_new (delete b m) b s0)
    by apply lookup_delete_eq.
  lia.
Qed.

Lemma grand_total_count_alter (m : gmap (string * string) (@summary REAL))
    (b : string * string) (f : @summary REAL -> @summary REAL) :
  (forall s, total_count (f s) = total_count s) ->
  grand_total_count (alter f b m) = grand_total_count m.
Proof.
  intros Hf. destruct (m !! b) as [s0|] eqn:Hb.
  - assert (alter f b m = <[ b := f s0 ]> m) as ->.
    { apply map_eq. intros b'. destruct (decide (b' = b)) as [->|Hne].
      - by rewrite lookup_alter_eq, lookup_insert_eq, Hb.
      - by rewrite lookup_alter_ne, lookup_insert_ne. }
    rewrite (grand_total_count_insert_old m b s0) by done. rewrite Hf. lia.
  - assert (alter f b m = m) as ->; [|done].
    apply map_eq. intros b'. destruct (decide (b' = b)) as [->|Hne].
    + by rewrite lookup_alter_eq, Hb.
    + by rewrite lookup_alter_ne.
Qed.

Lemma apply_op_counts (op : @ledger_op REAL) db :
  grand_total_count (daily_summaries db) = Z.of_nat (length (offerings db)) ->
  grand_total_count (daily_summaries (apply_op real_add db op))
  = Z.of_nat (length (offerings (apply_op real_add db op))).
Proof.
  intros H. destruct op as [now utc_now uuid data|utc_now ref st fin]; simpl.
  - destruct (createOfferingTxn real_add now utc_now uuid data db)
      as [[ids db']|] eqn:Htxn; [|done].
    destruct (createOfferingTxn_Some _ _ _ _ _ _ _ Htxn)
      as (Hoff & _ & _ & _ & Hsum & _).
    rewrite Hoff, Hsum, length_app. cbn [length].
    unfold upsertDailySummary. cbn [daily_summaries set_daily_summaries].
    destruct (daily_summaries db !! (getTodayDateString now, data_category data))
      as [s0|] eqn:Hb.
    + rewrite (grand_total_count_insert_old _ _ s0) by done. simpl. lia.
    + rewrite grand_total_count_insert_new by done. simpl. lia.
  - destruct (updateStatusTxn_store utc_now ref st fin db)
      as [->|(o & _ & _ & ->)]; [done|].
    cbn [daily_summaries updateDailySummaryCounters set_daily_summaries
         offerings updateOfferingStatus set_offerings].
    rewrite grand_total_count_alter by done. by rewrite length_map.
Qed.

(** X11. Every creation is counted once: along any sequence of
    creations and transitions started on the initial store, the
    [total_count]s of all the summary rows add up to the number of stored
    transactions, whatever dates the clocks gave. *)
Theorem every_creation_is_counted_once (ops : list (@ledger_op REAL)) :
  let db := run real_add ops initial_database in
  grand_total_count (daily_summaries db) = Z.of_nat (length (offerings db)).
Proof.
  cbv zeta. unfold run.
  assert (H0 : grand_total_count (daily_summaries (@initial_database REAL))
               = Z.of_nat (length (offerings (@initial_database REAL))))
    by reflexivity.
  revert H0. generalize (@initial_database REAL) as db.
  induction ops as [|op ops IH]; intros db H0; [done|].
  simpl. apply IH. by apply apply_op_counts.
Qed.

(** ** The demo simulation of the MoMo client *)

Lemma find_unique_reference (l : list offering) o :
  NoDup (map reference_number l) -> In o l ->
  find (fun x => str_eq (reference_number x) (reference_number o)) l = Some o.
Proof.
  induction l as [|x l IH]; simpl; [done|].
  rewrite NoDup_cons. intros [Hx Hnd] [->|Hin].
  - by rewrite str_eq_refl.
  - destruct (str_eq (reference_number x) (reference_number o)) eqn:E; [|by apply IH].
    apply str_eq_true in E. exfalso. apply Hx. rewrite E.
    apply list_elem_of_In, in_map, Hin.
Qed.

Lemma unique_momo_reference (l : list offering) (x y : offering) :
  NoDup (map momo_reference_id l) ->
  In x l -> In y l -> momo_reference_id x = momo_reference_id y -> x = y.
Proof.
  induction l as [|z l IH]; simpl; [done|].
  rewrite NoDup_cons. intros [Hz Hnd] [->|Hx] [->|Hy] Href; auto.
  - exfalso. apply Hz. rewrite Href. apply list_elem_of_In, in_map, Hy.
  - exfalso. apply Hz. rewrite <- Href. apply list_elem_of_In, in_map, Hx.
Qed.

(** X20. In demo mode the scheduled callback writes to the store by its own
    SQL, not through [updateStatusTxn]; on a store that respects the two
    UNIQUE constraints it leaves, for a PENDING transaction, exactly the
    store of the transition to the simulated status, and it leaves any
    other transaction, or an unknown id, alone. *)
Theorem demo_settle_is_the_transition utc_now lucky stamp referenceId
    referenceNumber (demoStatuses : gmap string demo_entry) db :
  NoDup (map reference_number (offerings db)) ->
  NoDup (map momo_reference_id (offerings db)) ->
  let out := demo_settle utc_now lucky stamp referenceId referenceNumber
               demoStatuses db in
  let simulatedStatus := if lucky then "SUCCESSFUL" else "FAILED" in
  let financialTxnId := if lucky then Some ("FT" ++ stamp) else None in
  match getOfferingByMomoRef referenceId db with
  | Some o =>
      (status o = "PENDING" ->
       out.2 = (updateStatusTxn utc_now (reference_number o) simulatedStatus
                                financialTxnId db).2)
      /\ (status o <> "PENDING" -> out.2 = db)
  | None => out.2 = db
  end.
Proof.
  intros Hrefs Hmomo out sim fin. unfold out, demo_settle. cbn [snd].
  destruct (getOfferingByMomoRef referenceId db) as [o|] eqn:Hfind; [|done].
  unfold getOfferingByMomoRef in Hfind.
  apply find_some in Hfind as [Hin Hid]. apply str_eq_true in Hid.
  split.
  - intros Hp. rewrite Hp. cbn [str_eq String.eqb Ascii.eqb Bool.eqb].
    assert (Hget : getOfferingByRef (reference_number o) db = Some o)
      by by apply find_unique_reference.
    assert (Hne : status o <> sim) by (rewrite Hp; unfold sim; by destruct lucky).
    rewrite (updateStatusTxn_changed _ _ _ _ _ _ Hget Hne). cbn [snd].
    assert (Hfin : or_null fin
                   = if str_eq sim "SUCCESSFUL" then Some ("FT" ++ stamp) else None).
    { unfold fin, sim. by destruct lucky. }
    assert (Hrows : offerings
                      (updateOfferingByMomoRef utc_now sim
                         (if str_eq sim "SUCCESSFUL" then Some ("FT" ++ stamp)
                          else None) referenceId db)
                    = offerings (updateOfferingStatus utc_now sim (or_null fin)
                                   (reference_number o) db)).
    { rewrite Hfin. cbn [offerings updateOfferingByMomoRef updateOfferingStatus
                         set_offerings].
      apply map_ext_in. intros x Hx. unfold update_row.
      destruct (str_eq (momo_reference_id x) referenceId) eqn:E1,
               (str_eq (reference_number x) (reference_number o)) eqn:E2; try done.
      - apply str_eq_true in E1. apply str_eq_false in E2. exfalso. apply E2.
        f_equal. apply (unique_momo_reference (offerings db)); congruence.
      - apply str_eq_false in E1. apply str_eq_true in E2. exfalso. apply E1.
        rewrite <- Hid. f_equal.
        by apply (unique_reference (offerings db)). }
    unfold updateDailySummaryCounters, set_daily_summaries.
    fold sim. rewrite Hrows. rewrite Hp.
    cbn [categories offerings daily_summaries pending_queue pending_queue_seq
         updateOfferingByMomoRef updateOfferingStatus set_offerings].
    unfold sim. by destruct lucky.
  - intros Hp. apply str_eq_false in Hp. by rewrite Hp.
Qed.

(** ** Demo data *)

Lemma seed_offering_invariant dateStr cfg_code counter (d : @seed_draw REAL) db db' :
  ledger_invariant real_add db ->
  includes_char " "%char dateStr = false ->
  seed_offering real_add dateStr cfg_code counter d db = Some db' ->
  ledger_invariant real_add db'.
Proof.
  intros [Hnd Hcons] Hdate Hseed. unfold seed_offering in Hseed.
  cbv zeta in Hseed.
  set (ref := cfg_code ++ "-" ++ substring 0 4 dateStr ++ "-"
              ++ remove_first_dash (substring 5 (String.length dateStr - 5) dateStr)
              ++ "-" ++ padStart0 3 (String_of_nat counter)) in *.
  set (time := padStart0 2 (String_of_nat (draw_hour d)) ++ ":"
               ++ padStart0 2 (String_of_nat (draw_minute d)) ++ ":"
               ++ padStart0 2 (String_of_nat (draw_second d))) in *.
  unfold insertOfferingWithDate in Hseed.
  destruct (existsb (fun o => str_eq (reference_number o) ref) (offerings db))
    eqn:Hfresh; [done|].
  match type of Hseed with
  | match (if ?c then _ else _) with _ => _ end = _ => destruct c; [done|]
  end.
  injection Hseed as <-.
  set (st := randomStatus (draw_lucky d)) in *.
  match goal with
  | |- context [(offerings db ++ [?r])%list] => set (row := r)
  end.
  set (b0 := (dateStr, cfg_code)).
  assert (Hb0 : b0 = bucket_of row).
  { unfold b0, bucket_of, row. cbn [created_at category_code]. f_equal.
    symmetry. exact (split_space_head_app dateStr time Hdate). }
  set (db1 := upsertSeededSummary _ _ _ _ _ _ _).
  assert (Hrows : forall b,
            bucket_rows b db1
            = (bucket_rows b db ++ if in_bucket b row then [row] else [])%list).
  { intros b. unfold bucket_rows, db1. cbn [offerings upsertSeededSummary
      set_daily_summaries set_offerings]. rewrite List.filter_app. simpl.
    by destruct (in_bucket b row). }
  split.
  - unfold db1. cbn [offerings upsertSeededSummary set_daily_summaries set_offerings].
    rewrite map_app. cbn [map]. apply NoDup_app. split; [done|]. split.
    + intros x Hx Hx'. apply list_elem_of_singleton in Hx'. subst x.
      apply list_elem_of_In, in_map_iff in Hx as (y & Hy & Hin).
      rewrite existsb_false_forall in Hfresh. specialize (Hfresh y Hin).
      apply str_eq_false in Hfresh. done.
    + apply NoDup_singleton.
  - intros b. unfold bucket_consistent. rewrite Hrows.
    specialize (Hcons b). unfold bucket_consistent in Hcons.
    destruct (decide (b = b0)) as [->|Hb].
    + assert (in_bucket b0 row = true) as ->
        by (rewrite Hb0; apply in_bucket_bucket_of).
      unfold db1, upsertSeededSummary.
      cbn [daily_summaries set_daily_summaries offerings set_offerings].
      fold b0.
      rewrite !count_status_snoc, length_app, map_app. cbn [map].
      rewrite sum_amounts_snoc. cbn [length status row amount].
      destruct (daily_summaries db !! b0) as [s|].
      * rewrite lookup_insert_eq. destruct Hcons as (Hs & Hf & Ht & Ha).
        rewrite <- Ha. cbn [success_count failed_count total_count total_amount].
        repeat split; try done; lia.
      * rewrite lookup_insert_eq, Hcons.
        cbn [success_count failed_count total_count total_amount].
        repeat split; try done.
    + assert (Hout : in_bucket b row = false).
      { apply not_true_iff_false. rewrite in_bucket_true. congruence. }
      rewrite Hout, app_nil_r.
      assert (Hlook : daily_summaries db1 !! b = daily_summaries db !! b).
      { unfold db1, upsertSeededSummary.
        cbn [daily_summaries set_daily_summaries offerings set_offerings].
        fold b0. destruct (daily_summaries db !! b0); by rewrite lookup_insert_ne. }
      by rewrite Hlook.
Qed.

Lemma seed_category_invariant dateStr cfg_code (draws : list (@seed_draw REAL)) :
  forall counter db n db',
    ledger_invariant real_add db ->
    includes_char " "%char dateStr = false ->
    seed_category real_add dateStr cfg_code draws counter db = Some (n, db') ->
    ledger_invariant real_add db'.
Proof.
  induction draws as [|d rest IH]; intros counter db n db' Hinv Hdate H; simpl in H.
  - by injection H as _ <-.
  - destruct (seed_offering real_add dateStr cfg_code (counter + 1) d db)
      as [db1|] eqn:E; [|done].
    eapply IH; [|done|exact H]. by eapply seed_offering_invariant.
Qed.

Lemma seed_day_invariant dateStr (cfgs : list (string * list (@seed_draw REAL))) :
  forall catCounters db db',
    ledger_invariant real_add db ->
    includes_char " "%char dateStr = false ->
    seed_day real_add dateStr cfgs catCounters db = Some db' ->
    ledger_invariant real_add db'.
Proof.
  induction cfgs as [|[cfg_code draws] rest IH];
    intros catCounters db db' Hinv Hdate H; simpl in H.
  - by injection H as <-.
  - destruct (seed_category real_add dateStr cfg_code draws _ db)
      as [[n db1]|] eqn:E; [|done].
    eapply IH; [|done|exact H]. by eapply seed_category_invariant.
Qed.

Lemma seed_days_invariant
    (days : list (string * list (string * list (@seed_draw REAL)))) :
  forall db db',
    ledger_invariant real_add db ->
    Forall (fun day => isValidDateString day.1 = true) days ->
    seed_days real_add days db = Some db' ->
    ledger_invariant real_add db'.
Proof.
  induction days as [|[dateStr cfgs] rest IH]; intros db db' Hinv Hdates H;
    simpl in H.
  - by injection H as <-.
  - apply Forall_cons in Hdates as [Hdate Hdates]. cbn [fst] in Hdate.
    destruct (seed_day real_add dateStr cfgs ∅ db) as [db1|] eqn:E; [|done].
    eapply IH; [|done|exact H]. eapply seed_day_invariant; [done| |exact E].
    eapply pattern_test_no_space, Hdate.
Qed.

(** X21. Seeding keeps the summaries consistent with the transactions:
    the demo route writes each row's date and its summary bucket from one
    date string, so when every day's string is a valid date, the seeded
    store counts and sums each bucket exactly, and references stay unique.
    A seeding that hits a constraint is rolled back whole. On the store
    that [clearAll] leaves this needs nothing of the store before. *)
Theorem seeding_keeps_the_ledger_consistent
    (days : list (string * list (string * list (@seed_draw REAL)))) db :
  Forall (fun day => isValidDateString day.1 = true) days ->
  (ledger_invariant real_add db ->
   ledger_invariant real_add (post_seed real_add days db).2)
  /\ ((post_seed real_add days db).1 = 500 -> (post_seed real_add days db).2 = db)
  /\ ledger_invariant real_add (clearAll db)
  /\ ledger_invariant real_add (post_seed real_add days (clearAll db)).2.
Proof.
  intros Hdates.
  assert (Hseed : forall db0, ledger_invariant real_add db0 ->
            ledger_invariant real_add (post_seed real_add days db0).2).
  { intros db0 Hinv. unfold post_seed.
    destruct (seed_days real_add days db0) as [db'|] eqn:E; [|done].
    by eapply seed_days_invariant. }
  assert (Hclear : ledger_invariant real_add (clearAll db)).
  { split; [constructor|]. intros b. unfold bucket_consistent. simpl.
    by rewrite lookup_empty. }
  split; [by apply Hseed|]. split; [|split; [done|by apply Hseed]].
  unfold post_seed. by destruct (seed_days real_add days db).
Qed.

End MoreProperties.

Section ReadSideProperties.

Context {REAL : Type}.
Variable real_add : REAL -> REAL -> REAL.
Variable real_zero : REAL.
Variable round_cents : REAL -> REAL.
Variable real_or_zero : REAL -> REAL.
Variable sql_SUM : list REAL -> REAL.
Variable real_le : REAL -> REAL -> bool.
Variable percent_toFixed1 : Z -> Z -> string.

Local Abbreviation offering := (@offering REAL).
Local Abbreviation database := (@database REAL).
Local Abbreviation listed_offering := (@listed_offering REAL).
Local Abbreviation api_offering := (@api_offering REAL).
Local Abbreviation summary_row := (@summary_row REAL).
Implicit Types db : database.
Implicit Types o : offering.

(** ** Sums and counts *)

Lemma fold_left_Zsum {A : Type} (f : A -> Z) (l : list A) :
  forall a, fold_left (fun sum c => sum + f c) l a = a + foldr Z.add 0 (map f l).
Proof.
  induction l as [|x l IH]; intros a; simpl; [lia|]. rewrite IH. lia.
Qed.

Lemma foldr_Zadd_Permutation (l l' : list Z) :
  l ≡ₚ l' -> foldr Z.add 0 l = foldr Z.add 0 l'.
Proof. induction 1; simpl; lia. Qed.

Lemma length_filter_Permutation {A : Type} (p : A -> bool) (l l' : list A) :
  l ≡ₚ l' -> length (List.filter p l) = length (List.filter p l').
Proof.
  induction 1 as [|x l l' _ IH|x y l|l l' l'' _ IH1 _ IH2]; simpl.
  - done.
  - destruct (p x); simpl; congruence.
  - destruct (p x), (p y); simpl; congruence.
  - congruence.
Qed.

Lemma filter_map_comm {A B : Type} (f : A -> B) (p : B -> bool) (l : list A) :
  List.filter p (map f l) = map f (List.filter (fun x => p (f x)) l).
Proof.
  induction l as [|x l IH]; simpl; [done|].
  destruct (p (f x)); simpl; by rewrite IH.
Qed.

Lemma fold_left_count {A : Type} (p : A -> bool) (l : list A) :
  fold_left (fun sum r => sum + if p r then 1 else 0) l 0
  = Z.of_nat (length (List.filter p l)).
Proof.
  rewrite (fold_left_Zsum (fun r => if p r then 1 else 0)).
  induction l as [|x l IH]; simpl; [done|].
  simpl in IH. destruct (p x); simpl; lia.
Qed.

Lemma sum_indicator (k : string) (ks : list string) :
  NoDup ks -> k ∈ ks ->
  foldr Z.add 0 (map (fun c => if str_eq k c then 1 else 0) ks) = 1.
Proof.
  induction ks as [|c ks IH]; intros Hnd Hin; [by apply elem_of_nil in Hin|].
  apply NoDup_cons in Hnd as [Hc Hnd]. simpl.
  assert (Hzero : forall l, k ∉ l ->
            foldr Z.add 0 (map (fun c => if str_eq k c then 1 else 0) l) = 0).
  { clear. induction l as [|c l IH]; intros Hk; simpl; [done|].
    apply not_elem_of_cons in Hk as [Hne Hk].
    apply str_eq_false in Hne. rewrite Hne, IH; done. }
  destruct (str_eq k c) eqn:E.
  - apply str_eq_true in E. subst c. rewrite Hzero; done.
  - apply elem_of_cons in Hin as [->|Hin].
    + by rewrite str_eq_refl in E.
    + rewrite IH; done.
Qed.

(** Grouping by a key splits a list: the sizes of the groups add up to
    the size of the list. *)
Lemma count_partition {A : Type} (key : A -> string) (ks : list string)
    (l : list A) :
  NoDup ks -> (forall x, In x l -> key x ∈ ks) ->
  foldr Z.add 0
    (map (fun c => Z.of_nat (length (List.filter (fun x => str_eq (key x) c) l))) ks)
  = Z.of_nat (length l).
Proof.
  intros Hnd. induction l as [|x l IH]; intros Hkeys.
  - simpl. clear. induction ks; simpl; lia.
  - assert (Hsplit : forall cs,
              foldr Z.add 0
                (map (fun c => Z.of_nat (length
                        (List.filter (fun y => str_eq (key y) c) (x :: l)))) cs)
              = foldr Z.add 0 (map (fun c => if str_eq (key x) c then 1 else 0) cs)
                + foldr Z.add 0
                    (map (fun c => Z.of_nat (length
                            (List.filter (fun y => str_eq (key y) c) l))) cs)).
    { induction cs as [|c cs IHcs]; simpl; [done|].
      simpl in IHcs. rewrite IHcs. destruct (str_eq (key x) c); simpl; lia. }
    rewrite Hsplit, sum_indicator, IH; simpl.
    + lia.
    + intros y Hy. apply Hkeys. by right.
    + done.
    + apply Hkeys. by left.
Qed.

(** ** The list and the summary of a day *)

Lemma getSummaryByDate_groups date db :
  let rows := List.filter (on_date date) (join_categories db) in
  let codes := remove_dups (map (fun r : listed_offering =>
                                   category_code (listed_row r)) rows) in
  getSummaryByDate sql_SUM real_le date db
  ≡ₚ map (fun c => summarize sql_SUM c
                     (List.filter (fun r : listed_offering =>
                                     str_eq (category_code (listed_row r)) c) rows))
         codes.
Proof. intros rows codes. unfold getSummaryByDate. apply merge_sort_Permutation. Qed.

(** X18. The list and the summary of a day agree. Asked with the same
    [date] parameter on the same store, GET /api/offerings and GET
    /api/offerings/summary reject the same dates, and otherwise report the
    same date and the same number of transactions; the summary's
    [failedCount] is the number of listed transactions in status FAILED, its
    categories are distinct, none is empty, and each [count] is the number
    of listed transactions of that category. *)
Theorem list_and_summary_agree now (query_date : option string) db :
  match get_offerings real_add real_zero round_cents now query_date db,
        get_summary real_add real_zero round_cents real_or_zero sql_SUM real_le
                    percent_toFixed1 now query_date db with
  | List400 _, Summary400 _ =>
      isValidDateString (or_default query_date (getTodayDateString now)) = false
  | List200 date totalCount _ listed,
    Summary200 date' _ totalTransactions by_category _ failedCount =>
      date = date' /\ isValidDateString date = true
      /\ length listed = totalCount
      /\ totalTransactions = Z.of_nat totalCount
      /\ failedCount
         = Z.of_nat (length (List.filter
                               (fun a : api_offering => str_eq (api_status a) "FAILED")
                               listed))
      /\ NoDup (map sc_code by_category)
      /\ forall c, In c by_category ->
           0 < sc_count c
           /\ sc_count c
              = Z.of_nat (length (List.filter
                                    (fun a : api_offering =>
                                       str_eq (api_category a) (sc_code c))
                                    listed))
  | _, _ => False
  end.
Proof.
  unfold get_offerings, get_summary.
  set (date := or_default query_date (getTodayDateString now)).
  destruct (isValidDateString date) eqn:Hvalid; cbn [negb]; [|done].
  pose proof (getSummaryByDate_groups date db) as Hgroups. cbv zeta in Hgroups.
  set (rows := List.filter (on_date date) (join_categories db)) in *.
  set (key := fun r : listed_offering => category_code (listed_row r)) in *.
  set (codes := remove_dups (map key rows)) in *.
  set (group := fun c => List.filter (fun r : listed_offering => str_eq (key r) c) rows).
  set (cats := getSummaryByDate sql_SUM real_le date db) in *.
  assert (Hlisting : getOfferingsByDate date db ≡ₚ rows)
    by apply merge_sort_Permutation.
  set (listing := getOfferingsByDate date db) in *.
  assert (Hnd : NoDup codes) by apply NoDup_remove_dups.
  assert (Hkeys : forall p (x : listed_offering),
            In x (List.filter p rows) -> key x ∈ codes).
  { intros p x Hx. apply filter_In in Hx as [Hx _].
    apply elem_of_remove_dups, list_elem_of_fmap. exists x.
    split; [done|]. by apply list_elem_of_In. }
  assert (Hcount : forall (p : listed_offering -> bool),
            foldr Z.add 0
              (map (fun c => Z.of_nat (length (List.filter p (group c)))) codes)
            = Z.of_nat (length (List.filter p listing))).
  { intros p. rewrite (length_filter_Permutation p _ _ Hlisting).
    rewrite <- (count_partition key codes (List.filter p rows) Hnd (Hkeys p)).
    f_equal. apply map_ext. intros c. do 2 f_equal. unfold group.
    clear. induction rows as [|x l IH]; simpl; [done|].
    destruct (str_eq (key x) c) eqn:E1, (p x) eqn:E2; simpl;
      rewrite ?E1, ?E2; simpl; by rewrite IH. }
  assert (Hall : forall l : list listed_offering,
            List.filter (fun _ => true) l = l).
  { induction l; simpl; congruence. }
  split; [done|]. split; [done|]. split; [by rewrite length_map|].
  split; [|split; [|split]].
  - rewrite (fold_left_Zsum sr_count), Z.add_0_l.
    rewrite (foldr_Zadd_Permutation _ _ (Permutation_map sr_count Hgroups)).
    rewrite map_map. cbn [sr_count summarize].
    specialize (Hcount (fun _ => true)). rewrite Hall in Hcount.
    rewrite <- Hcount. f_equal. apply map_ext. intros c. by rewrite Hall.
  - rewrite (fold_left_Zsum sr_failedCount), Z.add_0_l.
    rewrite (foldr_Zadd_Permutation _ _ (Permutation_map sr_failedCount Hgroups)).
    rewrite map_map. cbn [sr_failedCount summarize].
    rewrite filter_map_comm, length_map. cbn [api_status formatOffering].
    rewrite <- Hcount. f_equal. apply map_ext. intros c.
    apply fold_left_count.
  - rewrite map_map. cbn [sc_code].
    rewrite (Permutation_map sr_code Hgroups), map_map. cbn [sr_code summarize].
    by rewrite map_id.
  - intros c Hc. apply in_map_iff in Hc as (g & <- & Hg). cbn [sc_count sc_code].
    apply list_elem_of_In in Hg. rewrite Hgroups in Hg.
    apply list_elem_of_fmap in Hg as (code & -> & Hcode).
    cbn [sr_count sr_code summarize]. fold (group code).
    assert (Hlen : length (group code)
                   = length (List.filter
                               (fun a : api_offering => str_eq (api_category a) code)
                               (map (formatOffering) listing))).
    { rewrite filter_map_comm, length_map. cbn [api_category formatOffering].
      unfold group, key. by apply length_filter_Permutation. }
    rewrite <- Hlen. split; [|done].
    apply elem_of_remove_dups, list_elem_of_fmap in Hcode as (x & Hx & Hin).
    assert (Hx' : In x (group code)).
    { apply filter_In. split; [by apply list_elem_of_In|].
      rewrite <- Hx. apply str_eq_refl. }
    assert (Hpos : (0 < length (group code))%nat)
      by (destruct (group code); [done|simpl; lia]).
    unfold group, key in Hpos. lia.
Qed.

(** ** The most recent transactions *)

#[local] Instance newest_first_total : Total (@newest_first REAL).
Proof. intros a b. unfold newest_first. apply String.le_total. Qed.

#[local] Instance newest_first_trans : Transitive (@newest_first REAL).
Proof.
  intros a b c Hab Hbc. unfold newest_first in *. by etrans.
Qed.

(** X19. GET /api/offerings/recent returns the newest transactions, at
    most 100 of them: the limit asked for when it is between 1 and 100, 20
    when none or 0 is asked for, 1 for a negative one and 100 for a larger
    one; it returns that many transactions when the store has as many, all
    of them otherwise, and no transaction it leaves out is newer than one
    it returns. *)
Theorem recent_returns_the_newest (parsed_limit : option Z) db :
  let limit := recent_limit parsed_limit in
  let out := get_recent parsed_limit db in
  1 <= limit <= 100
  /\ (forall n, parsed_limit = Some n -> 1 <= n <= 100 -> limit = n)
  /\ (parsed_limit = None \/ parsed_limit = Some 0 -> limit = 20)
  /\ recent_count out = length (recent_offerings out)
  /\ recent_count out = Nat.min (Z.to_nat limit) (length (join_categories db))
  /\ exists shown rest : list listed_offering,
       join_categories db ≡ₚ (shown ++ rest)%list
       /\ recent_offerings out = map formatOffering shown
       /\ forall a b, a ∈ shown -> b ∈ rest ->
            String.le (created_at (listed_row b)) (created_at (listed_row a)).
Proof.
  intros limit out.
  assert (Hlimit : 1 <= limit <= 100) by (unfold limit, recent_limit; lia).
  split; [exact Hlimit|]. split; [|split; [|split; [|split]]].
  - intros n -> Hn. unfold limit, recent_limit.
    destruct (Z.eqb_spec n 0); lia.
  - intros [->| ->]; reflexivity.
  - reflexivity.
  - unfold out, get_recent, getRecentOfferings. cbn [recent_count].
    fold limit. rewrite length_map, length_take.
    by rewrite (Permutation_length (merge_sort_Permutation _ _)).
  - set (sorted := merge_sort newest_first (join_categories db)).
    exists (take (Z.to_nat limit) sorted), (drop (Z.to_nat limit) sorted).
    split; [|split].
    + rewrite take_drop. symmetry. apply merge_sort_Permutation.
    + reflexivity.
    + assert (Hs : StronglySorted newest_first sorted).
      { apply Sorted_StronglySorted; [apply _|]. apply Sorted_merge_sort. apply _. }
      rewrite <- (take_drop (Z.to_nat limit) sorted) in Hs.
      apply StronglySorted_app in Hs as (Hcross & _ & _).
      intros a b Ha Hb. exact (Hcross a b Ha Hb).
Qed.

End ReadSideProperties.

(** ** Reference numbering on a server that runs in UTC *)

Section NumberingProperties.

Context {REAL : Type}.
Variable real_add : REAL -> REAL -> REAL.
Context {RAW : Type}.
Variable raw_truthy : RAW -> bool.
Variable parseFloat : RAW -> option REAL.
Variable real_le_0 : REAL -> bool.

Lemma append_assoc_string (a b c : string) : (a ++ b) ++ c = a ++ b ++ c.
Proof.
  induction a as [|x a IH]; [reflexivity|].
  change (String x ((a ++ b) ++ c) = String x (a ++ b ++ c)). now rewrite IH.
Qed.

Lemma append_dash_inj (a a' x x' : string) :
  includes_char "-" a = false -> includes_char "-" a' = false ->
  a ++ "-" ++ x = a' ++ "-" ++ x' -> a = a' /\ x = x'.
Proof.
  revert a'. induction a as [|c a IH]; intros [|c' a']; simpl; intros Ha Ha' H.
  - injection H as H. auto.
  - injection H as Hc H. subst c'. discriminate.
  - injection H as Hc H. subst c. discriminate.
  - injection H as Hc H. subst c'.
    apply orb_false_iff in Ha as [_ Ha]. apply orb_false_iff in Ha' as [_ Ha'].
    destruct (IH a' Ha Ha' H) as [-> ->]. auto.
Qed.

Lemma append_inj_length (a a' b b' : string) :
  String.length a = String.length a' ->
  a ++ b = a' ++ b' -> a = a' /\ b = b'.
Proof.
  revert a'. induction a as [|c a IH]; intros [|c' a']; simpl; intros Hl H;
    try discriminate; [auto|].
  injection H as -> H. injection Hl as Hl.
  destruct (IH a' Hl H) as [-> ->]. auto.
Qed.

Lemma digits_have_no_dash (n : nat) :
  forall s, pattern_test (repeat Digit n) s = true ->
  includes_char "-" s = false.
Proof.
  induction n as [|n IH]; intros [|c s] H; simpl in *;
    try discriminate; [reflexivity|].
  apply andb_true_iff in H as [Hc H]. rewrite (IH _ H), orb_false_r.
  apply Ascii.eqb_neq. intros ->. discriminate.
Qed.

(** Reading a padded decimal text back gives the number. *)
Lemma padStart0_value (w n : nat) :
  exists d, NilEmpty.uint_of_string (padStart0 w (String_of_nat n)) = Some d
            /\ Nat.of_uint d = n.
Proof.
  unfold padStart0, String_of_nat.
  generalize (w - String.length (NilEmpty.string_of_uint (Nat.to_uint n)))%nat.
  intros k. induction k as [|k (d & Hd & Hv)].
  - exists (Nat.to_uint n). split.
    + apply NilEmpty.usu.
    + apply DecimalNat.Unsigned.of_to.
  - exists (Decimal.D0 d). split.
    + cbn [repeat_string]. rewrite append_assoc_string.
      change (NilEmpty.uint_of_string
                (String "0" (repeat_string k "0"
                               ++ NilEmpty.string_of_uint (Nat.to_uint n)))
              = Some (Decimal.D0 d)).
      cbn [NilEmpty.uint_of_string]. rewrite Hd. reflexivity.
    + rewrite <- Hv. reflexivity.
Qed.

Lemma padStart0_inj (w n n' : nat) :
  padStart0 w (String_of_nat n) = padStart0 w (String_of_nat n') -> n = n'.
Proof.
  intros H.
  destruct (padStart0_value w n) as (d & Hd & <-).
  destruct (padStart0_value w n') as (d' & Hd' & <-).
  rewrite H in Hd. congruence.
Qed.

Lemma generateReference_text (now : js_date) (c : string) (db : @database REAL) :
  generateReference now c db
  = reference_text now c (countTodayByCategory c (getTodayDateString now) db + 1).
Proof. reflexivity. Qed.

(** A reference determines its category, its date and its sequence number. *)
Lemma reference_text_inj (now now' : js_date) (c c' : string) (k k' : nat) :
  calendar_date now -> calendar_date now' ->
  includes_char "-" c = false -> includes_char "-" c' = false ->
  reference_text now c k = reference_text now' c' k' ->
  c = c' /\ getTodayDateString now = getTodayDateString now' /\ k = k'.
Proof.
  intros (Hy & Hm & Hd) (Hy' & Hm' & Hd') Hc Hc'.
  unfold reference_text, getTodayDateString. cbv zeta.
  set (Y := String_of_nat (getFullYear now)).
  set (Y' := String_of_nat (getFullYear now')).
  set (M := padStart0 2 (String_of_nat (getMonth now + 1))).
  set (M' := padStart0 2 (String_of_nat (getMonth now' + 1))).
  set (D := padStart0 2 (String_of_nat (getDate now))).
  set (D' := padStart0 2 (String_of_nat (getDate now'))).
  assert (HY : pattern_test (repeat Digit 4) Y = true)
    by (apply year_has_four_digits; assumption).
  assert (HY' : pattern_test (repeat Digit 4) Y' = true)
    by (apply year_has_four_digits; assumption).
  assert (HM : pattern_test (repeat Digit 2) M = true)
    by (apply padStart0_2_has_two_digits; lia).
  assert (HM' : pattern_test (repeat Digit 2) M' = true)
    by (apply padStart0_2_has_two_digits; lia).
  assert (HD : pattern_test (repeat Digit 2) D = true)
    by (apply padStart0_2_has_two_digits; lia).
  assert (HD' : pattern_test (repeat Digit 2) D' = true)
    by (apply padStart0_2_has_two_digits; lia).
  intros H.
  apply append_dash_inj in H as [-> H]; [|assumption..].
  apply append_dash_inj in H as [HYY H];
    [|eapply digits_have_no_dash; eassumption..].
  rewrite <- !(append_assoc_string _ _ ("-" ++ _)) in H.
  apply append_dash_inj in H as [HMD H];
    [|apply (digits_have_no_dash (2 + 2));
      apply (pattern_test_app (repeat Digit 2) (repeat Digit 2)); assumption..].
  apply append_inj_length in HMD as [HMM HDD];
    [|rewrite (pattern_test_length _ _ HM), (pattern_test_length _ _ HM');
      reflexivity].
  apply padStart0_inj in H. rewrite HYY, HMM, HDD. auto.
Qed.

Lemma countTodayByCategory_offerings (c d : string) (db db' : @database REAL) :
  offerings db' = offerings db ->
  countTodayByCategory c d db' = countTodayByCategory c d db.
Proof. unfold countTodayByCategory. now intros ->. Qed.

Lemma countTodayByCategory_update (c d : string) (db : @database REAL)
    now newStatus fin ref :
  countTodayByCategory c d (updateOfferingStatus now newStatus fin ref db)
  = countTodayByCategory c d db.
Proof.
  unfold countTodayByCategory. cbn [offerings updateOfferingStatus set_offerings].
  induction (offerings db) as [|o l IH]; [reflexivity|].
  cbn [map List.filter].
  assert (E : category_code (update_row now newStatus fin ref o) = category_code o
              /\ created_at (update_row now newStatus fin ref o) = created_at o).
  { unfold update_row. destruct (str_eq (reference_number o) ref); auto. }
  destruct E as [-> ->].
  destruct (str_eq (category_code o) c && str_eq (sql_DATE (created_at o)) d);
    cbn [length]; now rewrite IH.
Qed.

(** On a server in UTC the date of the store's timestamp is the local
    date. *)
Lemma getTodayDateString_length (now : js_date) :
  calendar_date now -> String.length (getTodayDateString now) = 10%nat.
Proof.
  intros (Hy & Hm & Hd). unfold getTodayDateString. cbv zeta.
  rewrite !length_append.
  rewrite (pattern_test_length _ _ (year_has_four_digits _ Hy)).
  rewrite (pattern_test_length _ _ (padStart0_2_has_two_digits (getMonth now + 1)
                                      ltac:(lia))).
  rewrite (pattern_test_length _ _ (padStart0_2_has_two_digits (getDate now)
                                      ltac:(lia))).
  reflexivity.
Qed.

Lemma sql_DATE_on_utc_server (now : js_date) (time : string) :
  calendar_date now ->
  sql_DATE (getTodayDateString now ++ " " ++ time) = getTodayDateString now.
Proof.
  intros Hnow. unfold sql_DATE.
  rewrite <- (getTodayDateString_length now Hnow) at 1. apply substring_0_app.
Qed.

Lemma seeded_categories_have_no_dash (cat : category) :
  In cat seeded_categories -> includes_char "-" (code cat) = false.
Proof.
  intros H. repeat (destruct H as [<-|H]; [reflexivity|]). destruct H.
Qed.

(** The next reference of a numbered store is the reference of no stored
    transaction. *)
Lemma generateReference_fresh (db : @database REAL) now cat o :
  numbered_by_day db -> calendar_date now ->
  In cat (categories db) -> In o (offerings db) ->
  reference_number o <> generateReference now (code cat) db.
Proof.
  intros [Hcats Hrows] Hnow Hcat Ho E.
  destruct (Hrows o Ho) as [(cat0 & Hcat0 & Hcode0) (now0 & k & Hnow0 & Hdate & Href & Hk)].
  rewrite generateReference_text, Href in E.
  apply reference_text_inj in E as (Hc & Hd & Hkk); try assumption.
  - rewrite Hdate, Hd, Hc in Hk. lia.
  - rewrite <- Hcode0. by apply Hcats.
  - by apply Hcats.
Qed.

Lemma apply_op_numbered (op : @ledger_op REAL) (db : @database REAL) :
  on_utc_server op -> numbered_by_day db ->
  numbered_by_day (apply_op real_add db op).
Proof.
  intros Hop [Hcats Hrows].
  destruct op as [now utc_now uuid data|utc_now ref st fin]; simpl.
  - destruct (createOfferingTxn real_add now utc_now uuid data db)
      as [[ids db']|] eqn:Htxn; [|by split].
    destruct (createOfferingTxn_Some _ _ _ _ _ _ _ _ Htxn)
      as (Hoff & Hc & _ & _ & _ & Href & _ & _ & Hcat).
    destruct Hop as [Hnow (time & ->)].
    assert (Hcount : forall c d,
              countTodayByCategory c d db'
              = (countTodayByCategory c d db
                 + (if str_eq (data_category data) c
                       && str_eq (getTodayDateString now) d
                    then 1 else 0))%nat).
    { intros c d. unfold countTodayByCategory. rewrite Hoff.
      rewrite List.filter_app, length_app. f_equal.
      cbn [List.filter pending_offering category_code created_at].
      rewrite (sql_DATE_on_utc_server now time Hnow).
      by destruct (str_eq (data_category data) c
                   && str_eq (getTodayDateString now) d). }
    split; [by rewrite Hc|].
    intros o Ho. rewrite Hoff in Ho. apply in_app_or in Ho as [Ho|[<-|[]]].
    + destruct (Hrows o Ho) as [Hcat0 (now0 & k & Hnow0 & Hdate & Hr & Hk)].
      split; [by rewrite Hc|].
      exists now0, k.
      split; [exact Hnow0|]. split; [exact Hdate|]. split; [exact Hr|].
      split; [lia|]. rewrite Hcount. lia.
    + cbn [pending_offering category_code created_at reference_number].
      split; [by rewrite Hc|].
      exists now, (countTodayByCategory (data_category data)
                     (getTodayDateString now) db + 1)%nat.
      rewrite (sql_DATE_on_utc_server now time Hnow).
      split; [exact Hnow|]. split; [reflexivity|].
      split; [by rewrite Href|]. split; [lia|].
      rewrite Hcount, !str_eq_refl. simpl. lia.
  - destruct (updateStatusTxn_store utc_now ref st fin db)
      as [->|(o0 & _ & _ & ->)]; [by split|].
    split; [done|].
    cbn [offerings updateDailySummaryCounters set_daily_summaries
         updateOfferingStatus set_offerings categories].
    intros o Ho. apply in_map_iff in Ho as (x & <- & Hx).
    destruct (Hrows x Hx) as [Hcat0 (now0 & k & Hnow0 & Hdate & Hr & Hk)].
    assert (E : category_code (update_row utc_now st (or_null fin) ref x)
                = category_code x
                /\ created_at (update_row utc_now st (or_null fin) ref x)
                   = created_at x
                /\ reference_number (update_row utc_now st (or_null fin) ref x)
                   = reference_number x).
    { unfold update_row. destruct (str_eq (reference_number x) ref); auto. }
    destruct E as (-> & -> & ->).
    split; [done|]. exists now0, k.
    split; [exact Hnow0|]. split; [exact Hdate|]. split; [exact Hr|].
    split; [lia|].
    erewrite (countTodayByCategory_offerings _ _
                (updateOfferingStatus utc_now st (or_null fin) ref db))
      by reflexivity.
    rewrite countTodayByCategory_update. lia.
Qed.

Lemma run_numbered (ops : list (@ledger_op REAL)) :
  Forall on_utc_server ops ->
  numbered_by_day (run real_add ops initial_database)
  /\ categories (run real_add ops initial_database) = seeded_categories.
Proof.
  assert (H0 : numbered_by_day (@initial_database REAL)
               /\ categories (@initial_database REAL) = seeded_categories).
  { split; [|reflexivity]. split; [apply seeded_categories_have_no_dash|].
    intros o []. }
  revert H0. unfold run. generalize (@initial_database REAL) as db.
  induction ops as [|op ops IH]; intros db H0 Hops; [done|].
  inversion Hops as [|? ? Hop Hrest]; subst.
  simpl. apply IH; [|done]. destruct H0 as [Hn Hc].
  split; [by apply apply_op_numbered|].
  rewrite <- Hc. clear.
  destruct op as [now utc_now uuid data|utc_now ref st fin]; simpl.
  - destruct (createOfferingTxn real_add now utc_now uuid data db)
      as [[ids db']|] eqn:Htxn; [|done].
    by destruct (createOfferingTxn_Some _ _ _ _ _ _ _ _ Htxn) as (_ & -> & _).
  - by destruct (updateStatusTxn_store utc_now ref st fin db)
      as [->|(o0 & _ & _ & ->)].
Qed.

(** On a server that runs in UTC the reference that [generateReference]
    builds is the reference of no stored transaction, whatever creations
    and transitions came before. *)
Lemma generateReference_fresh_on_utc_server (ops : list (@ledger_op REAL))
    now category cat :
  Forall on_utc_server ops -> calendar_date now ->
  let db := run real_add ops initial_database in
  getCategoryByCode category db = Some cat ->
  forall o, In o (offerings db) ->
  reference_number o <> generateReference now category db.
Proof.
  intros Hops Hnow db Hfind o Ho.
  unfold getCategoryByCode in Hfind. apply find_some in Hfind as [Hin Hc].
  apply str_eq_true in Hc. subst category.
  apply generateReference_fresh; try done.
  by apply run_numbered.
Qed.

(** X22. Creation on a server that runs in UTC never fails on its own
    numbering: after any sequence of creations and transitions from the
    initial store, a request with a phone number, a positive amount and a
    known category, made with a transaction id that no stored transaction
    carries, is answered 202 with status PENDING and the generated
    reference, and its row is stored, whether the MoMo client accepts the
    payment request or throws. *)
Theorem creation_succeeds_on_utc_server (ops : list (@ledger_op REAL))
    now utc_now uuid requestToPay queue_now body phone raw category amt cat :
  Forall on_utc_server ops -> calendar_date now ->
  let db := run real_add ops initial_database in
  body_phone body = Some phone -> phone <> "" ->
  body_amount body = Some raw -> raw_truthy raw = true ->
  body_category body = Some category -> category <> "" ->
  parseFloat raw = Some amt -> real_le_0 amt = false ->
  getCategoryByCode category db = Some cat ->
  (forall o, In o (offerings db) -> momo_reference_id o <> uuid) ->
  let ref := generateReference now category db in
  let out := post_offering real_add raw_truthy parseFloat real_le_0 now utc_now
               uuid requestToPay queue_now body db in
  create_http_status out.1 = 202
  /\ create_success out.1 = true
  /\ (exists outcome, out.1 = Create202 ref uuid "PENDING" outcome)
  /\ (forall o, In o (offerings db) -> reference_number o <> ref)
  /\ exists row,
       offerings out.2 = (offerings db ++ [row])%list
       /\ reference_number row = ref /\ momo_reference_id row = uuid
       /\ status row = "PENDING" /\ category_code row = category
       /\ created_at row = utc_now.
Proof.
  intros Hops Hnow db Hphone Hphone' Hraw Hraw' Hcat Hcat' Hparse Hpos Hfind
         Huuid ref out.
  assert (Hfresh : forall o, In o (offerings db) ->
            reference_number o <> ref /\ momo_reference_id o <> uuid).
  { intros o Ho. split; [|by apply Huuid].
    by apply (generateReference_fresh_on_utc_server ops now category cat). }
  destruct (creation_robust real_add raw_truthy parseFloat real_le_0
              now utc_now uuid requestToPay queue_now body db
              phone raw category amt cat Hphone Hphone' Hraw Hraw' Hcat Hcat'
              Hparse Hpos Hfind Hfresh)
    as (H1 & H2 & H3 & H4 & _).
  split; [exact H2|]. split; [exact H3|].
  split; [eexists; exact H1|].
  split; [intros o Ho; by apply Hfresh|].
  eexists. split; [exact H4|]. done.
Qed.

End NumberingProperties.

(** * Concrete runs *)

Example scenario_creation :
  offerings db_created = [tithe_001]
  /\ daily_summaries db_created !! ("2026-02-11", "TITHE")
     = Some {| total_count := 1; total_amount := 50;
               success_count := 0; failed_count := 0 |}.
Proof. split; reflexivity. Qed.

Example scenario_success :
  offerings db_successful = [tithe_001_successful]
  /\ daily_summaries db_successful !! ("2026-02-11", "TITHE")
     = Some {| total_count := 1; total_amount := 50;
               success_count := 1; failed_count := 0 |}.
Proof. split; reflexivity. Qed.

(** C2 at the scenario: SUCCESSFUL again changes nothing. *)
Lemma transition_idempotent_witness :
  updateStatusTxn "2026-02-11 09:06:00" "TITHE-2026-0211-001" "SUCCESSFUL"
                  (Some "FT999") db_successful
  = (Some {| result_offering := tithe_001_successful; changed := false |},
     db_successful).
Proof.
  apply (proj1 (transition_idempotent (REAL := Z))); reflexivity.
Defined.

(** The delta rule at the scenario: FAILED reported for the SUCCESSFUL
    transaction. *)
Lemma generic_delta_rule_witness :
  daily_summaries
    (updateStatusTxn "2026-02-11 09:07:00" "TITHE-2026-0211-001" "FAILED"
                     None db_successful).2 !! ("2026-02-11", "TITHE")
  = Some {| total_count := 1; total_amount := 50;
            success_count := 0; failed_count := 1 |}.
Proof.
  assert (Hget : getOfferingByRef "TITHE-2026-0211-001" db_successful
                 = Some tithe_001_successful) by reflexivity.
  assert (Hne : status tithe_001_successful <> "FAILED") by discriminate.
  destruct (generic_delta_rule "2026-02-11 09:07:00" "TITHE-2026-0211-001"
              "FAILED" None db_successful tithe_001_successful Hget Hne)
    as (_ & Hrow & _).
  exact (Hrow {| total_count := 1; total_amount := 50;
                 success_count := 1; failed_count := 0 |} eq_refl).
Defined.

(** C7: a webhook for a reference that was never created. *)
Lemma transition_not_found_witness :
  updateStatusTxn "2026-02-11 09:08:00" "TITHE-2026-0211-099" "SUCCESSFUL"
                  (Some "FT7") db_created = (None, db_created)
  /\ post_momo_callback "2026-02-11 09:08:00"
       {| externalId := Some "TITHE-2026-0211-099";
          callback_status := Some "SUCCESSFUL";
          financialTransactionId := Some "FT7" |} db_created
     = (Callback404 "Offering not found", db_created).
Proof.
  assert (Hnone : forall o, In o (offerings db_created) ->
                    reference_number o <> "TITHE-2026-0211-099").
  { intros o [<-|[]]. discriminate. }
  destruct (transition_not_found "2026-02-11 09:08:00" "TITHE-2026-0211-099"
              "SUCCESSFUL" (Some "FT7") db_created Hnone) as [Htxn Hhook].
  split; [exact Htxn|].
  refine (proj1 (Hhook {| externalId := Some "TITHE-2026-0211-099";
                          callback_status := Some "SUCCESSFUL";
                          financialTransactionId := Some "FT7" |}
                       eq_refl _ eq_refl eq_refl)).
  discriminate.
Defined.

(** C9 at the scenario: the settlement id passed with SUCCESSFUL is
    stored. *)
Lemma settlement_id_as_supplied_witness :
  exists o',
    getOfferingByRef "TITHE-2026-0211-001"
      (updateStatusTxn "2026-02-11 09:05:00" "TITHE-2026-0211-001" "SUCCESSFUL"
                       (Some "FT123") db_created).2 = Some o'
    /\ status o' = "SUCCESSFUL"
    /\ financial_txn_id o' = Some "FT123".
Proof.
  assert (Hget : getOfferingByRef "TITHE-2026-0211-001" db_created
                 = Some tithe_001) by reflexivity.
  assert (Hne : status tithe_001 <> "SUCCESSFUL") by discriminate.
  exact (proj1 (settlement_id_as_supplied "2026-02-11 09:05:00"
                  "TITHE-2026-0211-001" "SUCCESSFUL" (Some "FT123")
                  db_created tithe_001 Hget Hne)).
Defined.

(** C9 as stated fails: a transition to FAILED that carries a settlement id
    stores it. *)
Lemma settlement_id_stored_on_failed :
  exists o',
    getOfferingByRef "TITHE-2026-0211-001"
      (updateStatusTxn "2026-02-11 09:05:00" "TITHE-2026-0211-001" "FAILED"
                       (Some "FT123") db_created).2 = Some o'
    /\ status o' = "FAILED"
    /\ status o' <> "SUCCESSFUL"
    /\ financial_txn_id o' = Some "FT123".
Proof.
  eexists. split; [reflexivity|]. repeat split. discriminate.
Qed.

(** C10 at the scenario: SUCCESSFUL, then FAILED, then SUCCESSFUL again. *)
Lemma round_trip_neutral_witness :
  let db1 := (updateStatusTxn "2026-02-11 09:10:00" "TITHE-2026-0211-001"
                              "FAILED" None db_successful).2 in
  let db2 := (updateStatusTxn "2026-02-11 09:11:00" "TITHE-2026-0211-001"
                              "SUCCESSFUL" (Some "FT124") db1).2 in
  (exists o2, getOfferingByRef "TITHE-2026-0211-001" db2 = Some o2
              /\ status o2 = "SUCCESSFUL")
  /\ daily_summaries db2 = daily_summaries db_successful.
Proof.
  assert (Hget : getOfferingByRef "TITHE-2026-0211-001" db_successful
                 = Some tithe_001_successful) by reflexivity.
  assert (HBA : "FAILED" <> "SUCCESSFUL") by discriminate.
  destruct (round_trip_neutral "2026-02-11 09:10:00" "2026-02-11 09:11:00"
              "TITHE-2026-0211-001" "SUCCESSFUL" "FAILED" None (Some "FT124")
              db_successful tithe_001_successful Hget eq_refl HBA)
    as (Hstatus & Hsums & _).
  split; [exact Hstatus|exact Hsums].
Defined.

(** C6 at the scenario: the poll of the PENDING transaction applies the
    status MoMo reports; a later poll answers from the store alone; a
    failing query degrades to the stored status. *)
Lemma poll_driver_witness :
  (let out := get_status "2026-02-11 09:05:00"
                (fun _ => inr {| momo_state := Some "SUCCESSFUL";
                                 momo_financialTransactionId := Some "FT123" |})
                "TITHE-2026-0211-001" db_created in
   poll_db out = db_successful)
  /\ (forall checkStatus,
        get_status "2026-02-11 09:06:00" checkStatus "TITHE-2026-0211-001"
                   db_successful
        = {| poll_answer := Poll200 "SUCCESSFUL" (Some "FT123") None;
             poll_db := db_successful;
             poll_calls := [] |})
  /\ get_status "2026-02-11 09:05:00" (fun _ => inl "ETIMEDOUT")
                "TITHE-2026-0211-001" db_created
     = {| poll_answer := Poll200 "PENDING" None (Some "ETIMEDOUT");
          poll_db := db_created;
          poll_calls := ["uuid-1"] |}.
Proof.
  assert (Hget : getOfferingByRef "TITHE-2026-0211-001" db_created
                 = Some tithe_001) by reflexivity.
  assert (Hget' : getOfferingByRef "TITHE-2026-0211-001" db_successful
                  = Some tithe_001_successful) by reflexivity.
  assert (HnS : status tithe_001 <> "SUCCESSFUL") by discriminate.
  assert (HnF : status tithe_001 <> "FAILED") by discriminate.
  split; [|split].
  - pose proof (poll_driver "2026-02-11 09:05:00"
                  (fun _ => inr {| momo_state := Some "SUCCESSFUL";
                                   momo_financialTransactionId := Some "FT123" |})
                  "TITHE-2026-0211-001" db_created tithe_001 Hget) as [_ H].
    destruct (H HnS HnF) as [_ Hok].
    refine (proj1 (Hok _ "SUCCESSFUL" eq_refl eq_refl _ _)); discriminate.
  - intros checkStatus.
    pose proof (poll_driver "2026-02-11 09:06:00" checkStatus
                  "TITHE-2026-0211-001" db_successful tithe_001_successful Hget')
      as [H _].
    apply H. by left.
  - pose proof (poll_driver "2026-02-11 09:05:00" (fun _ => inl "ETIMEDOUT")
                  "TITHE-2026-0211-001" db_created tithe_001 Hget) as [_ H].
    destruct (H HnS HnF) as [Herr _]. exact (Herr "ETIMEDOUT" eq_refl).
Defined.

(** The first creation of the scenario, with the MoMo client
    unreachable. *)
Lemma creation_robust_witness :
  let out := post_offering_Z feb11 "2026-02-11 09:00:00" "uuid-1"
               (fun _ => Some "ECONNREFUSED") 1770800400 tithe_50_body
               initial_database in
  out.1 = Create202 "TITHE-2026-0211-001" "uuid-1" "PENDING" (Some "ECONNREFUSED")
  /\ offerings out.2 = [tithe_001]
  /\ daily_summaries out.2 !! ("2026-02-11", "TITHE")
     = Some {| total_count := 1; total_amount := 50;
               success_count := 0; failed_count := 0 |}
  /\ pending_queue out.2 !! 1
     = Some {| q_reference_number := "TITHE-2026-0211-001";
               q_momo_reference_id := "uuid-1";
               q_amount := 50;
               q_phone_number := "0241234567";
               q_payer_message := Some "Tithes Offering";
               retry_count := 0;
               last_attempt_at := None;
               q_created_at := 1770800400 |}.
Proof.
  assert (Hfresh : forall o : @offering Z,
            In o (offerings initial_database) ->
            reference_number o
            <> generateReference feb11 "TITHE" (@initial_database Z)
            /\ momo_reference_id o <> "uuid-1") by (intros o []).
  assert (Hphone : "0241234567" <> "") by discriminate.
  assert (Hcat : "TITHE" <> "") by discriminate.
  destruct (creation_robust Z.add json_number_truthy Some (fun z => z <=? 0)
              feb11 "2026-02-11 09:00:00" "uuid-1"
              (fun _ => Some "ECONNREFUSED") 1770800400 tithe_50_body
              initial_database "0241234567" 50 "TITHE" 50
              {| code := "TITHE"; name := "Tithes";
                 description := "10% income offering from members" |}
              eq_refl Hphone eq_refl eq_refl eq_refl Hcat eq_refl eq_refl
              eq_refl Hfresh)
    as (Hresp & _ & _ & Hoffs & Hsums & _ & Hqueue).
  cbv zeta. unfold post_offering_Z.
  split; [exact Hresp|]. split; [exact Hoffs|]. split.
  - rewrite Hsums. reflexivity.
  - rewrite (Hqueue "ECONNREFUSED" eq_refl). reflexivity.
Defined.

(** C8 fails on the code. On a server one hour ahead of UTC a first
    request at 00:30 local time is stored under the reference
    TITHE-2026-0212-001 with the UTC [created_at] 2026-02-11 23:30:00. Ten
    minutes later a second request passes validation and draws a new
    correlation id; [generateReference] counts the transactions whose
    [DATE(created_at)] is the local date 2026-02-12, finds none, and hands out
    TITHE-2026-0212-001 again. The insert raises on the UNIQUE constraint, the
    transaction is rolled back, and the handler's catch-all answers 500:
    neither the transaction nor the summary increment is persisted, and when
    the provider is unreachable no retry entry is queued either. *)
Theorem local_date_reissues_the_reference :
  let out := post_offering_Z feb12_local "2026-02-11 23:40:00" "uuid-2"
               (fun _ => None) 1770853200 tithe_50_body db_after_midnight in
  let out_down := post_offering_Z feb12_local "2026-02-11 23:40:00" "uuid-2"
                    momo_down 1770853200 tithe_50_body db_after_midnight in
  map (fun o => (reference_number o, momo_reference_id o, created_at o))
      (offerings db_after_midnight)
  = [("TITHE-2026-0212-001", "uuid-1", "2026-02-11 23:30:00")]
  /\ truthy (body_phone tithe_50_body) = true
  /\ (json_number_truthy <$> body_amount tithe_50_body) = Some true
  /\ ((fun z => z <=? 0) <$> body_amount tithe_50_body) = Some false
  /\ (exists cat, getCategoryByCode "TITHE" db_after_midnight = Some cat)
  /\ getTodayDateString feb12_local = "2026-02-12"
  /\ countTodayByCategory "TITHE" "2026-02-12" db_after_midnight = 0%nat
  /\ generateReference feb12_local "TITHE" db_after_midnight = "TITHE-2026-0212-001"
  /\ out.1 = Create500
  /\ create_success out.1 = false
  /\ out.2 = db_after_midnight
  /\ out_down.1 = Create500
  /\ out_down.2 = db_after_midnight
  /\ pending_queue out_down.2 = ∅.
Proof.
  repeat split; try reflexivity. eexists. reflexivity.
Qed.

(** C3 fails on the code. The transaction of that server was filed under
    the summary row of the local date (2026-02-12) while its bucket by
    [created_at] is (2026-02-11, TITHE), which has no row. The transition
    from PENDING to SUCCESSFUL changes the status and answers [changed], the
    rule asks for success_count + 1, and the UPDATE of the counters matches no
    row: no counter of any bucket moves. The out-of-order FAILED that follows
    asks for success_count - 1 and failed_count + 1 and moves nothing
    either. *)
Theorem delta_is_lost_without_summary_row :
  let out := updateStatusTxn "2026-02-11 23:31:00" "TITHE-2026-0212-001"
               "SUCCESSFUL" (Some "FT1") db_after_midnight in
  let out' := updateStatusTxn "2026-02-11 23:32:00" "TITHE-2026-0212-001"
                "FAILED" None out.2 in
  map (fun o => (status o, bucket_of o)) (offerings db_after_midnight)
  = [("PENDING", ("2026-02-11", "TITHE"))]
  /\ changed <$> out.1 = Some true
  /\ map status (offerings out.2) = ["SUCCESSFUL"]
  /\ successDelta (getStatusDelta "PENDING" "SUCCESSFUL") = 1
  /\ daily_summaries out.2 = daily_summaries db_after_midnight
  /\ changed <$> out'.1 = Some true
  /\ map status (offerings out'.2) = ["FAILED"]
  /\ successDelta (getStatusDelta "SUCCESSFUL" "FAILED") = -1
  /\ failedDelta (getStatusDelta "SUCCESSFUL" "FAILED") = 1
  /\ daily_summaries out'.2 = daily_summaries db_after_midnight
  /\ map_to_list (daily_summaries db_after_midnight)
     = [ (("2026-02-12", "TITHE"),
          {| total_count := 1; total_amount := 50;
             success_count := 0; failed_count := 0 |}) ]
  /\ daily_summaries db_after_midnight !! ("2026-02-11", "TITHE") = None.
Proof. repeat split; vm_compute; reflexivity. Qed.

(** C1 fails on the code: the creation files the transaction under the
    local date (2026-02-12) while the transition engine, and the invariant,
    place it in the bucket of its UTC creation date (2026-02-11). After the
    creation and one transition to SUCCESSFUL the store holds one
    transaction, SUCCESSFUL, and one summary row, whose success_count is 0:
    the row of the 12th counts a transaction that no bucket of that date
    holds, and the bucket of the 11th has no row, so the transition's delta
    is lost. *)
Theorem local_date_breaks_aggregate_consistency :
  let db := run Z.add
              [ Create feb12_local "2026-02-11 23:30:00" "uuid-1" tithe_50;
                Transition "2026-02-11 23:31:00" "TITHE-2026-0212-001"
                           "SUCCESSFUL" (Some "FT1") ]
              initial_database in
  map status (offerings db) = ["SUCCESSFUL"]
  /\ map bucket_of (offerings db) = [("2026-02-11", "TITHE")]
  /\ map_to_list (daily_summaries db)
     = [ (("2026-02-12", "TITHE"),
          {| total_count := 1; total_amount := 50;
             success_count := 0; failed_count := 0 |}) ]
  /\ count_status "SUCCESSFUL" (bucket_rows ("2026-02-11", "TITHE") db) = 1
  /\ daily_summaries db !! ("2026-02-11", "TITHE") = None
  /\ bucket_rows ("2026-02-12", "TITHE") db = []
  /\ ~ aggregate_consistent Z.add db.
Proof.
  repeat split; try reflexivity.
  intros Hcons. specialize (Hcons ("2026-02-11", "TITHE")).
  unfold bucket_consistent in Hcons. vm_compute in Hcons. discriminate.
Qed.

(** The same two operations with clocks that agree (a server on UTC) keep
    every bucket consistent. *)
Example clocks_agree_scenario :
  aggregate_consistent Z.add
    (run Z.add
       [ Create feb11 "2026-02-11 23:30:00" "uuid-1" tithe_50;
         Transition "2026-02-11 23:31:00" "TITHE-2026-0211-001"
                    "SUCCESSFUL" (Some "FT1") ]
       initial_database).
Proof.
  apply (aggregate_consistent_when_clocks_agree Z.add).
  - apply initial_database_invariant.
  - repeat constructor.
Qed.

Example queue_after_the_morning :
  pending_queue db_queue
  = {[ 1 := entry_1; 2 := entry_2; 3 := entry_3; 4 := entry_4 ]}
  /\ map reference_number (offerings db_queue)
     = [ "TITHE-2026-0211-001"; "TITHE-2026-0211-002";
         "TITHE-2026-0211-003"; "TITHE-2026-0211-004" ].
Proof. split; vm_compute; reflexivity. Qed.

(** The tick of 09:23:20: entry 2 is past its cooldown, entry 4 is new. *)
Example sweep_selects_oldest_first :
  getPendingRows MAX_RETRIES BATCH_SIZE (t0 + 1400) db_queue
  = [(2, entry_2); (4, entry_4)].
Proof. vm_compute. reflexivity. Qed.

(** C4 at that queue. *)
Lemma retry_sweep_selection_witness :
  let sel := getPendingRows MAX_RETRIES BATCH_SIZE (t0 + 1400) db_queue in
  ((4, entry_4) ∈ sel)
  /\ ((1, entry_1) ∉ sel)
  /\ ((3, entry_3) ∉ sel).
Proof.
  pose proof (retry_sweep_selection (t0 + 1400) db_queue) as H.
  cbv zeta in H.
  destruct H as (_ & _ & _ & _ & _ & Hcomplete & Hbudget & Hcooldown).
  cbv zeta. split; [|split].
  - destruct (Hcomplete 4 entry_4)
      as [Hin|[Hlen _]];
      [vm_compute; reflexivity|vm_compute; reflexivity|by left|exact Hin|].
    rewrite sweep_selects_oldest_first in Hlen. discriminate.
  - apply Hbudget; [vm_compute; reflexivity|vm_compute; discriminate].
  - apply (Hcooldown _ _ (t0 + 1300));
      [vm_compute; reflexivity|reflexivity|vm_compute; reflexivity].
Defined.

(** C5 at that queue: at 09:23:20 MoMo accepts the resubmission of entry 2
    and is still unreachable for entry 4. *)
Lemma retry_sweep_outcomes_witness :
  let out := processPendingQueue (t0 + 1400)
               (fun r => if str_eq (pay_momoReferenceId r) "uuid-2"
                         then None else Some "ECONNREFUSED")
               (fun _ => t0 + 1401) db_queue in
  pending_queue out.1 !! 2 = None
  /\ pending_queue out.1 !! 4
     = Some (queued "TITHE-2026-0211-004" "uuid-4" 1 (Some (t0 + 1401)) (t0 + 1350))
  /\ pending_queue out.1 !! 1 = Some entry_1
  /\ map status (offerings out.1) = ["PENDING"; "PENDING"; "PENDING"; "PENDING"]
  /\ out.2 = {| succeeded := 1; failed := 1 |}.
Proof.
  pose proof (retry_sweep_outcomes (t0 + 1400)
                (fun r => if str_eq (pay_momoReferenceId r) "uuid-2"
                          then None else Some "ECONNREFUSED")
                (fun _ => t0 + 1401) db_queue) as H.
  cbv zeta in H. rewrite sweep_selects_oldest_first in H.
  destruct H as (Hrows & Hoffs & _ & Hother & _).
  cbv zeta. split; [|split; [|split; [|split]]].
  - destruct (Hrows 2 entry_2) as [Hacc _]; [by left|].
    apply Hacc. reflexivity.
  - destruct (Hrows 4 entry_4) as [_ Hrej]; [right; by left|].
    apply (Hrej "ECONNREFUSED"). reflexivity.
  - etrans; [apply (Hother 1)|vm_compute; reflexivity].
    apply (bool_decide_unpack _). vm_compute. exact I.
  - etrans; [exact (f_equal (map status) Hoffs)|vm_compute; reflexivity].
  - vm_compute. reflexivity.
Defined.

(** * Concrete runs of the rest of the code *)

(** The examples of the comments of utils/helpers.js and
    services/momoService.js. *)
Example maskPhone_example :
  maskPhone (Some "0241234567") = "024***4567"
  /\ maskPhone (Some "024123") = "024123"
  /\ toMSISDN "0241234567" = "233241234567".
Proof. repeat split. Qed.

Example escapeField_example :
  escapeField "Tithes, March"
  = String dquote ("Tithes, March" ++ String dquote "")
  /\ escapeField "Tithes" = "Tithes".
Proof. split; reflexivity. Qed.

(** Entry 1 has used up its retries: the health check counts three. *)
Example queue_size_after_the_morning : getQueueSize db_queue = 3%nat.
Proof. vm_compute. reflexivity. Qed.

Example seeded_sunday :
  map (fun o => (reference_number o, status o, created_at o))
      (offerings (post_seed Z.add sunday_seed initial_database).2)
  = [ ("TITHE-2026-0208-001", "SUCCESSFUL", "2026-02-08 09:05:30");
      ("TITHE-2026-0208-002", "FAILED", "2026-02-08 10:40:02");
      ("OFFR-2026-0208-001", "SUCCESSFUL", "2026-02-08 13:00:59") ]
  /\ daily_summaries (post_seed Z.add sunday_seed initial_database).2
       !! ("2026-02-08", "TITHE")
     = Some {| total_count := 2; total_amount := 200;
               success_count := 1; failed_count := 1 |}.
Proof. split; vm_compute; reflexivity. Qed.

(** X3 at the scenario: SUCCESSFUL reported by hand or by the provider. *)
Lemma manual_update_agrees_with_webhook_witness :
  (put_status "2026-02-11 09:05:00" "TITHE-2026-0211-001"
     {| update_status := Some "SUCCESSFUL";
        update_financialTxnId := Some "FT123" |} db_created).2
  = (post_momo_callback "2026-02-11 09:05:00"
       {| externalId := Some "TITHE-2026-0211-001";
          callback_status := Some "SUCCESSFUL";
          financialTransactionId := Some "FT123" |} db_created).2.
Proof.
  assert (Href : "TITHE-2026-0211-001" <> "") by discriminate.
  exact (proj1 (manual_update_agrees_with_webhook "2026-02-11 09:05:00"
                  "TITHE-2026-0211-001" (Some "SUCCESSFUL") (Some "FT123")
                  db_created Href)).
Defined.

(** X4 at the scenario: a manual update to FAILED. *)
Lemma stored_statuses_stay_recognized_witness :
  statuses_valid db_successful
  /\ statuses_valid
       (put_status "2026-02-11 09:07:00" "TITHE-2026-0211-001"
          {| update_status := Some "FAILED"; update_financialTxnId := None |}
          db_successful).2.
Proof.
  assert (Hv : statuses_valid db_successful).
  { intros o [<-|[]]. reflexivity. }
  split; [exact Hv|].
  destruct (stored_statuses_stay_recognized Z.add json_number_truthy Some
              (fun z => z <=? 0) db_successful Hv) as (_ & _ & Hput & _).
  apply Hput.
Defined.



Lemma listed_references_are_stored {REAL : Type} (l : list (@offering REAL))
    (refs : list string) :
  map reference_number l = refs ->
  forall ref, In ref refs ->
    exists o, In o l /\ reference_number o = ref.
Proof.
  intros <- ref Hin. apply in_map_iff in Hin as (o & Ho & Hin). by exists o.
Qed.

Lemma queue_well_formed_after_the_morning : queue_well_formed db_queue.
Proof.
  assert (Hseq : pending_queue_seq db_queue = 4) by (vm_compute; reflexivity).
  pose proof (listed_references_are_stored _ _ (proj2 queue_after_the_morning))
    as Hrefs.
  intros id r Hr. rewrite (proj1 queue_after_the_morning) in Hr.
  assert (Hrow : id <= 4 /\
            In (q_reference_number r)
               [ "TITHE-2026-0211-001"; "TITHE-2026-0211-002";
                 "TITHE-2026-0211-003"; "TITHE-2026-0211-004" ]).
  { clear Hseq Hrefs.
    apply lookup_insert_Some in Hr as [[<- <-]|[_ Hr]];
      [split; [lia|left; reflexivity]|].
    apply lookup_insert_Some in Hr as [[<- <-]|[_ Hr]];
      [split; [lia|right; left; reflexivity]|].
    apply lookup_insert_Some in Hr as [[<- <-]|[_ Hr]];
      [split; [lia|right; right; left; reflexivity]|].
    apply lookup_singleton_Some in Hr as [<- <-].
    split; [lia|right; right; right; left; reflexivity]. }
  destruct Hrow as [Hid Href]. split.
  - exact (eq_ind_r (fun n => id <= n) Hid Hseq).
  - exact (Hrefs _ Href).
Qed.

(** X9 at the queue of the morning. *)
Lemma queue_stays_well_formed_witness :
  queue_well_formed
    (processPendingQueue (t0 + 1400) momo_down (fun _ => t0 + 1401) db_queue).1.
Proof.
  exact (proj2 (proj2 (queue_stays_well_formed Z.add json_number_truthy Some
                         (fun z => z <=? 0) db_queue
                         queue_well_formed_after_the_morning))
           (t0 + 1400) momo_down (fun _ => t0 + 1401)).
Defined.

(** X14 on 11 February 2026. *)
Lemma today_is_a_valid_date_string_witness :
  isValidDateString (getTodayDateString feb11) = true.
Proof.
  apply today_is_a_valid_date_string; simpl; lia.
Defined.


(** X16: a note with a comma and the same note without it. *)
Lemma escapeField_injective_witness :
  escapeField "Tithes, March" <> escapeField "Tithes March".
Proof.
  apply escapeField_injective. discriminate.
Defined.

(** X17: a token fetched at 09:00:00 is reused one minute later, whatever
    the token endpoint would answer. *)
Lemma token_is_reused_until_it_expires_witness :
  getToken false 1770800460000 (TokenRefused "503" "Service Unavailable")
    (token_state (getToken false 1770800400000 (TokenGranted (Some "tok-1"))
                           initial_token_cache))
  = {| token_answer := inr (Some "tok-1");
       token_state := {| cachedToken := Some "tok-1";
                         tokenExpiresAt := 1770803900000 |};
       token_requests := 0 |}.
Proof.
  assert (Htok : "tok-1" <> "") by discriminate.
  refine (proj1 (token_is_reused_until_it_expires 1770800400000 1770800460000
                   "tok-1" (TokenRefused "503" "Service Unavailable")
                   initial_token_cache Htok eq_refl) _).
  lia.
Defined.

(** X20 at the scenario: the demo callback settles TITHE-2026-0211-001. *)
Lemma demo_settle_is_the_transition_witness :
  (demo_settle "2026-02-11 09:00:03" true "MLJ0X2A" "uuid-1"
               "TITHE-2026-0211-001" ∅ db_created).2
  = (updateStatusTxn "2026-02-11 09:00:03" "TITHE-2026-0211-001" "SUCCESSFUL"
                     (Some "FTMLJ0X2A") db_created).2.
Proof.
  assert (Hrefs : NoDup (map reference_number (offerings db_created)))
    by apply NoDup_singleton.
  assert (Hmomo : NoDup (map momo_reference_id (offerings db_created)))
    by apply NoDup_singleton.
  pose proof (demo_settle_is_the_transition "2026-02-11 09:00:03" true "MLJ0X2A"
                "uuid-1" "TITHE-2026-0211-001" ∅ db_created Hrefs Hmomo) as H.
  cbv zeta in H.
  change (getOfferingByMomoRef "uuid-1" db_created) with (Some tithe_001) in H.
  exact (proj1 H eq_refl).
Defined.

(** X21: clearing the store that the slip of the two dates left
    inconsistent, then seeding one Sunday. *)
Lemma seeding_keeps_the_ledger_consistent_witness :
  ledger_invariant Z.add
    (post_seed Z.add sunday_seed (clearAll db_after_midnight)).2.
Proof.
  assert (Hdates : Forall (fun day : string * list (string * list (@seed_draw Z)) =>
                             isValidDateString day.1 = true) sunday_seed)
    by (repeat constructor).
  exact (proj2 (proj2 (proj2 (seeding_keeps_the_ledger_consistent Z.add
                                sunday_seed db_after_midnight Hdates)))).
Defined.

(** X22 at the scenario, on a server in UTC: the second tithe of
    11 February 2026 gets the next number. *)
Lemma creation_succeeds_on_utc_server_witness :
  let out := post_offering_Z feb11 "2026-02-11 23:40:00" "uuid-2" (fun _ => None)
               1770853200 tithe_50_body db_created in
  create_http_status out.1 = 202
  /\ create_success out.1 = true
  /\ generateReference feb11 "TITHE" db_created = "TITHE-2026-0211-002".
Proof.
  assert (Hnow : calendar_date feb11) by (unfold calendar_date; simpl; lia).
  assert (Hops : Forall on_utc_server
                   [Create feb11 "2026-02-11 09:00:00" "uuid-1" tithe_50]).
  { constructor; [|constructor]. split; [exact Hnow|]. by exists "09:00:00". }
  assert (Hphone : "0241234567" <> "") by discriminate.
  assert (Hcat : "TITHE" <> "") by discriminate.
  assert (Huuid : forall o : @offering Z,
            In o (offerings db_created) -> momo_reference_id o <> "uuid-2").
  { intros o [<-|[]]. discriminate. }
  pose proof (creation_succeeds_on_utc_server Z.add json_number_truthy Some
                (fun z => z <=? 0)
                [Create feb11 "2026-02-11 09:00:00" "uuid-1" tithe_50]
                feb11 "2026-02-11 23:40:00" "uuid-2" (fun _ => None) 1770853200
                tithe_50_body "0241234567" 50 "TITHE" 50
                {| code := "TITHE"; name := "Tithes";
                   description := "10% income offering from members" |}
                Hops Hnow eq_refl Hphone eq_refl eq_refl eq_refl Hcat eq_refl
                eq_refl eq_refl Huuid) as H.
  split; [exact (proj1 H)|]. split; [exact (proj1 (proj2 H))|]. reflexivity.
Defined.
